(** * The incremental ingestion pipeline of [modules/utils/fetchdata.py]

    A shallow embedding of [CivitaiDataFetcher]: the cursor store
    ([_save_cursor], [_get_saved_state]), the record validator
    ([_process_item]), the embedding and store writer ([_check_duplicate],
    [_store_in_qdrant]) and the orchestrator loop ([fetch_and_store]),
    together with its constructor and [_get_last_cursor], the query side of
    [modules/utils/qdrant.py] ([get_qdrant_client], [get_similar_prompts],
    [format_prompt_for_rag]) and the per-page loops of the two maintenance
    scripts [update_model_field.py] and [update_prompt_fields.py].

    Python values decoded from JSON are a tree type [pyval]; what the
    embedding provider hands back is a second tree type [pyobj] (it may hold
    NumPy arrays).  Everything outside the repository that the code talks to
    -- the HTTP source, the embedding provider, the Qdrant collection, the
    local disk -- is an [env] of oracles that answer from the history of the
    calls made so far, so that a run is a function of the environment and
    every theorem quantifies over all environments. *)

From Stdlib Require Import ZArith List String Ascii Bool Lia.
From Stdlib Require Import Floats.PrimFloat Floats.FloatOps Floats.SpecFloat.
From Stdlib Require Import DecimalString DecimalPos.
From stdpp Require Import gmap.

Import ListNotations.
Set Warnings "-register-all".
Open Scope string_scope.
Open Scope list_scope.
Open Scope Z_scope.

(** ** Python values *)

(** A value as [json.load] / [response.json()] build it.  A [dict] keeps its
    keys in order; a key occurs at most once.  Text is ASCII. *)
Inductive pyval :=
| PyNone
| PyBool (b : bool)
| PyInt (z : Z)
| PyFloat (f : float)
| PyStr (s : string)
| PyList (l : list pyval)
| PyDict (d : list (string * pyval)).

(** [bool(v)], the test behind [if not v]. *)
Definition truthy (v : pyval) : bool :=
  match v with
  | PyNone => false
  | PyBool b => b
  | PyInt z => negb (z =? 0)
  | PyFloat f => negb (PrimFloat.eqb f 0%float)
  | PyStr s => negb (String.eqb s "")
  | PyList l => match l with [] => false | _ => true end
  | PyDict d => match d with [] => false | _ => true end
  end.

(** [isinstance(v, dict)] *)
Definition is_dict (v : pyval) : bool :=
  match v with PyDict _ => true | _ => false end.

(** [key in d] and [d.get(key, default)] on the entries of a dict. *)
Fixpoint lookup_key (d : list (string * pyval)) (key : string) : option pyval :=
  match d with
  | [] => None
  | (k, v) :: rest => if String.eqb k key then Some v else lookup_key rest key
  end.

Definition dict_get (d : list (string * pyval)) (key : string) (default : pyval) : pyval :=
  match lookup_key d key with
  | Some v => v
  | None => default
  end.

(** ** [int(...)] on text *)

(** The blanks [int] strips from both ends of its argument. *)
Definition is_space (c : ascii) : bool :=
  let n := nat_of_ascii c in
  ((9 <=? n)%nat && (n <=? 13)%nat) || (n =? 32)%nat.

Fixpoint lstrip (l : list ascii) : list ascii :=
  match l with
  | c :: rest => if is_space c then lstrip rest else l
  | [] => []
  end.

Definition strip (l : list ascii) : list ascii :=
  rev (lstrip (rev (lstrip l))).

Definition digit_value (c : ascii) : option Z :=
  let n := nat_of_ascii c in
  if ((48 <=? n)%nat && (n <=? 57)%nat) then Some (Z.of_nat (n - 48)) else None.

(** The digits after the first one: a single underscore may separate two
    digits.  [after_underscore] tells that the previous character was one. *)
Fixpoint more_digits (acc : Z) (after_underscore : bool) (l : list ascii) : option Z :=
  match l with
  | [] => if after_underscore then None else Some acc
  | c :: rest =>
      if Ascii.eqb c "_"%char then
        if after_underscore then None else more_digits acc true rest
      else
        match digit_value c with
        | Some d => more_digits (10 * acc + d) false rest
        | None => None
        end
  end.

Definition unsigned_literal (l : list ascii) : option Z :=
  match l with
  | [] => None
  | c :: rest =>
      match digit_value c with
      | Some d => more_digits d false rest
      | None => None
      end
  end.

(** [int(s)] for a [str] in base ten; [None] is [ValueError].  The
    interpreter's optional cap on the number of digits is not modelled. *)
Definition int_of_str (s : string) : option Z :=
  match strip (list_ascii_of_string s) with
  | "+"%char :: rest => unsigned_literal rest
  | "-"%char :: rest => option_map Z.opp (unsigned_literal rest)
  | l => unsigned_literal l
  end.

(** [str(z)] for an [int]. *)
Definition str_of_int (z : Z) : string :=
  NilZero.string_of_int (Z.to_int z).

(** [str(v)] where its text is fixed by the value alone: [None], a [bool],
    an [int] and a [str].  The text of a [float] and of a container is
    [repr]'s, left to the environment (see [py_repr] below). *)
Definition plain_str (v : pyval) : option string :=
  match v with
  | PyNone => Some "None"
  | PyBool true => Some "True"
  | PyBool false => Some "False"
  | PyInt z => Some (str_of_int z)
  | PyStr s => Some s
  | PyFloat _ | PyList _ | PyDict _ => None
  end.

(** [int(str(v))], the id coercion of [_process_item]; [None] is the
    [ValueError] it catches.  The [repr] of a [float] always holds one of
    [.], [e], [inf], [nan], that of a list a bracket and that of a dict a
    brace, so [int] refuses all three. *)
Definition int_of_str_of (v : pyval) : option Z :=
  match plain_str v with
  | Some s => int_of_str s
  | None => None
  end.

(** ** The record validator *)

Definition ALLOWED_MODELS : list string := ["Illustrious"; "Flux.1 D"; "Pony"].

Definition BATCH_SIZE : Z := 200.

(** [v in ALLOWED_MODELS]: membership in a list of [str] compares with [==],
    which only another [str] can satisfy. *)
Definition in_allowed_models (v : pyval) : bool :=
  match v with
  | PyStr s => existsb (String.eqb s) ALLOWED_MODELS
  | _ => false
  end.

(** The nested [meta] mapping of a processed record. *)
Record record_meta := {
  seed : pyval;
  steps : pyval;
  cfg_scale : pyval;
  sampler : pyval;
  width : pyval;
  height : pyval
}.

(** The dict [_process_item] returns: its keys are fixed, so it is a record. *)
Record record := {
  item_id : Z;
  url : pyval;
  prompt : pyval;
  negative_prompt : pyval;
  model_name : pyval;
  created_at : pyval;
  meta : record_meta
}.

(** The debug or error line [_process_item] writes before [return None]. *)
Inductive rejection :=
| InvalidItemFormat   (* "Invalid item format" *)
| NoId                (* "Item has no ID" *)
| InvalidIdFormat     (* "Invalid ID format" *)
| NoBaseModel         (* "has no base model" *)
| UnsupportedModel    (* "has unsupported model" *)
| InvalidMetaFormat   (* "has invalid meta format" *)
| NoPrompt.           (* "has no prompt" *)

(** The body of [_process_item]: the line it logs, or the record it
    builds.  No statement of the body raises on a JSON value other than the
    [int] call, whose error is caught where it stands, so the outer handler
    never fires. *)
Definition inspect_item (item : pyval) : rejection + record :=
  match item with
  | PyDict d =>
      let raw_id := dict_get d "id" PyNone in
      if negb (truthy raw_id) then inl NoId else
      match int_of_str_of raw_id with
      | None => inl InvalidIdFormat
      | Some item_id =>
          let base_model := dict_get d "baseModel" PyNone in
          if negb (truthy base_model) then inl NoBaseModel else
          if negb (in_allowed_models base_model) then inl UnsupportedModel else
          match dict_get d "meta" PyNone with
          | PyDict m =>
              let prompt := dict_get m "prompt" PyNone in
              if negb (truthy prompt) then inl NoPrompt else
              inr {| item_id := item_id;
                     url := dict_get d "url" (PyStr "");
                     prompt := prompt;
                     negative_prompt := dict_get m "negativePrompt" (PyStr "");
                     model_name := base_model;
                     created_at := dict_get d "createdAt" (PyStr "");
                     meta := {| seed := dict_get m "seed" PyNone;
                                steps := dict_get m "steps" PyNone;
                                cfg_scale := dict_get m "cfgScale" PyNone;
                                sampler := dict_get m "sampler" PyNone;
                                width := dict_get m "width" PyNone;
                                height := dict_get m "height" PyNone |} |}
          | _ => inl InvalidMetaFormat
          end
      end
  | _ => inl InvalidItemFormat
  end.

(** [_process_item(item)]: [None] for a rejected item. *)
Definition _process_item (item : pyval) : option record :=
  match inspect_item item with
  | inr r => Some r
  | inl _ => None
  end.

(** [v.get(key)] when [v] is a dict, [None] when it is not: the field of a
    raw item as the checks read it. *)
Definition field (v : pyval) (key : string) : pyval :=
  match v with
  | PyDict d => dict_get d key PyNone
  | _ => PyNone
  end.

(** *** The rejection rule in the words of the specification *)

(** "missing": the key is absent or holds [null]. *)
Definition missing (v : pyval) : bool :=
  match v with PyNone => true | _ => false end.

(** "coercible to an integer": an integer or a numeric string. *)
Definition coercible (v : pyval) : bool :=
  match v with
  | PyInt _ => true
  | PyStr s => match int_of_str s with Some _ => true | None => false end
  | _ => false
  end.

(** "empty" prompt text. *)
Definition empty_text (v : pyval) : bool :=
  match v with PyStr s => String.eqb s "" | _ => false end.

(** The four reasons of section 4.3, in its order. *)
Definition spec_rejects (item : pyval) : bool :=
  (missing (field item "id") || negb (coercible (field item "id")))
  || (missing (field item "baseModel") || negb (in_allowed_models (field item "baseModel")))
  || (missing (field item "meta") || negb (is_dict (field item "meta")))
  || (missing (field (field item "meta") "prompt")
      || empty_text (field (field item "meta") "prompt")).

(** *** Sample items *)

Definition sample_meta : pyval :=
  PyDict [("prompt", PyStr "a cat"); ("steps", PyInt 20); ("cfgScale", PyFloat 7.5)].

Definition sample_item (raw_id : pyval) : pyval :=
  PyDict [("id", raw_id); ("url", PyStr "https://example.org/1.png");
          ("baseModel", PyStr "Illustrious"); ("meta", sample_meta)].

Definition sample_record (n : Z) : record :=
  {| item_id := n;
     url := PyStr "https://example.org/1.png";
     prompt := PyStr "a cat";
     negative_prompt := PyStr "";
     model_name := PyStr "Illustrious";
     created_at := PyStr "";
     meta := {| seed := PyNone; steps := PyInt 20; cfg_scale := PyFloat 7.5;
                sampler := PyNone; width := PyNone; height := PyNone |} |}.

(** ** Embedding values *)

(** A NumPy array of floats: a scalar cell (zero dimensions) or a sequence
    of sub-arrays along its first axis. *)
Inductive ndarray :=
| NdScalar (x : float)
| NdAxis (cells : list ndarray).

(** What [get_embedding] may hand back.  [OOther] stands for any object that
    is neither a list nor an array and that [float] refuses with [TypeError]
    or [ValueError] ([None], a dict, a text that is no number). *)
Inductive pyobj :=
| OFloat (x : float)
| OInt (z : Z)
| OList (l : list pyobj)
| OArray (a : ndarray)
| OOther.

(** [a.tolist()] *)
Fixpoint tolist (a : ndarray) : pyobj :=
  match a with
  | NdScalar x => OFloat x
  | NdAxis cells => OList (map tolist cells)
  end.

(** The cells of an array in row-major order. *)
Fixpoint cells_of (a : ndarray) : list float :=
  match a with
  | NdScalar x => [x]
  | NdAxis cells => flat_map cells_of cells
  end.

(** What [float(x)] does. *)
Inductive conversion :=
| Converted (x : float)
| Refused        (* TypeError or ValueError *)
| Overflowed.    (* OverflowError: an int too large for a float *)

(** [float(z)] for an [int]: the nearest binary64 value, ties to even. *)
Definition float_of_int (z : Z) : conversion :=
  match binary_normalize 53 1024 z 0 false with
  | S754_infinity _ => Overflowed
  | sf => Converted (SF2Prim sf)
  end.

(** [float(x)]; an array converts when it holds exactly one cell. *)
Definition py_float (x : pyobj) : conversion :=
  match x with
  | OFloat f => Converted f
  | OInt z => float_of_int z
  | OArray a => match cells_of a with [c] => Converted c | _ => Refused end
  | OList _ | OOther => Refused
  end.

(** [[float(x) for x in l]]: the first element that fails ends the
    comprehension with its error. *)
Fixpoint floats_of (l : list pyobj) : conversion + list float :=
  match l with
  | [] => inr []
  | x :: rest =>
      match py_float x with
      | Converted f =>
          match floats_of rest with
          | inr fs => inr (f :: fs)
          | inl err => inl err
          end
      | err => inl err
      end
  end.

(** The three ways the write path leaves its embedding step. *)
Inductive normalized :=
| Vector (v : list float)   (* a point is built from [v] *)
| Skipped                   (* logged, [continue] *)
| Aborted.                  (* an error the step does not catch *)

(** [fetchdata.py], lines 224-230: "Handle different embedding formats". *)
Definition unwrap_embedding (embeddings : pyobj) : pyobj :=
  match embeddings with
  | OList (first :: _) =>
      match first with
      | OArray a => tolist a
      | _ => first
      end
  | OArray a => tolist a
  | _ => embeddings
  end.

(** [fetchdata.py], lines 224-242: the embedding step of [_store_in_qdrant]. *)
Definition normalize_embedding (embeddings : pyobj) : normalized :=
  match unwrap_embedding embeddings with
  | OList l =>
      match floats_of l with
      | inr v => Vector v
      | inl Overflowed => Aborted
      | inl _ => Skipped
      end
  | _ => Skipped
  end.

(** [qdrant.py], lines 62-67: the same step on the query path of
    [get_similar_prompts]; the value goes to the search as it is. *)
Definition query_embedding (embeddings : pyobj) : pyobj :=
  match embeddings with
  | OList (OArray a :: _) => tolist a
  | OArray a => tolist a
  | _ => embeddings
  end.


(** ** The world outside the process *)

(** A point of the collection: [models.PointStruct(id, vector, payload)]. *)
Record point := {
  point_id : Z;
  vector : list float;
  payload : record
}.

(** [modules/utils/tempfile.json] as [_get_saved_state] meets it.  The
    [json] module is taken by its contract: the text a complete [json.dump]
    of [data] leaves is text that [json.load] decodes to [data]; an empty or
    truncated file is text it rejects. *)
Inductive file_state :=
| Missing                 (* [os.path.exists] is false *)
| Unreadable              (* it exists; [open] or [read] raises *)
| Malformed               (* text [json.load] rejects with [JSONDecodeError] *)
| Holds (data : pyval).   (* text [json.load] decodes to [data] *)

(** How one [_save_cursor] goes on the disk. *)
Inductive write_outcome :=
| Written                 (* [json.dump] ran to its end *)
| FailsBeforeOpen         (* [os.makedirs] or [open] raises *)
| FailsAfterOpen.         (* [open(..., 'w')] emptied the file, then the write raises *)

(** Every call that leaves the process, oldest last. *)
Inductive event :=
| Fetched (limit : Z) (cursor : pyval) (answered : bool)
| Scrolled (wanted : Z) (answered : bool)
| Upserted (batch : list point) (answered : bool)
| Dumped (cursor : pyval) (total : Z) (how : write_outcome).

(** The environment: each oracle sees the events so far, so its answer may
    differ from one call to the next.  [None] and [true] in a [_raises] field
    stand for an exception. *)
Record env := {
  py_repr : pyval -> string;
  http_get : list event -> Z -> pyval -> option pyval;
  get_embedding : pyval -> option pyobj;
  point_struct_ok : Z -> list float -> bool;
  scroll_raises : list event -> Z -> bool;
  upsert_raises : list event -> list point -> bool;
  write_outcome_at : list event -> write_outcome
}.

Record world := {
  disk : file_state;
  collection : gmap Z point;
  history : list event
}.

Definition record_event (e : event) (w : world) : world :=
  {| disk := disk w; collection := collection w; history := e :: history w |}.

Definition set_disk (f : file_state) (w : world) : world :=
  {| disk := f; collection := collection w; history := history w |}.

Definition set_collection (c : gmap Z point) (w : world) : world :=
  {| disk := disk w; collection := c; history := history w |}.

(** A call either returns or lets an exception out. *)
Inductive result (A : Type) :=
| Returns (a : A)
| Raises.
Arguments Returns {A} a.
Arguments Raises {A}.

(** ** The cursor store *)

(** [str(v)] *)
Definition py_str (E : env) (v : pyval) : string :=
  match plain_str v with
  | Some s => s
  | None => py_repr E v
  end.

(** [int(x)] for a binary64 value: towards zero; [None] for [inf] and [nan]. *)
Definition int_of_float (f : float) : option Z :=
  match Prim2SF f with
  | S754_zero _ => Some 0
  | S754_finite s m e =>
      let magnitude := if 0 <=? e then Z.shiftl (Zpos m) e else Z.shiftr (Zpos m) (- e) in
      Some (if s then - magnitude else magnitude)
  | S754_infinity _ | S754_nan => None
  end.

(** [int(v)]; [None] is [TypeError], [ValueError] or [OverflowError]. *)
Definition py_int (v : pyval) : option Z :=
  match v with
  | PyInt z => Some z
  | PyBool b => Some (if b then 1 else 0)
  | PyFloat f => int_of_float f
  | PyStr s => int_of_str s
  | PyNone | PyList _ | PyDict _ => None
  end.

(** The dict [_save_cursor] dumps. *)
Definition cursor_data (cursor : pyval) (total_processed : Z) : pyval :=
  PyDict [("cursor", cursor); ("total_processed", PyInt total_processed)].

(** [_save_cursor(cursor, total_processed)]: it returns nothing and lets no
    exception out, whatever the disk does. *)
Definition _save_cursor (E : env) (cursor : pyval) (total_processed : Z) (w : world) : world :=
  let how := write_outcome_at E (history w) in
  let w' := record_event (Dumped cursor total_processed how) w in
  match how with
  | Written => set_disk (Holds (cursor_data cursor total_processed)) w'
  | FailsBeforeOpen => w'
  | FailsAfterOpen => set_disk Malformed w'
  end.

(** [_get_saved_state()] *)
Definition _get_saved_state (E : env) (w : world) : (string * Z) * world :=
  match disk w with
  | Missing => (("", 0), w)
  | Unreadable => (("", 0), w)
  | Malformed => (("", 0), _save_cursor E (PyStr "") 0 w)
  | Holds (PyDict d) =>
      let cursor := py_str E (dict_get d "cursor" (PyStr "")) in
      match py_int (dict_get d "total_processed" (PyInt 0)) with
      | Some total_processed => ((cursor, total_processed), w)
      | None => (("", 0), w)
      end
  | Holds _ => (("", 0), w)
  end.

(** ** The embedding and store writer *)

(** What a scroll filtered on the payload key [id] answers: whether some
    point of the collection has a payload with that id. *)
Definition scroll_finds (c : gmap Z point) (wanted : Z) : bool :=
  existsb (fun p => item_id (payload p) =? wanted) (map snd (map_to_list c)).

(** [_check_duplicate(item_id)]: a scroll for one point whose payload has
    this [id]; a scroll that raises counts as "no duplicate". *)
Definition _check_duplicate (E : env) (wanted : Z) (w : world) : bool * world :=
  if scroll_raises E (history w) wanted
  then (false, record_event (Scrolled wanted false) w)
  else (scroll_finds (collection w) wanted, record_event (Scrolled wanted true) w).

(** The first loop of [_store_in_qdrant]: [points] and [skipped] are its two
    accumulators. *)
Fixpoint collect_points (E : env) (records : list record) (points : list point)
    (skipped : Z) (w : world) : result (list point * Z) * world :=
  match records with
  | [] => (Returns (points, skipped), w)
  | r :: rest =>
      let (duplicate, w1) := _check_duplicate E (item_id r) w in
      if duplicate then collect_points E rest points (skipped + 1) w1 else
      match get_embedding E (prompt r) with
      | None => (Raises, w1)
      | Some embeddings =>
          match normalize_embedding embeddings with
          | Vector v =>
              if point_struct_ok E (item_id r) v
              then collect_points E rest
                     (points ++ [{| point_id := item_id r; vector := v; payload := r |}])
                     skipped w1
              else collect_points E rest points skipped w1
          | Skipped => collect_points E rest points skipped w1
          | Aborted => (Raises, w1)
          end
      end
  end.

(** [range(0, stop, step)] *)
Fixpoint range_from (count start step : nat) : list nat :=
  match count with
  | O => []
  | S k => start :: range_from k (start + step) step
  end.

Definition py_range (stop step : nat) : list nat :=
  range_from (Nat.div (stop + step - 1) step) 0 step.

(** [points[i:j]] *)
Definition slice {A : Type} (l : list A) (i j : nat) : list A :=
  firstn (j - i) (skipn i l).

(** What an acknowledged [upsert] does to the collection: each point takes
    the place of the one with its id, if any. *)
Definition upsert (batch : list point) (c : gmap Z point) : gmap Z point :=
  fold_left (fun acc p => <[point_id p := p]> acc) batch c.

Definition batch_size : nat := 50.

(** The second loop of [_store_in_qdrant], over the start indices [starts].
    An [upsert] that raises is taken to have stored nothing of its batch. *)
Fixpoint upsert_batches (E : env) (points : list point) (starts : list nat)
    (w : world) : result unit * world :=
  match starts with
  | [] => (Returns tt, w)
  | i :: rest =>
      let batch := slice points i (i + batch_size) in
      if upsert_raises E (history w) batch
      then (Raises, record_event (Upserted batch false) w)
      else upsert_batches E points rest
             (set_collection (upsert batch (collection w))
                (record_event (Upserted batch true) w))
  end.

(** [_store_in_qdrant(records)] *)
Definition _store_in_qdrant (E : env) (records : list record) (w : world) : result unit * world :=
  match collect_points E records [] 0 w with
  | (Returns (points, skipped), w1) =>
      match points with
      | [] => (Returns tt, w1)
      | _ => upsert_batches E points (py_range (length points) batch_size) w1
      end
  | (Raises, w1) => (Raises, w1)
  end.

(** ** The orchestrator *)

(** The variables [fetch_and_store] carries round its loop. *)
Record loop_state := {
  cursor : pyval;
  total_processed : Z;
  batch : Z
}.

(** How one turn of the loop ends. *)
Inductive step :=
| Continue (s : loop_state)   (* back to the [while] test *)
| Break (s : loop_state)      (* [break] *)
| Crash.                      (* an exception leaves [fetch_and_store] *)

(** What [len(v)] and [for item in v] see; [None] is their [TypeError]. *)
Definition py_iter (v : pyval) : option (list pyval) :=
  match v with
  | PyList l => Some l
  | PyStr s => Some (map (fun c => PyStr (String c EmptyString)) (list_ascii_of_string s))
  | PyDict d => Some (map (fun kv => PyStr (fst kv)) d)
  | PyNone | PyBool _ | PyInt _ | PyFloat _ => None
  end.

(** Lines 339-343: the records of the items [_process_item] keeps. *)
Fixpoint process_items (items : list pyval) : list record :=
  match items with
  | [] => []
  | item :: rest =>
      match _process_item item with
      | Some r => r :: process_items rest
      | None => process_items rest
      end
  end.

(** [data.get('metadata', {}).get('nextCursor', default)]; [None] is the
    [AttributeError] of a [metadata] that is no dict. *)
Definition next_cursor (d : list (string * pyval)) (default : pyval) : option pyval :=
  match dict_get d "metadata" (PyDict []) with
  | PyDict m => Some (dict_get m "nextCursor" default)
  | _ => None
  end.

(** Lines 347-356: the [if processed_records:] block.  [inl] is its
    [break]; [inr] goes on to line 359. *)
Definition store_page (E : env) (prev_processed : Z) (d : list (string * pyval))
    (processed_records : list record) (total : Z) (w : world) : (Z * world) + (Z * world) :=
  match processed_records with
  | [] => inr (total, w)
  | _ =>
      match _store_in_qdrant E processed_records w with
      | (Returns _, w1) =>
          let total := total + Z.of_nat (length processed_records) in
          match next_cursor d (PyStr "") with
          | Some c => inr (total, _save_cursor E c (prev_processed + total) w1)
          | None => inl (total, w1)
          end
      | (Raises, w1) => inl (total, w1)
      end
  end.

(** The body of the [while] loop, lines 304-365. *)
Definition iteration (E : env) (target_count prev_processed : Z) (s : loop_state)
    (w : world) : step * world :=
  let limit := Z.min BATCH_SIZE (target_count - total_processed s) in
  match http_get E (history w) limit (cursor s) with
  | None => (Crash, record_event (Fetched limit (cursor s) false) w)
  | Some data =>
      let w1 := record_event (Fetched limit (cursor s) true) w in
      match data with
      | PyDict d =>
          match lookup_key d "items" with
          | None => (Break s, w1)
          | Some items =>
              if negb (truthy items) then (Break s, w1) else
              match py_iter items with
              | None => (Crash, w1)
              | Some items =>
                  match store_page E prev_processed d (process_items items)
                          (total_processed s) w1 with
                  | inl (total, w2) =>
                      (Break {| cursor := cursor s; total_processed := total;
                                batch := batch s |}, w2)
                  | inr (total, w2) =>
                      match next_cursor d PyNone with
                      | None => (Crash, w2)
                      | Some c =>
                          let s' := {| cursor := c; total_processed := total;
                                       batch := batch s |} in
                          if negb (truthy c) then (Break s', w2)
                          else (Continue {| cursor := c; total_processed := total;
                                            batch := batch s + 1 |}, w2)
                      end
                  end
              end
          end
      | _ => (Break s, w1)
      end
  end.

(** How a run stands after a number of turns. *)
Inductive run :=
| Finished (s : loop_state)   (* the loop was left; the last log line is written *)
| Crashed                     (* an exception left [fetch_and_store] *)
| Running (s : loop_state).   (* the turns allowed are used up, the loop goes on *)

(** The [while total_processed < target_count] loop, cut after [turns] turns. *)
Fixpoint run_loop (E : env) (turns : nat) (target_count prev_processed : Z)
    (s : loop_state) (w : world) : run * world :=
  if total_processed s <? target_count then
    match turns with
    | O => (Running s, w)
    | S k =>
        match iteration E target_count prev_processed s w with
        | (Continue s', w') => run_loop E k target_count prev_processed s' w'
        | (Break s', w') => (Finished s', w')
        | (Crash, w') => (Crashed, w')
        end
    end
  else (Finished s, w).

(** [fetch_and_store(target_count)] *)
Definition fetch_and_store (E : env) (turns : nat) (target_count : Z) (w : world) : run * world :=
  let '((cursor, prev_processed), w0) := _get_saved_state E w in
  run_loop E turns target_count prev_processed
    {| cursor := PyStr cursor; total_processed := 0; batch := 1 |} w0.


(** ** Sample environments *)

Definition sample_vector : list float := [0.25; -0.5; 1]%float.

(** A source that answers from its cursor alone, a provider that always
    hands back [embedding], a collection that never fails and a disk that
    behaves as [how]. *)
Definition steady_env (source : pyval -> option pyval) (embedding : pyobj)
    (how : write_outcome) : env :=
  {| py_repr := fun _ => "<repr>";
     http_get := fun _ _ cursor => source cursor;
     get_embedding := fun _ => Some embedding;
     point_struct_ok := fun _ _ => true;
     scroll_raises := fun _ _ => false;
     upsert_raises := fun _ _ => false;
     write_outcome_at := fun _ => how |}.

Definition no_source : pyval -> option pyval := fun _ => None.

(** A provider that returns a singleton list holding one vector. *)
Definition nested_env : env :=
  steady_env no_source (OList [OList (map OFloat sample_vector)]) Written.

Definition empty_world : world :=
  {| disk := Missing; collection := ∅; history := [] |}.

(** A disk on which the write fails once the file is open, and a world
    whose state file holds the cursor ["abc"] and the total [42]. *)
Definition failing_disk_env : env := steady_env no_source OOther FailsAfterOpen.

Definition working_disk_env : env := steady_env no_source OOther Written.

Definition saved_world : world :=
  {| disk := Holds (cursor_data (PyStr "abc") 42); collection := ∅; history := [] |}.

(** A page whose only item has the id [0], which [_process_item] rejects,
    and a source that answers every request with it. *)
Definition rejected_page : list (string * pyval) :=
  [("items", PyList [sample_item (PyInt 0)]);
   ("metadata", PyDict [("nextCursor", PyStr "c1")])].

Definition rejected_pages_env : env :=
  steady_env (fun _ => Some (PyDict rejected_page))
    (OList [OList (map OFloat sample_vector)]) Written.

(** A page of three items -- one valid, one of a model outside the
    allow-list, one without a prompt -- and a source that answers with it. *)
Definition mixed_page : list (string * pyval) :=
  [("items",
    PyList [sample_item (PyInt 17);
            PyDict [("id", PyInt 18); ("baseModel", PyStr "SDXL"); ("meta", sample_meta)];
            PyDict [("id", PyInt 19); ("baseModel", PyStr "Illustrious");
                    ("meta", PyDict [("steps", PyInt 20)])]]);
   ("metadata", PyDict [("nextCursor", PyStr "c1")])].

Definition mixed_page_env : env :=
  steady_env (fun _ => Some (PyDict mixed_page))
    (OList [OList (map OFloat sample_vector)]) Written.

(** A page of 51 valid items, and an environment whose collection
    refuses every [upsert] after the first. *)
Definition many_items : list pyval :=
  map (fun n => sample_item (PyInt (Z.of_nat n))) (seq 1 51).

Definition full_page : list (string * pyval) :=
  [("items", PyList many_items);
   ("metadata", PyDict [("nextCursor", PyStr "c1")])].

Definition is_upsert (e : event) : bool :=
  match e with Upserted _ _ => true | _ => false end.

Definition second_upsert_fails_env : env :=
  {| py_repr := fun _ => "<repr>";
     http_get := fun _ _ _ => Some (PyDict full_page);
     get_embedding := fun _ => Some (OList [OList (map OFloat sample_vector)]);
     point_struct_ok := fun _ _ => true;
     scroll_raises := fun _ _ => false;
     upsert_raises := fun h _ => existsb is_upsert h;
     write_outcome_at := fun _ => Written |}.

Definition many_points : list point :=
  map (fun n => {| point_id := Z.of_nat n; vector := sample_vector;
                   payload := sample_record (Z.of_nat n) |}) (seq 1 51).

Definition first_turn : loop_state :=
  {| cursor := PyStr ""; total_processed := 0; batch := 1 |}.

(** The world of that environment after the fetch, after the first loop of
    [_store_in_qdrant], and after its first sub-batch. *)
Definition fetched_world : world :=
  record_event (Fetched 200 (PyStr "") true) empty_world.

Definition collected_world : world :=
  snd (collect_points second_upsert_fails_env (process_items many_items) [] 0 fetched_world).

Definition one_batch_world : world :=
  snd (upsert_batches second_upsert_fails_env many_points [0%nat] collected_world).

(** ** Notions used in the statements *)

(** [w'] is [w] after further calls, each of which satisfies [P]. *)
Definition added (P : event -> Prop) (w w' : world) : Prop :=
  exists new, history w' = new ++ history w /\ Forall P new.

(** A fetch asks for at least one item and at most [BATCH_SIZE]. *)
Definition within_cap (e : event) : Prop :=
  match e with
  | Fetched limit _ _ => 1 <= limit <= BATCH_SIZE
  | _ => True
  end.


(** Every point of the collection sits under the id of its payload, as
    the points built by [_store_in_qdrant] do. *)
Definition keyed_by_id (c : gmap Z point) : Prop :=
  forall k p, c !! k = Some p -> item_id (payload p) = k.

(** The record is one the first loop passes over without building a point
    and without raising: its embedding is not a list of numbers, or the
    point is refused. *)
Definition passed_over (E : env) (r : record) : bool :=
  match get_embedding E (prompt r) with
  | Some embeddings =>
      match normalize_embedding embeddings with
      | Vector v => negb (point_struct_ok E (item_id r) v)
      | Skipped => true
      | Aborted => false
      end
  | None => false
  end.

(** The sub-batches cut at the start indices [starts]. *)
Definition batches (points : list point) (starts : list nat) : list (list point) :=
  map (fun i => slice points i (i + batch_size)) starts.

(** ** Further notions used in the statements *)

(** What [_process_item] guarantees of a record it returns. *)
Definition valid_record (r : record) : Prop :=
  in_allowed_models (model_name r) = true /\ truthy (prompt r) = true.

(** A collection as [fetch_and_store] fills it: every point sits under its
    own id, which is the id of its payload, and its payload is a valid
    record. *)
Definition well_formed (c : gmap Z point) : Prop :=
  forall k p,
    c !! k = Some p ->
    point_id p = k /\ item_id (payload p) = k /\ valid_record (payload p).

(** No scroll of this environment raises. *)
Definition reliable_scroll (E : env) : Prop :=
  forall h wanted, scroll_raises E h wanted = false.

(** The source never answers with more items than the one or more it was
    asked for. *)
Definition honours_limit (E : env) : Prop :=
  forall h limit c d items its,
    1 <= limit ->
    http_get E h limit c = Some (PyDict d) ->
    lookup_key d "items" = Some items ->
    py_iter items = Some its ->
    Z.of_nat (length its) <= limit.

(** The point [_store_in_qdrant] builds for a record and a vector. *)
Definition point_of (r : record) (v : list float) : point :=
  {| point_id := item_id r; vector := v; payload := r |}.



(** *** More sample environments *)

(** A collection that already holds a point for the id [17], with another
    vector. *)
Definition stocked_world : world :=
  {| disk := Missing;
     collection := {[ 17 := {| point_id := 17; vector := [0%float];
                               payload := sample_record 17 |} ]};
     history := [] |}.

(** An environment whose scroll always raises. *)
Definition deaf_scroll_env : env :=
  {| py_repr := fun _ => "<repr>";
     http_get := fun _ _ _ => None;
     get_embedding := fun _ => Some (OList [OList (map OFloat sample_vector)]);
     point_struct_ok := fun _ _ => true;
     scroll_raises := fun _ _ => true;
     upsert_raises := fun _ _ => false;
     write_outcome_at := fun _ => Written |}.

(** A source that serves one valid item when asked for at least one, and
    no item otherwise. *)
Definition one_item_page : list (string * pyval) :=
  [("items", PyList [sample_item (PyInt 17)]);
   ("metadata", PyDict [("nextCursor", PyStr "c1")])].

Definition polite_env : env :=
  {| py_repr := fun _ => "<repr>";
     http_get := fun _ limit _ =>
                   Some (PyDict (if 1 <=? limit then one_item_page
                                 else [("items", PyList [])]));
     get_embedding := fun _ => Some (OList [OList (map OFloat sample_vector)]);
     point_struct_ok := fun _ _ => true;
     scroll_raises := fun _ _ => false;
     upsert_raises := fun _ _ => false;
     write_outcome_at := fun _ => Written |}.

(** The last page of a stream: one valid item, and a [nextCursor] that is
    [null]. *)
Definition last_page : list (string * pyval) :=
  [("items", PyList [sample_item (PyInt 17)]);
   ("metadata", PyDict [("nextCursor", PyNone)])].

Definition last_page_env : env :=
  steady_env (fun _ => Some (PyDict last_page))
    (OList [OList (map OFloat sample_vector)]) Written.


(** A second record for the id [7], with another prompt. *)
Definition second_record : record :=
  {| item_id := 7;
     url := PyStr "https://example.org/2.png";
     prompt := PyStr "a dog";
     negative_prompt := PyStr "";
     model_name := PyStr "Pony";
     created_at := PyStr "";
     meta := {| seed := PyNone; steps := PyNone; cfg_scale := PyNone;
                sampler := PyNone; width := PyNone; height := PyNone |} |}.


(** ** The constructor and the other reader of the state file *)

Definition REQUIRED_SECRETS : list string :=
  ["CIVITAI_API_KEY"; "QDRANT_URL"; "QDRANT_API_KEY"; "COLLECTION_NAME"].

(** [fetchdata.py], lines 40-42: the secrets taken from the environment;
    [os.getenv] gives the text of a variable, or [None]. *)
Definition secrets_from_env (getenv : string -> option string) : list (string * pyval) :=
  map (fun secret =>
         (secret, match getenv secret with Some s => PyStr s | None => PyNone end))
      REQUIRED_SECRETS.

(** Lines 34-45: where the secrets come from.  [st_secrets] is the mapping
    [st.secrets] holds, [None] when Streamlit cannot read it (there is no
    [secrets.toml]): any access to it then raises. *)
Definition chosen_secrets (use_env : bool) (getenv : string -> option string)
    (st_secrets : option (list (string * pyval))) : option (list (string * pyval)) :=
  if use_env then Some (secrets_from_env getenv) else st_secrets.

(** Lines 48-51: [secret not in secrets or not secrets[secret]]. *)
Definition missing_secrets (secrets : list (string * pyval)) : list string :=
  List.filter (fun secret =>
                 match lookup_key secrets secret with
                 | Some v => negb (truthy v)
                 | None => true
                 end)
              REQUIRED_SECRETS.

(** The attributes [__init__] sets, the two clients apart. *)
Record fetcher := {
  api_key : pyval;
  base_url : string;
  collection_name : pyval;
  temp_file : string
}.

(** How the constructor ends. *)
Inductive constructed :=
| Built (self : fetcher)
| ValueError (message : string)   (* line 54 *)
| SecretsError                    (* line 50: [st.secrets] cannot be read *)
| ClientError.                    (* [FastEmbedEmbedder()] or [QdrantClient(...)] raises *)

(** [CivitaiDataFetcher(use_env)]; [clients_ok] tells whether the two
    client constructors of lines 58-62 return. *)
Definition __init__ (E : env) (use_env : bool) (getenv : string -> option string)
    (st_secrets : option (list (string * pyval))) (clients_ok : bool) (w : world)
    : constructed * world :=
  match chosen_secrets use_env getenv st_secrets with
  | None => (SecretsError, w)
  | Some secrets =>
      let missing := missing_secrets secrets in
      match missing with
      | _ :: _ =>
          (ValueError (String.append "Missing required secrets: "
                         (String.concat ", " missing)), w)
      | [] =>
          if clients_ok
          then (Built {| api_key := dict_get secrets "CIVITAI_API_KEY" PyNone;
                         base_url := "https://civitai.com/api/v1/images";
                         collection_name := dict_get secrets "COLLECTION_NAME" PyNone;
                         temp_file := "modules/utils/tempfile.json" |},
                match disk w with
                | Missing => _save_cursor E (PyStr "") 0 w
                | _ => w
                end)
          else (ClientError, w)
      end
  end.

(** [_get_last_cursor()]: the stored cursor as it is, [None] when there is
    no file or anything fails; it writes nothing. *)
Definition _get_last_cursor (w : world) : pyval :=
  match disk w with
  | Missing => PyNone
  | Unreadable => PyNone
  | Malformed => PyNone
  | Holds (PyDict d) => dict_get d "cursor" (PyStr "")
  | Holds _ => PyNone
  end.

(** A secret the validation lets through: present and truthy. *)
Definition usable (secrets : list (string * pyval)) (secret : string) : Prop :=
  exists v, lookup_key secrets secret = Some v /\ truthy v = true.

(** An environment where one variable is set but empty. *)
Definition empty_url_env (name : string) : option string :=
  if String.eqb name "QDRANT_URL" then Some "" else Some "x".

Definition full_env (name : string) : option string := Some "x".


(** ** The query side ([qdrant.py]) *)

(** What a search hit carries for [get_similar_prompts]: its payload,
    [None] when the point has none. *)
Definition hit := option (list (string * pyval)).

(** The outside of [get_similar_prompts]: the secrets of Streamlit, whether
    the client constructors return, whether an embedding that is neither a
    list, an array nor a number has a length and slices (a text does, [None]
    does not), and the search of the Qdrant client ([None]: it raises). *)
Record query_env := {
  st_secrets : list (string * pyval);
  clients_built : bool;
  other_is_sequence : bool;
  search : string -> pyobj -> Z -> option string -> option (list hit)
}.

(** [get_qdrant_client()]: [None], or the clients; of the clients the
    caller uses the [collection] attribute, which is what this returns. *)
Definition get_qdrant_client (Q : query_env) : option pyval :=
  match lookup_key (st_secrets Q) "QDRANT_API_KEY" with
  | None => None
  | Some qdrant_api_key =>
      if negb (truthy qdrant_api_key) then None else
      match lookup_key (st_secrets Q) "QDRANT_URL" with
      | None => None
      | Some qdrant_url =>
          if negb (truthy qdrant_url) then None else
          match lookup_key (st_secrets Q) "COLLECTION_NAME" with
          | None => None
          | Some collection_name =>
              if clients_built Q then Some collection_name else None
          end
      end
  end.

(** [s.replace(old, new)] for patterns of one character. *)
Fixpoint replace_char (old new : ascii) (s : string) : string :=
  match s with
  | EmptyString => EmptyString
  | String c rest =>
      String (if Ascii.eqb c old then new else c) (replace_char old new rest)
  end.

(** Lines 69-70: [len(embeddings)] and [embeddings[:3]] go through. *)
Definition is_sequence (Q : query_env) (embeddings : pyobj) : bool :=
  match embeddings with
  | OList _ => true
  | OArray (NdAxis _) => true
  | OArray (NdScalar _) => false
  | OFloat _ | OInt _ => false
  | OOther => other_is_sequence Q
  end.

(** Lines 50-89: the arguments of the search, when the function gets that
    far: collection name, query vector, limit and the value the filter on
    [model_name] must match, if any. *)
Definition search_request (E : env) (Q : query_env) (prompt model_name : string) (k : Z)
    : option (string * pyobj * Z * option string) :=
  match get_qdrant_client Q with
  | None => None
  | Some collection =>
      match get_embedding E (PyStr prompt) with
      | None => None
      | Some embeddings =>
          let embeddings := query_embedding embeddings in
          if is_sequence Q embeddings then
            match collection with
            | PyStr name =>
                Some (replace_char "-" "_" name, embeddings, k,
                      if String.eqb model_name "general" then None else Some model_name)
            | _ => None
            end
          else None
      end
  end.

(** Lines 92-95; [None]: a hit without payload makes [in] raise. *)
Fixpoint prompts_of (hits : list hit) : option (list pyval) :=
  match hits with
  | [] => Some []
  | None :: _ => None
  | Some hit_payload :: rest =>
      match prompts_of rest with
      | None => None
      | Some prompts =>
          Some match lookup_key hit_payload "prompt" with
               | Some p => p :: prompts
               | None => prompts
               end
      end
  end.

(** [get_similar_prompts(prompt, model_name, k)] *)
Definition get_similar_prompts (E : env) (Q : query_env) (prompt model_name : string)
    (k : Z) : list pyval :=
  match search_request E Q prompt model_name k with
  | None => []
  | Some (collection_name, query_vector, limit, query_filter) =>
      match search Q collection_name query_vector limit query_filter with
      | None => []
      | Some results =>
          match prompts_of results with
          | Some prompts => prompts
          | None => []
          end
      end
  end.

Definition newline : string := String (ascii_of_nat 10) EmptyString.

(** Lines 109-111: the text of one example. *)
Definition rag_entry (E : env) (idx : Z) (p : pyval) : string :=
  String.append
    (String.append
       (String.append "Example " (String.append (str_of_int idx) (String.append ":" newline)))
       (String.append "Prompt: " (String.append (py_str E p) newline)))
    (String.append "Score: 0.0" newline).

(** [enumerate(similar_prompts, idx)] through the loop. *)
Fixpoint rag_entries (E : env) (idx : Z) (similar_prompts : list pyval) : list string :=
  match similar_prompts with
  | [] => []
  | p :: rest => rag_entry E idx p :: rag_entries E (idx + 1) rest
  end.

(** [format_prompt_for_rag(similar_prompts)] *)
Definition format_prompt_for_rag (E : env) (similar_prompts : list pyval) : string :=
  String.concat newline (rag_entries E 1 similar_prompts).

(** [needle in hay] for texts. *)
Definition occurs (needle hay : string) : Prop :=
  exists before after, hay = String.append before (String.append needle after).

(** Secrets with a hyphen in the collection name, and a search that answers
    one hit with a prompt and one without. *)
Definition hyphen_secrets : list (string * pyval) :=
  [("CIVITAI_API_KEY", PyStr "key"); ("QDRANT_URL", PyStr "https://example.org");
   ("QDRANT_API_KEY", PyStr "key"); ("COLLECTION_NAME", PyStr "civitai-images")].

Definition two_hits_env : query_env :=
  {| st_secrets := hyphen_secrets;
     clients_built := true;
     other_is_sequence := false;
     search := fun _ _ _ _ =>
       Some [Some [("id", PyInt 7); ("prompt", PyStr "a cat")];
             Some [("id", PyInt 8)]] |}.


(** ** The maintenance scripts *)

(** A point as a scroll with payload and vectors hands it to the scripts:
    [record.id], [record.payload] ([None] when the point has none) and
    [record.vector]. *)
Record stored := {
  stored_id : Z;
  stored_payload : option (list (string * pyval));
  stored_vector : list float
}.

(** [models.PointStruct(id, payload, vector)] with a payload that is a
    plain dict. *)
Record jpoint := {
  jpoint_id : Z;
  jpoint_payload : list (string * pyval);
  jpoint_vector : list float
}.

(** [d[key] = value]: a key that is there keeps its place. *)
Fixpoint dict_set (d : list (string * pyval)) (key : string) (value : pyval)
    : list (string * pyval) :=
  match d with
  | [] => [(key, value)]
  | (k, v) :: rest =>
      if String.eqb k key then (k, value) :: rest else (k, v) :: dict_set rest key value
  end.

(** What [d.pop(key)] leaves of [d]. *)
Definition dict_remove (d : list (string * pyval)) (key : string) : list (string * pyval) :=
  List.filter (fun entry => negb (String.eqb (fst entry) key)) d.

(** The loop over one page of a script: the updates in page order; an
    exception of one record ends the script. *)
Fixpoint points_to_update (update : stored -> result (option jpoint))
    (records : list stored) : result (list jpoint) :=
  match records with
  | [] => Returns []
  | r :: rest =>
      match update r with
      | Raises => Raises
      | Returns changed =>
          match points_to_update update rest with
          | Raises => Raises
          | Returns points =>
              Returns match changed with
                      | Some p => p :: points
                      | None => points
                      end
          end
      end
  end.

(** [update_model_field.py], lines 66-106: what the script does with one
    record; it runs under a [try] that logs and raises again. *)
Definition model_field_step (E : env) (r : stored) : result (option jpoint) :=
  match stored_payload r with
  | None => Raises
  | Some payload =>
      match lookup_key payload "model_name" with
      | None => Returns None
      | Some model =>
          let new_payload := dict_set (dict_remove payload "model_name") "baseModel" model in
          let prompt := dict_get new_payload "prompt" (PyStr "") in
          if negb (truthy prompt) then Returns None else
          match get_embedding E prompt with
          | None => Raises
          | Some embeddings =>
              match normalize_embedding embeddings with
              | Vector v =>
                  if point_struct_ok E (stored_id r) v
                  then Returns (Some {| jpoint_id := stored_id r;
                                        jpoint_payload := new_payload;
                                        jpoint_vector := v |})
                  else Raises
              | Skipped => Returns None
              | Aborted => Raises
              end
          end
      end
  end.

(** [key in v] for a JSON value: a key of a dict, an element of a list, a
    part of a text; [None] is the [TypeError] of the other values. *)
Definition py_in (key : string) (v : pyval) : option bool :=
  match v with
  | PyDict d => Some match lookup_key d key with Some _ => true | None => false end
  | PyList l =>
      Some (existsb (fun x => match x with PyStr s => String.eqb s key | _ => false end) l)
  | PyStr s => Some match String.index 0 key s with Some _ => true | None => false end
  | PyNone | PyBool _ | PyInt _ | PyFloat _ => None
  end.

(** [key not in payload and key in meta]; the second test is not made when
    the first fails. *)
Definition only_in_meta (key : string) (payload : list (string * pyval)) (meta : pyval)
    : option bool :=
  match lookup_key payload key with
  | Some _ => Some false
  | None => py_in key meta
  end.

(** [update_prompt_fields.py], lines 66-67. *)
Definition fields_to_move (payload : list (string * pyval)) (meta : pyval) : option bool :=
  match only_in_meta "prompt" payload meta with
  | None => None
  | Some true => Some true
  | Some false => only_in_meta "negativePrompt" payload meta
  end.

(** Lines 73-76, for one of the two keys: [new_payload] and [new_meta]
    after the move.  The key is in [meta] exactly when it is in [new_meta],
    which has lost at most the other key. *)
Definition move_field (key : string) (moved : list (string * pyval) * list (string * pyval))
    : list (string * pyval) * list (string * pyval) :=
  let (new_payload, new_meta) := moved in
  match lookup_key new_meta key with
  | Some value => (dict_set new_payload key value, dict_remove new_meta key)
  | None => (new_payload, new_meta)
  end.

(** [update_prompt_fields.py], lines 62-86: what the script does with one
    record.  A [meta] that is no dict and passes the test of lines 66-67 is
    a text or a list that holds one of the two names, which [dict(meta)]
    refuses. *)
Definition prompt_fields_step (E : env) (r : stored) : result (option jpoint) :=
  match stored_payload r with
  | None => Raises
  | Some payload =>
      let meta := dict_get payload "meta" (PyDict []) in
      match fields_to_move payload meta with
      | None => Raises
      | Some false => Returns None
      | Some true =>
          match meta with
          | PyDict m =>
              let (new_payload, new_meta) :=
                move_field "negativePrompt" (move_field "prompt" (payload, m)) in
              if point_struct_ok E (stored_id r) (stored_vector r)
              then Returns (Some {| jpoint_id := stored_id r;
                                    jpoint_payload := dict_set new_payload "meta" (PyDict new_meta);
                                    jpoint_vector := stored_vector r |})
              else Raises
          | _ => Raises
          end
      end
  end.

(** A point the script wrote, as a later scroll returns it. *)
Definition read_back (p : jpoint) : stored :=
  {| stored_id := jpoint_id p;
     stored_payload := Some (jpoint_payload p);
     stored_vector := jpoint_vector p |}.

(** The dict of lines 162-177 of [fetchdata.py], which [_store_in_qdrant]
    sends as payload. *)
Definition payload_dict (r : record) : list (string * pyval) :=
  [("id", PyInt (item_id r)); ("url", url r); ("prompt", prompt r);
   ("negative_prompt", negative_prompt r); ("model_name", model_name r);
   ("created_at", created_at r);
   ("meta", PyDict [("seed", seed (meta r)); ("steps", steps (meta r));
                    ("cfg_scale", cfg_scale (meta r)); ("sampler", sampler (meta r));
                    ("width", width (meta r)); ("height", height (meta r))])].

(** A point of the fetcher as the scripts read it. *)
Definition stored_of (p : point) : stored :=
  {| stored_id := point_id p;
     stored_payload := Some (payload_dict (payload p));
     stored_vector := vector p |}.

(** A record of the older layout, with its prompts under [meta]. *)
Definition old_layout : stored :=
  {| stored_id := 3;
     stored_payload :=
       Some [("id", PyInt 3); ("model_name", PyStr "Pony"); ("prompt", PyStr "root");
             ("meta", PyDict [("prompt", PyStr "a cat"); ("negativePrompt", PyStr "blurry");
                              ("seed", PyInt 1)])];
     stored_vector := sample_vector |}.


(** What the two scripts make of [old_layout]. *)
Definition renamed_layout : jpoint :=
  {| jpoint_id := 3;
     jpoint_payload :=
       [("id", PyInt 3); ("prompt", PyStr "root");
        ("meta", PyDict [("prompt", PyStr "a cat"); ("negativePrompt", PyStr "blurry");
                         ("seed", PyInt 1)]);
        ("baseModel", PyStr "Pony")];
     jpoint_vector := sample_vector |}.

Definition moved_layout : jpoint :=
  {| jpoint_id := 3;
     jpoint_payload :=
       [("id", PyInt 3); ("model_name", PyStr "Pony"); ("prompt", PyStr "a cat");
        ("meta", PyDict [("seed", PyInt 1)]); ("negativePrompt", PyStr "blurry")];
     jpoint_vector := sample_vector |}.

(** * Properties *)

(** ** Text of integers *)

Section IntText.

Let chars (d : Decimal.uint) : list ascii :=
  list_ascii_of_string (NilEmpty.string_of_uint d).

Lemma lstrip_no_space (l : list ascii) :
  Forall (fun c => is_space c = false) l -> lstrip l = l.
Proof.
  destruct 1 as [|c l Hc Hl]; simpl; [reflexivity|].
  now rewrite Hc.
Qed.

Lemma strip_no_space (l : list ascii) :
  Forall (fun c => is_space c = false) l -> strip l = l.
Proof.
  intros H. unfold strip.
  rewrite (lstrip_no_space l H).
  rewrite lstrip_no_space by now apply Forall_rev.
  apply rev_involutive.
Qed.

Lemma chars_no_space (d : Decimal.uint) :
  Forall (fun c => is_space c = false) (chars d).
Proof.
  induction d; simpl; constructor; auto.
Qed.

Lemma more_digits_acc (d : Decimal.uint) :
  forall acc : positive,
    more_digits (Zpos acc) false (chars d) = Some (Zpos (Pos.of_uint_acc d acc)).
Proof.
  induction d; intros acc; [reflexivity|..];
    unfold chars; cbn [NilEmpty.string_of_uint list_ascii_of_string];
    fold (chars d); cbn [more_digits].
  all: match goal with |- context [Ascii.eqb ?c ?u] =>
         change (Ascii.eqb c u) with false end; cbv iota.
  all: match goal with |- context [digit_value ?c] =>
         let v := eval vm_compute in (digit_value c) in
         change (digit_value c) with v end; cbv iota.
  all: cbn [Pos.of_uint_acc]; rewrite <- IHd; f_equal; lia.
Qed.

Lemma more_digits_zero (d : Decimal.uint) :
  more_digits 0 false (chars d) = Some (Z.of_N (Pos.of_uint d)).
Proof.
  induction d; [reflexivity|..];
    unfold chars; cbn [NilEmpty.string_of_uint list_ascii_of_string];
    fold (chars d); cbn [more_digits].
  all: match goal with |- context [Ascii.eqb ?c ?u] =>
         change (Ascii.eqb c u) with false end; cbv iota.
  all: match goal with |- context [digit_value ?c] =>
         let v := eval vm_compute in (digit_value c) in
         change (digit_value c) with v end; cbv iota.
  all: match goal with |- more_digits ?a _ _ = _ =>
         let a' := eval vm_compute in a in change a with a' end.
  all: first [exact IHd | rewrite more_digits_acc; reflexivity].
Qed.

Lemma unsigned_literal_chars (d : Decimal.uint) :
  d <> Decimal.Nil ->
  unsigned_literal (chars d) = Some (Z.of_N (Pos.of_uint d)).
Proof.
  intros Hd. rewrite <- more_digits_zero.
  destruct d; [congruence|..]; reflexivity.
Qed.

(** [int(str(z))] gives [z] back. *)
Lemma int_of_str_of_int (z : Z) : int_of_str (str_of_int z) = Some z.
Proof.
  unfold int_of_str, str_of_int.
  destruct z as [|p|p]; [reflexivity|..]; cbn [Z.to_int NilZero.string_of_int].
  - pose proof (DecimalPos.Unsigned.to_uint_nonnil p) as Hnil.
    assert (Hs : NilZero.string_of_uint (Pos.to_uint p)
                 = NilEmpty.string_of_uint (Pos.to_uint p))
      by (destruct (Pos.to_uint p); [congruence|..]; reflexivity).
    rewrite Hs. fold (chars (Pos.to_uint p)).
    rewrite strip_no_space by apply chars_no_space.
    pose proof (unsigned_literal_chars _ Hnil) as Hu.
    rewrite DecimalPos.Unsigned.of_to in Hu.
    destruct (Pos.to_uint p); [congruence|..]; exact Hu.
  - pose proof (DecimalPos.Unsigned.to_uint_nonnil p) as Hnil.
    assert (Hs : NilZero.string_of_uint (Pos.to_uint p)
                 = NilEmpty.string_of_uint (Pos.to_uint p))
      by (destruct (Pos.to_uint p); [congruence|..]; reflexivity).
    rewrite Hs. cbn [list_ascii_of_string]. fold (chars (Pos.to_uint p)).
    rewrite strip_no_space
      by (constructor; [reflexivity | apply chars_no_space]).
    rewrite (unsigned_literal_chars _ Hnil), DecimalPos.Unsigned.of_to.
    reflexivity.
Qed.

End IntText.

Example int_of_str_samples :
  int_of_str " -1_000 " = Some (-1000)
  /\ int_of_str "007" = Some 7
  /\ int_of_str "1__0" = None
  /\ int_of_str "5_" = None
  /\ int_of_str "- 5" = None
  /\ int_of_str "1.0" = None
  /\ int_of_str "" = None.
Proof. repeat split. Qed.

Example float_of_int_samples :
  float_of_int 3 = Converted 3%float
  /\ float_of_int (- (2 ^ 53 + 1)) = Converted (-9007199254740992)%float
  /\ float_of_int (2 ^ 1024) = Overflowed.
Proof. repeat split. Qed.

(** ** The record validator *)

Example process_sample : _process_item (sample_item (PyInt 17)) = Some (sample_record 17).
Proof. reflexivity. Qed.

Example process_sample_text_id :
  _process_item (sample_item (PyStr " 1_7 ")) = Some (sample_record 17).
Proof. reflexivity. Qed.

Lemma allowed_is_truthy (v : pyval) :
  in_allowed_models v = true -> truthy v = true.
Proof.
  destruct v as [| | | |s| |]; simpl; try discriminate.
  destruct (String.eqb_spec s "Illustrious") as [->|_]; [reflexivity|].
  destruct (String.eqb_spec s "Flux.1 D") as [->|_]; [reflexivity|].
  destruct (String.eqb_spec s "Pony") as [->|_]; [reflexivity|discriminate].
Qed.

(** The log line tells the first check that failed: every check before it
    passed. *)
Lemma inspect_item_reason (item : pyval) (reason : rejection) :
  inspect_item item = inl reason ->
  match reason with
  | InvalidItemFormat => is_dict item = false
  | NoId => is_dict item = true /\ truthy (field item "id") = false
  | InvalidIdFormat =>
      truthy (field item "id") = true /\ int_of_str_of (field item "id") = None
  | NoBaseModel =>
      truthy (field item "id") = true /\ int_of_str_of (field item "id") <> None
      /\ truthy (field item "baseModel") = false
  | UnsupportedModel =>
      truthy (field item "id") = true /\ int_of_str_of (field item "id") <> None
      /\ truthy (field item "baseModel") = true
      /\ in_allowed_models (field item "baseModel") = false
  | InvalidMetaFormat =>
      truthy (field item "id") = true /\ int_of_str_of (field item "id") <> None
      /\ in_allowed_models (field item "baseModel") = true
      /\ is_dict (field item "meta") = false
  | NoPrompt =>
      truthy (field item "id") = true /\ int_of_str_of (field item "id") <> None
      /\ in_allowed_models (field item "baseModel") = true
      /\ is_dict (field item "meta") = true
      /\ truthy (field (field item "meta") "prompt") = false
  end.
Proof.
  destruct item as [| | | | | |d]; simpl; try (intros [= <-]; reflexivity).
  destruct (truthy (dict_get d "id" PyNone)) eqn:Hid; simpl;
    [|intros [= <-]; auto].
  destruct (int_of_str_of (dict_get d "id" PyNone)) as [n|] eqn:Hint;
    [|intros [= <-]; auto].
  destruct (truthy (dict_get d "baseModel" PyNone)) eqn:Hmodel; simpl;
    [|intros [= <-]; repeat split; congruence].
  destruct (in_allowed_models (dict_get d "baseModel" PyNone)) eqn:Hallowed; simpl;
    [|intros [= <-]; repeat split; congruence].
  destruct (dict_get d "meta" PyNone) as [| | | | | |m] eqn:Hmeta;
    try (intros [= <-]; repeat split; congruence).
  simpl. destruct (truthy (dict_get m "prompt" PyNone)) eqn:Hprompt; simpl;
    [discriminate|intros [= <-]; repeat split; congruence].
Qed.

(** C4 (as amended): [_process_item] rejects an item exactly when the item
    is no mapping, or its id is falsy (absent, [None], [0], empty) or
    [int(str(id))] fails, or its base model is falsy or outside the
    allow-list, or its [meta] is no mapping, or its prompt is falsy; and the
    line it logs names the first of these checks that failed, in the order
    id, base model, meta, prompt. *)
Theorem process_item_rejects_iff (item : pyval) :
  (_process_item item = None <->
     is_dict item = false
     \/ truthy (field item "id") = false
     \/ int_of_str_of (field item "id") = None
     \/ in_allowed_models (field item "baseModel") = false
     \/ is_dict (field item "meta") = false
     \/ truthy (field (field item "meta") "prompt") = false)
  /\ (forall reason, inspect_item item = inl reason ->
        match reason with
        | InvalidItemFormat => is_dict item = false
        | NoId => truthy (field item "id") = false
        | InvalidIdFormat =>
            truthy (field item "id") = true
            /\ int_of_str_of (field item "id") = None
        | NoBaseModel | UnsupportedModel =>
            truthy (field item "id") = true
            /\ int_of_str_of (field item "id") <> None
            /\ in_allowed_models (field item "baseModel") = false
        | InvalidMetaFormat =>
            truthy (field item "id") = true
            /\ int_of_str_of (field item "id") <> None
            /\ in_allowed_models (field item "baseModel") = true
            /\ is_dict (field item "meta") = false
        | NoPrompt =>
            truthy (field item "id") = true
            /\ int_of_str_of (field item "id") <> None
            /\ in_allowed_models (field item "baseModel") = true
            /\ is_dict (field item "meta") = true
            /\ truthy (field (field item "meta") "prompt") = false
        end).
Proof.
  split.
  - unfold _process_item. split.
    + destruct (inspect_item item) as [reason|r] eqn:Hinspect; [intros _|discriminate].
      apply inspect_item_reason in Hinspect.
      destruct reason; intuition auto.
      destruct (in_allowed_models (field item "baseModel")) eqn:Hallowed; auto.
      apply allowed_is_truthy in Hallowed. congruence.
    + destruct (inspect_item item) as [reason|r] eqn:Hinspect; [reflexivity|].
      intros Hwhy. exfalso. revert Hinspect.
      destruct item as [| | | | | |d]; simpl in *; try discriminate.
      destruct Hwhy as [Hwhy|[Hwhy|[Hwhy|[Hwhy|[Hwhy|Hwhy]]]]];
        try discriminate; try (rewrite Hwhy; simpl; discriminate).
      * destruct (negb (truthy (dict_get d "id" PyNone))); [discriminate|].
        rewrite Hwhy. discriminate.
      * destruct (negb (truthy (dict_get d "id" PyNone))); [discriminate|].
        destruct (int_of_str_of (dict_get d "id" PyNone)); [|discriminate].
        rewrite Hwhy. simpl. destruct (negb _); discriminate.
      * destruct (negb (truthy (dict_get d "id" PyNone))); [discriminate|].
        destruct (int_of_str_of (dict_get d "id" PyNone)); [|discriminate].
        destruct (negb (truthy _)); [discriminate|].
        destruct (negb (in_allowed_models _)); [discriminate|].
        destruct (dict_get d "meta" PyNone); try discriminate.
      * destruct (negb (truthy (dict_get d "id" PyNone))); [discriminate|].
        destruct (int_of_str_of (dict_get d "id" PyNone)); [|discriminate].
        destruct (negb (truthy _)); [discriminate|].
        destruct (negb (in_allowed_models _)); [discriminate|].
        destruct (dict_get d "meta" PyNone); try discriminate.
        simpl in Hwhy. rewrite Hwhy. discriminate.
  - intros reason Hinspect. apply inspect_item_reason in Hinspect.
    destruct reason; intuition auto.
    destruct (in_allowed_models (field item "baseModel")) eqn:Hallowed; auto.
    apply allowed_is_truthy in Hallowed. congruence.
Qed.

(** C4: an item whose id is the integer [0] is rejected although none of
    the four reasons of the specification applies to it. *)
Lemma zero_id_rejected_without_reason :
  _process_item (sample_item (PyInt 0)) = None
  /\ inspect_item (sample_item (PyInt 0)) = inl NoId
  /\ spec_rejects (sample_item (PyInt 0)) = false.
Proof. repeat split. Qed.

(** C9 (as amended): an item whose id is falsy -- the integer [0], the empty
    string, or absent -- is rejected, since the id check tests truthiness;
    an accepted item has either a non-zero integer id, kept as it is, or a
    non-empty text id that [int] reads, so that a record with id [0] comes
    only from a text such as ["0"]. *)
Theorem falsy_id_rejected (d : list (string * pyval)) :
  (truthy (dict_get d "id" PyNone) = false -> _process_item (PyDict d) = None)
  /\ (forall r, _process_item (PyDict d) = Some r ->
        match dict_get d "id" PyNone with
        | PyInt z => z <> 0 /\ item_id r = z
        | PyStr s => s <> "" /\ int_of_str s = Some (item_id r)
        | _ => False
        end).
Proof.
  unfold _process_item, inspect_item. split.
  - intros ->. reflexivity.
  - intros r.
    destruct (dict_get d "id" PyNone) as [|b|z|f|s|l|e] eqn:Hid;
      try (destruct (negb (truthy _)); discriminate).
    + destruct b; discriminate.
    + unfold int_of_str_of; cbn [plain_str truthy].
      rewrite int_of_str_of_int.
      destruct (Z.eqb_spec z 0) as [->|Hz]; [discriminate|]. cbn [negb].
      repeat match goal with
             | |- context [if negb ?b then _ else _] => destruct (negb b); [discriminate|]
             | |- context [match dict_get ?m ?k ?v with _ => _ end] =>
                 destruct (dict_get m k v); try discriminate
             end.
      intros [= <-]. split; [assumption|reflexivity].
    + unfold int_of_str_of; cbn [plain_str truthy].
      destruct (String.eqb_spec s "") as [->|Hs]; [discriminate|]. cbn [negb].
      destruct (int_of_str s) as [n|]; [|discriminate].
      repeat match goal with
             | |- context [if negb ?b then _ else _] => destruct (negb b); [discriminate|]
             | |- context [match dict_get ?m ?k ?v with _ => _ end] =>
                 destruct (dict_get m k v); try discriminate
             end.
      intros [= <-]. split; [assumption|reflexivity].
Qed.

Lemma falsy_id_rejected_witness :
  _process_item (sample_item (PyInt 0)) = None
  /\ _process_item (sample_item (PyStr "")) = None.
Proof.
  split.
  - exact (proj1 (falsy_id_rejected
                    [("id", PyInt 0); ("url", PyStr "https://example.org/1.png");
                     ("baseModel", PyStr "Illustrious"); ("meta", sample_meta)])
             eq_refl).
  - exact (proj1 (falsy_id_rejected
                    [("id", PyStr ""); ("url", PyStr "https://example.org/1.png");
                     ("baseModel", PyStr "Illustrious"); ("meta", sample_meta)])
             eq_refl).
Defined.

(** C9: the id ["0"] is truthy, is read as [0], and the record is stored
    under the point id [0]. *)
Lemma text_zero_id_is_stored :
  _process_item (sample_item (PyStr "0")) = Some (sample_record 0)
  /\ collection (snd (_store_in_qdrant nested_env [sample_record 0] empty_world)) !! 0
     = Some {| point_id := 0; vector := sample_vector; payload := sample_record 0 |}.
Proof. split; vm_compute; reflexivity. Qed.

(** ** The cursor store *)

Lemma save_cursor_history (E : env) (cursor : pyval) (total : Z) (w : world) :
  history (_save_cursor E cursor total w)
  = Dumped cursor total (write_outcome_at E (history w)) :: history w.
Proof.
  unfold _save_cursor. destruct (write_outcome_at E (history w)); reflexivity.
Qed.

Lemma save_cursor_collection (E : env) (cursor : pyval) (total : Z) (w : world) :
  collection (_save_cursor E cursor total w) = collection w.
Proof.
  unfold _save_cursor. destruct (write_outcome_at E (history w)); reflexivity.
Qed.

(** What [_get_saved_state] returns depends on the file alone, up to the
    text of values that are no text. *)
Lemma get_saved_state_of_disk (E : env) (w w' : world) :
  disk w = disk w' -> fst (_get_saved_state E w) = fst (_get_saved_state E w').
Proof.
  unfold _get_saved_state. intros <-.
  destruct (disk w) as [| | |[| | | | | |d]]; try reflexivity.
  destruct (py_int _); reflexivity.
Qed.

(** C5: when the write goes through, [_save_cursor] followed by
    [_get_saved_state] returns the cursor text and the total that were
    saved, and reading changes nothing. *)
Theorem cursor_round_trip (E : env) (w : world) (cursor : string) (total : Z) :
  write_outcome_at E (history w) = Written ->
  _get_saved_state E (_save_cursor E (PyStr cursor) total w)
  = ((cursor, total), _save_cursor E (PyStr cursor) total w).
Proof.
  intros Hwritten.
  assert (Hdisk : disk (_save_cursor E (PyStr cursor) total w)
                  = Holds (cursor_data (PyStr cursor) total))
    by (unfold _save_cursor; rewrite Hwritten; reflexivity).
  unfold _get_saved_state. rewrite Hdisk. reflexivity.
Qed.

Lemma cursor_round_trip_witness :
  write_outcome_at working_disk_env (history empty_world) = Written
  /\ _get_saved_state working_disk_env
       (_save_cursor working_disk_env (PyStr "abc") 42 empty_world)
     = (("abc", 42), _save_cursor working_disk_env (PyStr "abc") 42 empty_world).
Proof.
  split; [reflexivity|].
  apply (cursor_round_trip working_disk_env empty_world "abc" 42). reflexivity.
Defined.

Lemma malformed_state_gives_default (E : env) (w : world) :
  disk w = Malformed -> fst (_get_saved_state E w) = ("", 0).
Proof.
  unfold _get_saved_state. intros ->. reflexivity.
Qed.

(** C6: on a state file that is absent, unreadable or malformed,
    [_get_saved_state] returns the empty cursor and the total [0]; the
    function is total, no exception leaves it.  Only a malformed file is
    touched, by the attempt to reset it. *)
Theorem unusable_state_gives_default (E : env) (w : world) :
  disk w = Missing \/ disk w = Unreadable \/ disk w = Malformed ->
  fst (_get_saved_state E w) = ("", 0)
  /\ (disk w <> Malformed -> snd (_get_saved_state E w) = w)
  /\ (disk w = Malformed ->
      snd (_get_saved_state E w) = _save_cursor E (PyStr "") 0 w).
Proof.
  unfold _get_saved_state.
  intros [H|[H|H]]; rewrite H; repeat split; congruence.
Qed.

Lemma unusable_state_gives_default_witness :
  (disk (set_disk Malformed empty_world) = Missing
   \/ disk (set_disk Malformed empty_world) = Unreadable
   \/ disk (set_disk Malformed empty_world) = Malformed)
  /\ fst (_get_saved_state working_disk_env (set_disk Malformed empty_world)) = ("", 0).
Proof.
  split; [right; right; reflexivity|].
  apply (unusable_state_gives_default working_disk_env (set_disk Malformed empty_world)).
  right; right; reflexivity.
Defined.

(** C3 (as amended): [_save_cursor] writes the file in place.  A save that
    fails before the file is open leaves the persisted state as it was and
    as readable as before; a save that fails once the file is open leaves a
    file that [_get_saved_state] finds malformed and answers with the empty
    default; a save that goes through leaves the new state.  In no case does
    an exception reach the caller. *)
Theorem save_cursor_outcomes (E : env) (cursor : pyval) (total : Z) (w : world) :
  match write_outcome_at E (history w) with
  | Written =>
      disk (_save_cursor E cursor total w) = Holds (cursor_data cursor total)
  | FailsBeforeOpen =>
      disk (_save_cursor E cursor total w) = disk w
      /\ fst (_get_saved_state E (_save_cursor E cursor total w))
         = fst (_get_saved_state E w)
  | FailsAfterOpen =>
      disk (_save_cursor E cursor total w) = Malformed
      /\ fst (_get_saved_state E (_save_cursor E cursor total w)) = ("", 0)
  end.
Proof.
  destruct (write_outcome_at E (history w)) eqn:Hhow.
  - unfold _save_cursor. rewrite Hhow. reflexivity.
  - assert (Hdisk : disk (_save_cursor E cursor total w) = disk w)
      by (unfold _save_cursor; rewrite Hhow; reflexivity).
    split; [exact Hdisk|]. now apply get_saved_state_of_disk.
  - assert (Hdisk : disk (_save_cursor E cursor total w) = Malformed)
      by (unfold _save_cursor; rewrite Hhow; reflexivity).
    split; [exact Hdisk|].
    apply malformed_state_gives_default. exact Hdisk.
Qed.

(** C3: a save that fails after opening the file destroys the state that
    was persisted before: the next read returns the default, not ["abc"]
    and [42]. *)
Lemma failed_save_loses_state :
  fst (_get_saved_state failing_disk_env saved_world) = ("abc", 42)
  /\ disk (_save_cursor failing_disk_env (PyStr "def") 43 saved_world) = Malformed
  /\ fst (_get_saved_state failing_disk_env
            (_save_cursor failing_disk_env (PyStr "def") 43 saved_world)) = ("", 0).
Proof. repeat split. Qed.

(** ** Histories *)

Section Histories.

Variable E : env.
Variable P : event -> Prop.

Lemma added_refl (w : world) : added P w w.
Proof. exists []. split; [reflexivity|constructor]. Qed.

Lemma added_trans (w1 w2 w3 : world) :
  added P w1 w2 -> added P w2 w3 -> added P w1 w3.
Proof.
  intros (n1 & H1 & F1) (n2 & H2 & F2). exists (n2 ++ n1). split.
  - rewrite H2, H1. apply app_assoc.
  - apply Forall_app. split; assumption.
Qed.

Lemma added_event (e : event) (w : world) : P e -> added P w (record_event e w).
Proof.
  intros He. exists [e]. split; [reflexivity|]. constructor; [assumption|constructor].
Qed.

Lemma added_same_history (w w1 w2 : world) :
  history w2 = history w1 -> added P w w1 -> added P w w2.
Proof. intros Hh (new & H & F). exists new. rewrite Hh. auto. Qed.

Hypothesis P_scrolled : forall wanted answered, P (Scrolled wanted answered).
Hypothesis P_upserted : forall points answered, P (Upserted points answered).

Lemma check_duplicate_added (wanted : Z) (w : world) :
  added P w (snd (_check_duplicate E wanted w)).
Proof.
  unfold _check_duplicate.
  destruct (scroll_raises E (history w) wanted); apply added_event; auto.
Qed.

Lemma collect_points_added (records : list record) :
  forall points skipped w,
    added P w (snd (collect_points E records points skipped w)).
Proof.
  induction records as [|r rest IH]; intros points skipped w; simpl;
    [apply added_refl|].
  pose proof (check_duplicate_added (item_id r) w) as Hdup.
  destruct (_check_duplicate E (item_id r) w) as [duplicate w1]. simpl in Hdup.
  destruct duplicate; [eapply added_trans; [exact Hdup|apply IH]|].
  destruct (get_embedding E (prompt r)) as [embeddings|]; [|exact Hdup].
  destruct (normalize_embedding embeddings) as [v| |]; [| |exact Hdup].
  - destruct (point_struct_ok E (item_id r) v);
      (eapply added_trans; [exact Hdup|apply IH]).
  - eapply added_trans; [exact Hdup|apply IH].
Qed.

Lemma upsert_batches_added (points : list point) (starts : list nat) :
  forall w, added P w (snd (upsert_batches E points starts w)).
Proof.
  induction starts as [|i rest IH]; intros w; simpl; [apply added_refl|].
  destruct (upsert_raises E (history w) _); simpl.
  - apply added_event. auto.
  - eapply added_trans; [|apply IH].
    eapply added_same_history; [|apply added_event; apply P_upserted].
    reflexivity.
Qed.

Lemma store_in_qdrant_added (records : list record) (w : world) :
  added P w (snd (_store_in_qdrant E records w)).
Proof.
  unfold _store_in_qdrant.
  pose proof (collect_points_added records [] 0 w) as Hcollect.
  destruct (collect_points E records [] 0 w) as [[[points skipped]|] w1];
    simpl in *; [|exact Hcollect].
  destruct points as [|p points]; [exact Hcollect|].
  eapply added_trans; [exact Hcollect|apply upsert_batches_added].
Qed.

End Histories.

(** ** What the writer leaves alone *)

Section Untouched.

Variable E : env.

Lemma check_duplicate_world (wanted : Z) (w : world) :
  disk (snd (_check_duplicate E wanted w)) = disk w
  /\ collection (snd (_check_duplicate E wanted w)) = collection w.
Proof.
  unfold _check_duplicate.
  destruct (scroll_raises E (history w) wanted); split; reflexivity.
Qed.

Lemma collect_points_world (records : list record) :
  forall points skipped w,
    disk (snd (collect_points E records points skipped w)) = disk w
    /\ collection (snd (collect_points E records points skipped w)) = collection w.
Proof.
  induction records as [|r rest IH]; intros points skipped w; simpl;
    [split; reflexivity|].
  destruct (check_duplicate_world (item_id r) w) as [Hd Hc].
  destruct (_check_duplicate E (item_id r) w) as [duplicate w1]. simpl in Hd, Hc.
  rewrite <- Hd, <- Hc.
  destruct duplicate; [apply IH|].
  destruct (get_embedding E (prompt r)) as [embeddings|]; [|split; reflexivity].
  destruct (normalize_embedding embeddings) as [v| |];
    [destruct (point_struct_ok E (item_id r) v); apply IH
    |apply IH
    |split; reflexivity].
Qed.



End Untouched.

(** ** Embedding shapes *)

Lemma floats_of_floats (v : list float) : floats_of (map OFloat v) = inr v.
Proof.
  induction v as [|x v IH]; simpl; [reflexivity|].
  now rewrite IH.
Qed.

Lemma tolist_vector (v : list float) :
  tolist (NdAxis (map NdScalar v)) = OList (map OFloat v).
Proof.
  simpl. f_equal. rewrite map_map. reflexivity.
Qed.

(** A one-dimensional array becomes the vector of its cells. *)
Lemma normalize_array (v : list float) :
  normalize_embedding (OArray (NdAxis (map NdScalar v))) = Vector v.
Proof.
  unfold normalize_embedding, unwrap_embedding.
  rewrite tolist_vector, floats_of_floats. reflexivity.
Qed.

(** So does a list whose first element is such an array. *)
Lemma normalize_list_of_array (v : list float) (others : list pyobj) :
  normalize_embedding (OList (OArray (NdAxis (map NdScalar v)) :: others)) = Vector v.
Proof.
  unfold normalize_embedding, unwrap_embedding.
  rewrite tolist_vector, floats_of_floats. reflexivity.
Qed.

(** And a list whose first element is a list of floats. *)
Lemma normalize_list_of_list (v : list float) (others : list pyobj) :
  normalize_embedding (OList (OList (map OFloat v) :: others)) = Vector v.
Proof.
  unfold normalize_embedding, unwrap_embedding.
  rewrite floats_of_floats. reflexivity.
Qed.

(** A vector that is already flat loses all but its first number, which is
    no list: the record is skipped. *)
Lemma normalize_flat_list (x : float) (v : list float) :
  normalize_embedding (OList (map OFloat (x :: v))) = Skipped.
Proof. reflexivity. Qed.

(** A record whose embedding gives no vector is passed over: the loop goes
    on with the next record, its accumulators unchanged. *)
Lemma skipped_record_does_not_abort (E : env) (r : record) (rest : list record)
    (points : list point) (skipped : Z) (w : world) (embeddings : pyobj) :
  fst (_check_duplicate E (item_id r) w) = false ->
  get_embedding E (prompt r) = Some embeddings ->
  normalize_embedding embeddings = Skipped ->
  collect_points E (r :: rest) points skipped w
  = collect_points E rest points skipped (snd (_check_duplicate E (item_id r) w)).
Proof.
  intros Hnew Hemb Hnorm. simpl.
  destruct (_check_duplicate E (item_id r) w) as [duplicate w1]. simpl in Hnew.
  subst duplicate. now rewrite Hemb, Hnorm.
Qed.

(** Only an integer too large for a float makes the step let an error
    out. *)
Example overflow_aborts :
  normalize_embedding (OList [OList [OFloat 1; OInt (2 ^ 1024)]]) = Aborted.
Proof. reflexivity. Qed.

(** With a provider that returns its vectors flat, the first loop never
    builds a point, so [_store_in_qdrant] stores nothing at all. *)
Lemma flat_provider_builds_no_point (E : env) (records : list record) :
  (forall text, exists x v, get_embedding E text = Some (OList (map OFloat (x :: v)))) ->
  forall skipped w,
    exists skipped' w',
      collect_points E records [] skipped w = (Returns ([], skipped'), w').
Proof.
  intros Hflat. induction records as [|r rest IH]; intros skipped w; simpl;
    [eauto|].
  destruct (_check_duplicate E (item_id r) w) as [[|] w1]; [apply IH|].
  destruct (Hflat (prompt r)) as (x & v & ->).
  rewrite normalize_flat_list. apply IH.
Qed.

Lemma flat_provider_stores_nothing (E : env) (records : list record) (w : world) :
  (forall text, exists x v, get_embedding E text = Some (OList (map OFloat (x :: v)))) ->
  fst (_store_in_qdrant E records w) = Returns tt
  /\ collection (snd (_store_in_qdrant E records w)) = collection w.
Proof.
  intros Hflat. unfold _store_in_qdrant.
  destruct (flat_provider_builds_no_point E records Hflat 0 w) as (skipped & w' & Hloop).
  destruct (collect_points_world E records [] 0 w) as [_ Hsame].
  rewrite Hloop in *. split; [reflexivity|exact Hsame].
Qed.

(** C1: of the three shapes, the array and the singleton sequence (of an
    array or of a list) give the flat vector, but a vector that the provider
    returns flat is skipped by the write path, while the query path of
    [get_similar_prompts] passes the same value on unchanged. *)
Theorem flat_vector_is_skipped (x : float) (v : list float) :
  normalize_embedding (OArray (NdAxis (map NdScalar (x :: v)))) = Vector (x :: v)
  /\ normalize_embedding (OList [OArray (NdAxis (map NdScalar (x :: v)))]) = Vector (x :: v)
  /\ normalize_embedding (OList [OList (map OFloat (x :: v))]) = Vector (x :: v)
  /\ normalize_embedding (OList (map OFloat (x :: v))) = Skipped
  /\ query_embedding (OList (map OFloat (x :: v))) = OList (map OFloat (x :: v)).
Proof.
  split; [apply normalize_array|].
  split; [apply normalize_list_of_array|].
  split; [apply normalize_list_of_list|].
  split; [apply normalize_flat_list|reflexivity].
Qed.

(** ** Page sizes *)

Section PageSizes.

Variable E : env.
Variable P : event -> Prop.
Hypothesis P_scrolled : forall wanted answered, P (Scrolled wanted answered).
Hypothesis P_upserted : forall points answered, P (Upserted points answered).
Hypothesis P_dumped : forall cursor total how, P (Dumped cursor total how).

Lemma save_cursor_added (cursor : pyval) (total : Z) (w : world) :
  added P w (_save_cursor E cursor total w).
Proof.
  exists [Dumped cursor total (write_outcome_at E (history w))].
  split; [apply save_cursor_history|]. constructor; [apply P_dumped|constructor].
Qed.

Lemma store_page_added (prev : Z) (d : list (string * pyval))
    (records : list record) (total : Z) (w : world) :
  match store_page E prev d records total w with
  | inl (_, w') | inr (_, w') => added P w w'
  end.
Proof.
  unfold store_page. destruct records as [|r records]; [apply added_refl|].
  pose proof (store_in_qdrant_added E P P_scrolled P_upserted (r :: records) w) as Hstore.
  destruct (_store_in_qdrant E (r :: records) w) as [[[]|] w1]; simpl in Hstore;
    [|exact Hstore].
  destruct (next_cursor d (PyStr "")) as [c|]; [|exact Hstore].
  eapply added_trans; [exact Hstore|apply save_cursor_added].
Qed.

Lemma iteration_added_at (target prev : Z) (s : loop_state) (w : world) :
  (forall answered,
      P (Fetched (Z.min BATCH_SIZE (target - total_processed s)) (cursor s) answered)) ->
  added P w (snd (iteration E target prev s w)).
Proof.
  intros Hlimit. unfold iteration.
  set (limit := Z.min BATCH_SIZE (target - total_processed s)) in *.
  destruct (http_get E (history w) limit (cursor s)) as [data|];
    [|apply added_event; auto].
  assert (Hfetch : added P w (record_event (Fetched limit (cursor s) true) w))
    by (apply added_event; auto).
  destruct data as [| | | | | |d]; try exact Hfetch.
  destruct (lookup_key d "items") as [items|]; [|exact Hfetch].
  destruct (negb (truthy items)); [exact Hfetch|].
  destruct (py_iter items) as [its|]; [|exact Hfetch].
  pose proof (store_page_added prev d (process_items its) (total_processed s)
                (record_event (Fetched limit (cursor s) true) w)) as Hpage.
  destruct (store_page E prev d (process_items its) (total_processed s) _)
    as [[total w2]|[total w2]].
  - eapply added_trans; eassumption.
  - destruct (next_cursor d PyNone) as [c|]; [|eapply added_trans; eassumption].
    destruct (negb (truthy c)); eapply added_trans; eassumption.
Qed.

Hypothesis P_fetched :
  forall limit cursor answered, 1 <= limit <= BATCH_SIZE -> P (Fetched limit cursor answered).

Lemma iteration_added (target prev : Z) (s : loop_state) (w : world) :
  total_processed s < target ->
  added P w (snd (iteration E target prev s w)).
Proof.
  intros Hmore. apply iteration_added_at. intros answered.
  apply P_fetched. unfold BATCH_SIZE. lia.
Qed.

Lemma run_loop_added (turns : nat) (target prev : Z) :
  forall s w, added P w (snd (run_loop E turns target prev s w)).
Proof.
  induction turns as [|k IH]; intros s w; simpl;
    destruct (Z.ltb_spec (total_processed s) target) as [Hmore|_];
    try apply added_refl.
  pose proof (iteration_added target prev s w Hmore) as Hturn.
  destruct (iteration E target prev s w) as [[s'|s'|] w']; simpl in Hturn;
    try exact Hturn.
  eapply added_trans; [exact Hturn|apply IH].
Qed.

Lemma fetch_and_store_added (turns : nat) (target : Z) (w : world) :
  added P w (snd (fetch_and_store E turns target w)).
Proof.
  unfold fetch_and_store.
  assert (Hload : added P w (snd (_get_saved_state E w))).
  { unfold _get_saved_state.
    destruct (disk w) as [| | |[| | | | | |d]]; try apply added_refl.
    - apply save_cursor_added.
    - destruct (py_int _); apply added_refl. }
  destruct (_get_saved_state E w) as [[cursor prev] w0]. simpl in Hload.
  eapply added_trans; [exact Hload|apply run_loop_added].
Qed.

End PageSizes.

(** C7: whatever target count is asked for, and however the run goes,
    every request [fetch_and_store] sends to the source asks for at least
    one and at most [BATCH_SIZE = 200] items; the first request of a run
    whose target is 500 asks for exactly 200. *)
Theorem fetches_within_cap (E : env) (turns : nat) (target : Z) (w : world) :
  added within_cap w (snd (fetch_and_store E turns target w))
  /\ BATCH_SIZE = 200
  /\ forall prev start,
       exists answered later,
         history (snd (iteration E 500 prev
                         {| cursor := start; total_processed := 0; batch := 1 |} w))
         = later ++ Fetched 200 start answered :: history w.
Proof.
  split; [|split; [reflexivity|]].
  - apply fetch_and_store_added; simpl; auto.
  - intros prev start. unfold iteration. cbn [total_processed cursor batch].
    change (Z.min BATCH_SIZE (500 - 0)) with 200.
    destruct (http_get E (history w) 200 start) as [data|];
      [exists true|exists false, []; reflexivity].
    set (w1 := record_event (Fetched 200 start true) w).
    assert (Hafter : forall w2, added (fun _ => True) w1 w2 ->
              exists later, history w2 = later ++ Fetched 200 start true :: history w).
    { intros w2 (later & Hh & _). exists later. exact Hh. }
    destruct data as [| | | | | |d]; try (exists []; reflexivity).
    destruct (lookup_key d "items") as [items|]; [|exists []; reflexivity].
    destruct (negb (truthy items)); [exists []; reflexivity|].
    destruct (py_iter items) as [its|]; [|exists []; reflexivity].
    pose proof (store_page_added E (fun _ => True) (fun _ _ => I) (fun _ _ => I)
                  (fun _ _ _ => I) prev d (process_items its) 0 w1) as Hpage.
    destruct (store_page E prev d (process_items its) 0 w1)
      as [[total w2]|[total w2]]; [apply Hafter, Hpage|].
    destruct (next_cursor d PyNone) as [c|]; [|apply Hafter, Hpage].
    destruct (negb (truthy c)); apply Hafter, Hpage.
Qed.

(** ** When the cursor is saved *)

Section CursorSaves.

Variable E : env.
Variables target prev : Z.
Variable s : loop_state.
Variable w : world.

Let limit := Z.min BATCH_SIZE (target - total_processed s).
Let w1 := record_event (Fetched limit (cursor s) true) w.



End CursorSaves.



(** One turn over a page of three items of which one is valid: one record
    goes to the writer, one point is stored, and the state file takes the
    page's [nextCursor] and the total raised by one. *)
Example one_valid_item_of_three :
  process_items [sample_item (PyInt 17);
                 PyDict [("id", PyInt 18); ("baseModel", PyStr "SDXL"); ("meta", sample_meta)];
                 PyDict [("id", PyInt 19); ("baseModel", PyStr "Illustrious");
                         ("meta", PyDict [("steps", PyInt 20)])]]
  = [sample_record 17]
  /\ iteration mixed_page_env 1000 42
       {| cursor := PyStr "abc"; total_processed := 0; batch := 1 |} saved_world
     = (Continue {| cursor := PyStr "c1"; total_processed := 1; batch := 2 |},
        {| disk := Holds (cursor_data (PyStr "c1") 43);
           collection := {[ 17 := {| point_id := 17; vector := sample_vector;
                                     payload := sample_record 17 |} ]};
           history := [Dumped (PyStr "c1") 43 Written;
                       Upserted [{| point_id := 17; vector := sample_vector;
                                    payload := sample_record 17 |}] true;
                       Scrolled 17 true;
                       Fetched 200 (PyStr "abc") true] |}).
Proof. split; vm_compute; reflexivity. Qed.

(** Three turns over pages without a valid record: three fetches, the
    cursor in memory is the source's, the file still holds ["abc"]. *)
Example persisted_cursor_lags :
  fetch_and_store rejected_pages_env 3 1000 saved_world
  = (Running {| cursor := PyStr "c1"; total_processed := 0; batch := 4 |},
     {| disk := Holds (cursor_data (PyStr "abc") 42);
        collection := ∅;
        history := [Fetched 200 (PyStr "c1") true; Fetched 200 (PyStr "c1") true;
                    Fetched 200 (PyStr "abc") true] |}).
Proof. vm_compute. reflexivity. Qed.

(** ** Slices and ranges *)

Lemma firstn_add_skipn {A : Type} (a b : nat) (l : list A) :
  firstn a l ++ firstn b (skipn a l) = firstn (a + b) l.
Proof.
  revert l. induction a as [|a IH]; intros l; [reflexivity|].
  destruct l as [|x l]; simpl; [now rewrite firstn_nil|].
  now rewrite IH.
Qed.

Lemma slice_from {A : Type} (l : list A) (i n : nat) :
  slice l i (i + n) = firstn n (skipn i l).
Proof. unfold slice. f_equal. lia. Qed.

(** The slices at [start], [start + step], ... put end to end. *)
Lemma concat_slices {A : Type} (l : list A) (step count : nat) :
  forall start,
    concat (map (fun i => slice l i (i + step)) (range_from count start step))
    = firstn (count * step) (skipn start l).
Proof.
  induction count as [|k IH]; intros start; simpl; [reflexivity|].
  rewrite IH, slice_from.
  replace (skipn (start + step) l) with (skipn step (skipn start l))
    by (rewrite skipn_skipn; f_equal; lia).
  apply firstn_add_skipn.
Qed.

Lemma range_from_split (step : nat) (done : list nat) :
  forall count start i rest,
    range_from count start step = done ++ i :: rest ->
    done = range_from (length done) start step
    /\ i = (start + length done * step)%nat.
Proof.
  induction done as [|j done IH]; intros count start i rest Hsplit;
    destruct count as [|k]; simpl in Hsplit; try discriminate.
  - injection Hsplit as -> _. split; [reflexivity|simpl; lia].
  - injection Hsplit as <- Hrest.
    destruct (IH _ _ _ _ Hrest) as [Hdone ->]. split.
    + simpl. f_equal. exact Hdone.
    + simpl. lia.
Qed.

(** The sub-batches of [_store_in_qdrant] cover the points, in order. *)
Lemma batches_cover (points : list point) :
  concat (batches points (py_range (length points) batch_size)) = points.
Proof.
  unfold batches, py_range. rewrite concat_slices. simpl skipn.
  apply firstn_all2.
  pose proof (Nat.div_mod_eq (length points + batch_size - 1) batch_size) as Hdiv.
  pose proof (Nat.mod_upper_bound (length points + batch_size - 1) batch_size) as Hmod.
  unfold batch_size in *. lia.
Qed.

(** The sub-batches before the one that starts at [i] are the first [i]
    points. *)
Lemma batches_before (points : list point) (done rest : list nat) (i : nat) :
  py_range (length points) batch_size = done ++ i :: rest ->
  concat (batches points done) = firstn i points.
Proof.
  unfold py_range. intros Hsplit.
  destruct (range_from_split _ _ _ _ _ _ Hsplit) as [Hdone ->].
  remember (length done) as n. unfold batches.
  rewrite Hdone, concat_slices. reflexivity.
Qed.

(** ** Sub-batches *)

Lemma upsert_app (a b : list point) (c : gmap Z point) :
  upsert (a ++ b) c = upsert b (upsert a c).
Proof. unfold upsert. apply fold_left_app. Qed.

Section SubBatches.

Variable E : env.
Variable points : list point.

(** When every sub-batch is acknowledged, all of them are in the
    collection and in the history, in order. *)
Lemma upsert_batches_returns (starts : list nat) :
  forall w w',
    upsert_batches E points starts w = (Returns tt, w') ->
    collection w' = upsert (concat (batches points starts)) (collection w)
    /\ history w'
       = rev (map (fun b => Upserted b true) (batches points starts)) ++ history w
    /\ disk w' = disk w.
Proof.
  induction starts as [|i rest IH]; intros w w'; simpl.
  - intros [= <-]. repeat split.
  - destruct (upsert_raises E (history w) _); [discriminate|].
    intros Hrest. apply IH in Hrest as (Hc & Hh & Hd).
    rewrite Hc, Hh, Hd. simpl. repeat split.
    + now rewrite upsert_app.
    + now rewrite <- app_assoc.
Qed.

(** The loop over [done ++ rest] is the loop over [done], then, if it
    returned, the loop over [rest]. *)
Lemma upsert_batches_app (done rest : list nat) :
  forall w,
    upsert_batches E points (done ++ rest) w
    = match upsert_batches E points done w with
      | (Returns _, w1) => upsert_batches E points rest w1
      | (Raises, w1) => (Raises, w1)
      end.
Proof.
  induction done as [|i done IH]; intros w; simpl; [reflexivity|].
  destruct (upsert_raises E (history w) _); [reflexivity|apply IH].
Qed.

(** The first sub-batch that is refused ends the loop: the call raises,
    nothing is submitted after it, and the world is the one the earlier
    sub-batches left, with the refused call on top of its history. *)
Lemma upsert_batches_raises (done rest : list nat) (i : nat) (w w1 : world) :
  upsert_batches E points done w = (Returns tt, w1) ->
  upsert_raises E (history w1) (slice points i (i + batch_size)) = true ->
  upsert_batches E points (done ++ i :: rest) w
  = (Raises, record_event (Upserted (slice points i (i + batch_size)) false) w1).
Proof.
  intros Hdone Hfail. rewrite upsert_batches_app, Hdone. simpl.
  now rewrite Hfail.
Qed.

End SubBatches.

(** ** A sub-batch that fails *)

Section FailedSubBatch.

Variable E : env.
Variables target prev : Z.
Variable s : loop_state.
Variable w : world.
Variable d : list (string * pyval).
Variable items : pyval.
Variable its : list pyval.

Let limit := Z.min BATCH_SIZE (target - total_processed s).
Let w1 := record_event (Fetched limit (cursor s) true) w.
Let records := process_items its.

Variable points : list point.
Variable skipped : Z.
Variables w2 w3 : world.
Variables done rest : list nat.
Variable i : nat.

Let refused := slice points i (i + batch_size).
Let w4 := record_event (Upserted refused false) w3.

Hypothesis Hmore : total_processed s < target.
Hypothesis Hget : http_get E (history w) limit (cursor s) = Some (PyDict d).
Hypothesis Hitems : lookup_key d "items" = Some items.
Hypothesis Htruthy : truthy items = true.
Hypothesis Hiter : py_iter items = Some its.
Hypothesis Hcollect : collect_points E records [] 0 w1 = (Returns (points, skipped), w2).
Hypothesis Hrange : py_range (length points) batch_size = done ++ i :: rest.
Hypothesis Hdone : upsert_batches E points done w2 = (Returns tt, w3).
Hypothesis Hfail : upsert_raises E (history w3) refused = true.

Lemma store_in_qdrant_raises : _store_in_qdrant E records w1 = (Raises, w4).
Proof.
  assert (Hpoints : points <> [])
    by (intros Hnil; rewrite Hnil in Hrange; destruct done; discriminate Hrange).
  unfold _store_in_qdrant. rewrite Hcollect.
  transitivity (upsert_batches E points (py_range (length points) batch_size) w2);
    [destruct points; [congruence|reflexivity]|].
  rewrite Hrange. apply upsert_batches_raises; assumption.
Qed.

Lemma iteration_breaks : iteration E target prev s w = (Break s, w4).
Proof.
  unfold iteration. fold limit. rewrite Hget, Hitems, Htruthy, Hiter.
  cbn [negb]. fold w1. fold records. unfold store_page.
  rewrite store_in_qdrant_raises.
  destruct records as [|r rs] eqn:Hrecords.
  - exfalso. simpl in Hcollect. injection Hcollect as <- _ _.
    destruct done; discriminate Hrange.
  - destruct s; reflexivity.
Qed.

(** C8: when the [upsert] of one sub-batch raises, after the sub-batches
    before it were acknowledged, [_store_in_qdrant] raises; the turn of
    [fetch_and_store] that called it breaks out of the loop, so the run
    ends there with its counters as they were; the collection holds the
    points of the earlier sub-batches, put there in order; the refused call
    is the last event, so no later sub-batch is submitted; and the state
    file is not written. *)
Theorem failed_sub_batch_ends_the_run :
  _store_in_qdrant E records w1 = (Raises, w4)
  /\ (forall turns, run_loop E (S turns) target prev s w = (Finished s, w4))
  /\ collection w4 = upsert (firstn i points) (collection w)
  /\ history w4
     = Upserted refused false
       :: rev (map (fun b => Upserted b true) (batches points done)) ++ history w2
  /\ disk w4 = disk w.
Proof.
  destruct (upsert_batches_returns E points done w2 w3 Hdone) as (Hc & Hh & Hd).
  destruct (collect_points_world E records [] 0 w1) as [Hd2 Hc2].
  rewrite Hcollect in Hd2, Hc2. simpl in Hd2, Hc2.
  split; [apply store_in_qdrant_raises|].
  split; [|split; [|split]].
  - intros turns. simpl.
    destruct (Z.ltb_spec (total_processed s) target) as [_|Hle]; [|lia].
    now rewrite iteration_breaks.
  - simpl. rewrite Hc, Hc2. simpl.
    now rewrite (batches_before points done rest i Hrange).
  - simpl. now rewrite Hh.
  - simpl. now rewrite Hd, Hd2.
Qed.

End FailedSubBatch.

Lemma failed_sub_batch_ends_the_run_witness :
  (total_processed first_turn < 1000
   /\ http_get second_upsert_fails_env (history empty_world)
        (Z.min BATCH_SIZE (1000 - total_processed first_turn)) (cursor first_turn)
      = Some (PyDict full_page)
   /\ lookup_key full_page "items" = Some (PyList many_items)
   /\ truthy (PyList many_items) = true
   /\ py_iter (PyList many_items) = Some many_items
   /\ collect_points second_upsert_fails_env (process_items many_items) [] 0 fetched_world
      = (Returns (many_points, 0), collected_world)
   /\ py_range (length many_points) batch_size = [0%nat] ++ 50%nat :: []
   /\ upsert_batches second_upsert_fails_env many_points [0%nat] collected_world
      = (Returns tt, one_batch_world)
   /\ upsert_raises second_upsert_fails_env (history one_batch_world)
        (slice many_points 50 (50 + batch_size)) = true)
  /\ (forall turns,
        run_loop second_upsert_fails_env (S turns) 1000 0 first_turn empty_world
        = (Finished first_turn,
           record_event (Upserted (slice many_points 50 (50 + batch_size)) false)
             one_batch_world))
  /\ collection
       (record_event (Upserted (slice many_points 50 (50 + batch_size)) false)
          one_batch_world)
     = upsert (firstn 50 many_points) (collection empty_world).
Proof.
  assert (H1 : total_processed first_turn < 1000) by reflexivity.
  assert (H2 : http_get second_upsert_fails_env (history empty_world)
                 (Z.min BATCH_SIZE (1000 - total_processed first_turn)) (cursor first_turn)
               = Some (PyDict full_page)) by reflexivity.
  assert (H3 : lookup_key full_page "items" = Some (PyList many_items)) by reflexivity.
  assert (H4 : truthy (PyList many_items) = true) by reflexivity.
  assert (H5 : py_iter (PyList many_items) = Some many_items) by reflexivity.
  assert (H6 : collect_points second_upsert_fails_env (process_items many_items) [] 0
                 fetched_world = (Returns (many_points, 0), collected_world))
    by (vm_compute; reflexivity).
  assert (H7 : py_range (length many_points) batch_size = [0%nat] ++ 50%nat :: [])
    by reflexivity.
  assert (H8 : upsert_batches second_upsert_fails_env many_points [0%nat] collected_world
               = (Returns tt, one_batch_world)) by (vm_compute; reflexivity).
  assert (H9 : upsert_raises second_upsert_fails_env (history one_batch_world)
                 (slice many_points 50 (50 + batch_size)) = true)
    by (vm_compute; reflexivity).
  split;
    [exact (conj H1 (conj H2 (conj H3 (conj H4 (conj H5 (conj H6 (conj H7 (conj H8 H9))))))))|].
  pose proof (failed_sub_batch_ends_the_run second_upsert_fails_env 1000 0 first_turn
                empty_world full_page (PyList many_items) many_items many_points 0
                collected_world one_batch_world [0%nat] [] 50%nat
                H1 H2 H3 H4 H5 H6 H7 H8 H9) as (_ & Hrun & Hcollection & _).
  split; [exact Hrun|exact Hcollection].
Defined.

(** ** The collection under repeated writes *)

Lemma scroll_finds_spec (c : gmap Z point) (wanted : Z) :
  scroll_finds c wanted = true
  <-> exists k p, c !! k = Some p /\ item_id (payload p) = wanted.
Proof.
  unfold scroll_finds. rewrite existsb_exists. split.
  - intros (p & Hin & Hid). apply in_map_iff in Hin as ([k p'] & <- & Hin).
    exists k, p'. split; [|now apply Z.eqb_eq].
    apply elem_of_map_to_list. now apply list_elem_of_In.
  - intros (k & p & Hlook & Hid). exists p. split; [|now apply Z.eqb_eq].
    apply in_map_iff. exists (k, p). split; [reflexivity|].
    apply list_elem_of_In. now apply elem_of_map_to_list.
Qed.

(** In a collection keyed by payload id, the scroll finds an id exactly
    when a point sits under it. *)
Lemma scroll_finds_keyed (c : gmap Z point) (wanted : Z) :
  keyed_by_id c ->
  scroll_finds c wanted = true <-> is_Some (c !! wanted).
Proof.
  intros Hkeyed. rewrite scroll_finds_spec. split.
  - intros (k & p & Hlook & Hid). rewrite <- Hid, (Hkeyed k p Hlook). eauto.
  - intros [p Hlook]. exists wanted, p. split; [assumption|]. now apply Hkeyed.
Qed.

Lemma upsert_other (batch : list point) :
  forall (c : gmap Z point) (k : Z),
    Forall (fun p => point_id p <> k) batch -> upsert batch c !! k = c !! k.
Proof.
  unfold upsert. induction batch as [|p batch IH]; intros c k Hne; simpl;
    [reflexivity|].
  inversion Hne as [|? ? Hp Hrest]; subst.
  rewrite IH by assumption. now apply lookup_insert_ne.
Qed.

Lemma upsert_keeps_keys (batch : list point) :
  forall (c : gmap Z point) (k : Z),
    is_Some (c !! k) -> is_Some (upsert batch c !! k).
Proof.
  unfold upsert. induction batch as [|p batch IH]; intros c k Hk; simpl;
    [assumption|].
  apply IH. destruct (decide (point_id p = k)) as [->|Hne].
  - rewrite lookup_insert_eq. eauto.
  - now rewrite lookup_insert_ne.
Qed.

Lemma upsert_adds_keys (batch : list point) :
  forall (c : gmap Z point) (p : point),
    In p batch -> is_Some (upsert batch c !! point_id p).
Proof.
  induction batch as [|q batch IH]; intros c p; simpl; [tauto|].
  intros [->|Hin].
  - change (is_Some (upsert batch (<[point_id p := p]> c) !! point_id p)).
    apply upsert_keeps_keys. rewrite lookup_insert_eq. eauto.
  - apply (IH (<[point_id q := q]> c) p Hin).
Qed.

Lemma upsert_keyed (batch : list point) :
  forall c : gmap Z point,
    keyed_by_id c ->
    Forall (fun p => item_id (payload p) = point_id p) batch ->
    keyed_by_id (upsert batch c).
Proof.
  unfold upsert. induction batch as [|q batch IH]; intros c Hkeyed Hbatch; simpl;
    [assumption|].
  inversion Hbatch as [|? ? Hq Hrest]; subst.
  apply IH; [|assumption].
  intros k p. destruct (decide (point_id q = k)) as [<-|Hne].
  - rewrite lookup_insert_eq. now intros [= <-].
  - rewrite lookup_insert_ne by assumption. apply Hkeyed.
Qed.

Section ReliableScroll.

Variable E : env.
Hypothesis Hscroll : forall h wanted, scroll_raises E h wanted = false.

Lemma check_duplicate_answer (wanted : Z) (w : world) :
  fst (_check_duplicate E wanted w) = scroll_finds (collection w) wanted.
Proof. unfold _check_duplicate. now rewrite Hscroll. Qed.

(** The first loop, when it returns: the points it adds carry the id of
    their payload, none of them was in the collection, and every record was
    found in the collection, or got a point, or was passed over. *)
Lemma collect_points_returns (records : list record) :
  forall points skipped w points' skipped' w',
    collect_points E records points skipped w = (Returns (points', skipped'), w') ->
    exists new,
      points' = points ++ new
      /\ Forall (fun p => item_id (payload p) = point_id p
                          /\ scroll_finds (collection w) (point_id p) = false) new
      /\ Forall (fun r => scroll_finds (collection w) (item_id r) = true
                          \/ (exists p, In p new /\ point_id p = item_id r)
                          \/ passed_over E r = true) records.
Proof.
  induction records as [|r rest IH]; intros points skipped w points' skipped' w'; simpl.
  - intros [= <- <- <-]. exists []. rewrite app_nil_r. repeat split; constructor.
  - pose proof (check_duplicate_answer (item_id r) w) as Hanswer.
    destruct (check_duplicate_world E (item_id r) w) as [_ Hsame].
    destruct (_check_duplicate E (item_id r) w) as [duplicate w1].
    simpl in Hanswer, Hsame. subst duplicate.
    destruct (scroll_finds (collection w) (item_id r)) eqn:Hfound.
    { intros Hrest. apply IH in Hrest as (new & -> & Hnew & Hrecords).
      rewrite Hsame in Hnew, Hrecords.
      exists new. repeat split; auto. }
    destruct (get_embedding E (prompt r)) as [embeddings|] eqn:Hemb; [|discriminate].
    destruct (normalize_embedding embeddings) as [v| |] eqn:Hnorm; [| |discriminate].
    + destruct (point_struct_ok E (item_id r) v) eqn:Hok.
      * intros Hrest. apply IH in Hrest as (new & -> & Hnew & Hrecords).
        rewrite Hsame in Hnew, Hrecords.
        eexists (_ :: new). split; [now rewrite <- app_assoc|]. split.
        -- constructor; [split; [reflexivity|exact Hfound]|exact Hnew].
        -- constructor.
           ++ right; left. eexists. split; [left; reflexivity|reflexivity].
           ++ eapply Forall_impl; [exact Hrecords|]. simpl.
              intros r' [H|[(p & Hin & Hp)|H]]; auto.
              right; left. exists p. auto.
      * intros Hrest. apply IH in Hrest as (new & -> & Hnew & Hrecords).
        rewrite Hsame in Hnew, Hrecords.
        exists new. split; [reflexivity|]. split; [exact Hnew|].
        constructor; [right; right|exact Hrecords].
        unfold passed_over. now rewrite Hemb, Hnorm, Hok.
    + intros Hrest. apply IH in Hrest as (new & -> & Hnew & Hrecords).
      rewrite Hsame in Hnew, Hrecords.
      exists new. split; [reflexivity|]. split; [exact Hnew|].
      constructor; [right; right|exact Hrecords].
      unfold passed_over. now rewrite Hemb, Hnorm.
Qed.

(** The first loop over records that are all in the collection or passed
    over: it builds no point and counts the ones in the collection. *)
Lemma collect_points_again (c : gmap Z point) (records : list record) :
  Forall (fun r => scroll_finds c (item_id r) = true \/ passed_over E r = true) records ->
  forall points skipped w,
    collection w = c ->
    exists w',
      collect_points E records points skipped w
      = (Returns (points,
                  skipped + Z.of_nat (length (List.filter (fun r => scroll_finds c (item_id r))
                                                records))), w')
      /\ collection w' = c /\ disk w' = disk w.
Proof.
  induction 1 as [|r rest Hr Hrest IH]; intros points skipped w Hc; simpl.
  - exists w. rewrite Z.add_0_r. auto.
  - pose proof (check_duplicate_answer (item_id r) w) as Hanswer.
    destruct (check_duplicate_world E (item_id r) w) as [Hdisk Hsame].
    destruct (_check_duplicate E (item_id r) w) as [duplicate w1].
    simpl in Hanswer, Hsame, Hdisk. rewrite Hc in *. subst duplicate.
    destruct (scroll_finds c (item_id r)) eqn:Hfound.
    { destruct (IH points (skipped + 1) w1 Hsame) as (w' & -> & Hc' & Hd').
      exists w'. split; [|split; congruence].
      cbn [length]. rewrite Nat2Z.inj_succ. do 3 f_equal. lia. }
    destruct Hr as [Hr|Hr]; [discriminate|].
    unfold passed_over in Hr.
    destruct (get_embedding E (prompt r)) as [embeddings|]; [|discriminate].
    destruct (normalize_embedding embeddings) as [v| |]; [| |discriminate].
    + apply negb_true_iff in Hr. rewrite Hr.
      destruct (IH points skipped w1 Hsame) as (w' & -> & Hc' & Hd').
      exists w'. split; [reflexivity|split; congruence].
    + destruct (IH points skipped w1 Hsame) as (w' & -> & Hc' & Hd').
      exists w'. split; [reflexivity|split; congruence].
Qed.

End ReliableScroll.

(** In a collection keyed by payload id, an id has at most one copy. *)
Lemma keyed_single_copy (c : gmap Z point) (k k' : Z) (p p' : point) :
  keyed_by_id c ->
  c !! k = Some p -> c !! k' = Some p' ->
  item_id (payload p) = item_id (payload p') ->
  k = k' /\ p = p'.
Proof.
  intros Hkeyed Hp Hp' Hid.
  assert (k = k') as <- by (rewrite <- (Hkeyed k p Hp), <- (Hkeyed k' p' Hp'); exact Hid).
  split; congruence.
Qed.

Lemma filter_all {A : Type} (f : A -> bool) (l : list A) :
  Forall (fun x => f x = true) l -> List.filter f l = l.
Proof.
  induction 1 as [|x l Hx _ IH]; simpl; [reflexivity|].
  now rewrite Hx, IH.
Qed.

(** A write that returns has put every point of its first loop into the
    collection. *)
Lemma store_in_qdrant_returns (E : env) (records : list record) (w : world) :
  fst (_store_in_qdrant E records w) = Returns tt ->
  exists points skipped w0,
    collect_points E records [] 0 w = (Returns (points, skipped), w0)
    /\ collection (snd (_store_in_qdrant E records w)) = upsert points (collection w).
Proof.
  unfold _store_in_qdrant.
  destruct (collect_points_world E records [] 0 w) as [_ Hsame].
  destruct (collect_points E records [] 0 w) as [[[points skipped]|] w0];
    [|discriminate].
  simpl in Hsame. intros Hreturned. exists points, skipped, w0.
  split; [reflexivity|].
  destruct points as [|p points]; [exact Hsame|].
  remember (p :: points) as all.
  destruct (upsert_batches E all (py_range (length all) batch_size) w0)
    as [[[]|] w1] eqn:Hbatches; [|discriminate].
  apply upsert_batches_returns in Hbatches as (Hc & _ & _).
  simpl. now rewrite Hc, batches_cover, Hsame.
Qed.

(** The points the first loop builds come from records of its list that it
    did not pass over, each under the id of its record. *)
Lemma collect_points_built (E : env) (records : list record) :
  forall points skipped w points' skipped' w',
    collect_points E records points skipped w = (Returns (points', skipped'), w') ->
    exists new,
      points' = points ++ new
      /\ Forall (fun p => In (payload p) records
                          /\ passed_over E (payload p) = false
                          /\ item_id (payload p) = point_id p) new.
Proof.
  induction records as [|r rest IH]; intros points skipped w points' skipped' w'; simpl.
  - intros [= <- <- <-]. exists []. rewrite app_nil_r. split; constructor.
  - assert (Hlift : forall new : list point,
               Forall (fun p => In (payload p) rest
                                /\ passed_over E (payload p) = false
                                /\ item_id (payload p) = point_id p) new ->
               Forall (fun p => (r = payload p \/ In (payload p) rest)
                                /\ passed_over E (payload p) = false
                                /\ item_id (payload p) = point_id p) new).
    { intros new Hnew. eapply Forall_impl; [exact Hnew|]. simpl. tauto. }
    destruct (_check_duplicate E (item_id r) w) as [duplicate w1].
    destruct duplicate.
    { intros Hrest. apply IH in Hrest as (new & -> & Hnew). exists new. auto. }
    destruct (get_embedding E (prompt r)) as [embeddings|] eqn:Hemb; [|discriminate].
    destruct (normalize_embedding embeddings) as [v| |] eqn:Hnorm; [| |discriminate].
    + destruct (point_struct_ok E (item_id r) v) eqn:Hok.
      * intros Hrest. apply IH in Hrest as (new & -> & Hnew).
        eexists (_ :: new). split; [now rewrite <- app_assoc|].
        constructor; [|auto].
        simpl. split; [now left|]. split; [|reflexivity].
        unfold passed_over. now rewrite Hemb, Hnorm, Hok.
      * intros Hrest. apply IH in Hrest as (new & -> & Hnew). exists new. auto.
    + intros Hrest. apply IH in Hrest as (new & -> & Hnew). exists new. auto.
Qed.

(** What an upsert leaves under a key was there before or is a point of the
    batch. *)
Lemma upsert_origin (batch : list point) :
  forall (c : gmap Z point) (k : Z) (p : point),
    upsert batch c !! k = Some p -> c !! k = Some p \/ (In p batch /\ point_id p = k).
Proof.
  unfold upsert. induction batch as [|q batch IH]; intros c k p; simpl; [now left|].
  intros Hlook. apply IH in Hlook as [Hlook|[Hin Hid]]; [|now right; split; [right|]].
  destruct (decide (point_id q = k)) as [Hq|Hne].
  - rewrite <- Hq, lookup_insert_eq in Hlook. injection Hlook as <-. right. now split; [left|].
  - rewrite lookup_insert_ne in Hlook by assumption. now left.
Qed.

(** C2 (as amended): take a collection in which every point sits under the
    id of its payload, a scroll that does not fail, and a call of
    [_store_in_qdrant] that returns.  That call overwrites no point that was
    there, and leaves every record either stored under its id or passed
    over (its embedding gave no list of numbers, or its point was refused).
    A second call with the same records builds no point, counts as
    duplicates exactly the records whose id is stored -- all of them when
    none was passed over --, returns a value that carries no count, and
    leaves the collection as it was: each id is held by at most one point.
    No point is ever built from a record that is passed over: what the
    collection holds was there before or comes from a record that was not
    passed over.  So a passed-over record counts as a duplicate on the
    second call exactly when its id is stored, and it does not when its id
    was not stored before and every record of that id is passed over. *)
Theorem second_write_stores_nothing (E : env) (records : list record) (w : world) :
  (forall h wanted, scroll_raises E h wanted = false) ->
  keyed_by_id (collection w) ->
  fst (_store_in_qdrant E records w) = Returns tt ->
  let w1 := snd (_store_in_qdrant E records w) in
  let duplicates :=
    List.filter (fun r => scroll_finds (collection w1) (item_id r)) records in
  (forall k p, collection w !! k = Some p -> collection w1 !! k = Some p)
  /\ keyed_by_id (collection w1)
  /\ Forall (fun r => is_Some (collection w1 !! item_id r) \/ passed_over E r = true)
       records
  /\ (Forall (fun r => passed_over E r = false) records -> duplicates = records)
  /\ (forall r, In r duplicates <-> In r records /\ is_Some (collection w1 !! item_id r))
  /\ (forall k p, collection w1 !! k = Some p ->
      collection w !! k = Some p
      \/ (In (payload p) records /\ passed_over E (payload p) = false
          /\ item_id (payload p) = k))
  /\ (forall r, In r records ->
      collection w !! item_id r = None ->
      (forall r', In r' records -> item_id r' = item_id r -> passed_over E r' = true) ->
      collection w1 !! item_id r = None /\ ~ In r duplicates)
  /\ exists w2,
       collect_points E records [] 0 w1
       = (Returns ([], Z.of_nat (length duplicates)), w2)
       /\ _store_in_qdrant E records w1 = (Returns tt, w2)
       /\ collection w2 = collection w1.
Proof.
  intros Hscroll Hkeyed Hreturned w1 duplicates.
  destruct (store_in_qdrant_returns E records w Hreturned)
    as (points & skipped & w0 & Hcollect & Hc1).
  fold w1 in Hc1.
  destruct (collect_points_returns E Hscroll records [] 0 w points skipped w0 Hcollect)
    as (new & Hnew_eq & Hnew & Hrecords).
  simpl in Hnew_eq. subst new.
  destruct (collect_points_built E records [] 0 w points skipped w0 Hcollect)
    as (built & Hbuilt_eq & Hbuilt).
  simpl in Hbuilt_eq. subst built.
  assert (Hkeyed1 : keyed_by_id (collection w1)).
  { rewrite Hc1. apply upsert_keyed; [assumption|].
    eapply Forall_impl; [exact Hnew|]. now intros p [Hp _]. }
  assert (Hstored : Forall (fun r => is_Some (collection w1 !! item_id r)
                                     \/ passed_over E r = true) records).
  { eapply Forall_impl; [exact Hrecords|]. simpl.
    intros r [Hfound|[(p & Hin & Hp)|Hpassed]]; [left|left|now right].
    - rewrite Hc1. apply upsert_keeps_keys.
      now apply (scroll_finds_keyed (collection w) (item_id r) Hkeyed).
    - rewrite Hc1, <- Hp. now apply upsert_adds_keys. }
  assert (Hduplicates : forall r,
             In r duplicates <-> In r records /\ is_Some (collection w1 !! item_id r)).
  { intros r. unfold duplicates. rewrite filter_In.
    now rewrite (scroll_finds_keyed (collection w1) (item_id r) Hkeyed1). }
  assert (Horigin : forall k p, collection w1 !! k = Some p ->
             collection w !! k = Some p
             \/ (In (payload p) records /\ passed_over E (payload p) = false
                 /\ item_id (payload p) = k)).
  { intros k p Hlook. rewrite Hc1 in Hlook.
    apply upsert_origin in Hlook as [Hlook|[Hin Hid]]; [now left|right].
    rewrite Forall_forall in Hbuilt.
    destruct (Hbuilt p (proj2 (list_elem_of_In _ _) Hin)) as (Hrec & Hpassed & Hpid).
    split; [exact Hrec|]. split; [exact Hpassed|]. congruence. }
  split; [|split; [exact Hkeyed1|split; [exact Hstored|split;
    [|split; [exact Hduplicates|split; [exact Horigin|split]]]]]].
  - intros k p Hlook. rewrite Hc1, upsert_other; [assumption|].
    eapply Forall_impl; [exact Hnew|]. simpl. intros q [_ Hfresh] Heq.
    assert (Hfound : scroll_finds (collection w) (point_id q) = true)
      by (apply scroll_finds_keyed; [assumption|rewrite Heq; eauto]).
    congruence.
  - intros Hnone. unfold duplicates.
    assert (Hall : Forall (fun r => scroll_finds (collection w1) (item_id r) = true)
                     records).
    { apply Forall_forall. intros r Hin.
      rewrite Forall_forall in Hstored, Hnone.
      destruct (Hstored r Hin) as [Hsome|Hpassed];
        [now apply scroll_finds_keyed|].
      rewrite (Hnone r Hin) in Hpassed. discriminate. }
    now apply filter_all.
  - intros r Hin Habsent Hall.
    assert (Hnone : collection w1 !! item_id r = None).
    { destruct (collection w1 !! item_id r) as [p|] eqn:Hlook; [|reflexivity].
      destruct (Horigin _ _ Hlook) as [Hold|(Hrec & Hpassed & Hid)]; [congruence|].
      rewrite (Hall (payload p) Hrec Hid) in Hpassed. discriminate. }
    split; [exact Hnone|]. rewrite Hduplicates, Hnone.
    intros [_ [p Hp]]. discriminate.
  - assert (Hagain : Forall (fun r => scroll_finds (collection w1) (item_id r) = true
                                      \/ passed_over E r = true) records).
    { eapply Forall_impl; [exact Hstored|]. simpl.
      intros r [Hsome|Hpassed]; [left|now right].
      now apply scroll_finds_keyed. }
    destruct (collect_points_again E Hscroll (collection w1) records Hagain [] 0 w1
                eq_refl) as (w2 & Hcollect2 & Hc2 & _).
    exists w2. rewrite Z.add_0_l in Hcollect2.
    split; [exact Hcollect2|]. split; [|exact Hc2].
    unfold _store_in_qdrant. now rewrite Hcollect2.
Qed.

Lemma second_write_stores_nothing_witness :
  (forall h wanted, scroll_raises nested_env h wanted = false)
  /\ keyed_by_id (collection empty_world)
  /\ fst (_store_in_qdrant nested_env [sample_record 7] empty_world) = Returns tt
  /\ exists w2,
       collect_points nested_env [sample_record 7] [] 0
         (snd (_store_in_qdrant nested_env [sample_record 7] empty_world))
       = (Returns ([], Z.of_nat (length
                      (List.filter
                         (fun r => scroll_finds
                                     (collection (snd (_store_in_qdrant nested_env
                                                         [sample_record 7] empty_world)))
                                     (item_id r))
                         [sample_record 7]))), w2)
       /\ _store_in_qdrant nested_env [sample_record 7]
            (snd (_store_in_qdrant nested_env [sample_record 7] empty_world))
          = (Returns tt, w2)
       /\ collection w2
          = collection (snd (_store_in_qdrant nested_env [sample_record 7] empty_world)).
Proof.
  assert (H1 : forall h wanted, scroll_raises nested_env h wanted = false)
    by (intros h wanted; reflexivity).
  assert (H2 : keyed_by_id (collection empty_world))
    by (intros k p Hlook; simpl in Hlook; rewrite lookup_empty in Hlook; discriminate).
  assert (H3 : fst (_store_in_qdrant nested_env [sample_record 7] empty_world) = Returns tt)
    by (vm_compute; reflexivity).
  pose proof (second_write_stores_nothing nested_env [sample_record 7] empty_world
                H1 H2 H3) as (_ & _ & _ & _ & _ & _ & _ & Hsecond).
  exact (conj H1 (conj H2 (conj H3 Hsecond))).
Defined.

(** C2: a record whose embedding is no list is stored by neither call: the
    second call counts no duplicate although it was given one record, and
    no copy of the id is stored. *)
Lemma unembeddable_record_is_no_duplicate :
  fst (_store_in_qdrant working_disk_env [sample_record 7] empty_world) = Returns tt
  /\ fst (collect_points working_disk_env [sample_record 7] [] 0
            (snd (_store_in_qdrant working_disk_env [sample_record 7] empty_world)))
     = Returns ([], 0)
  /\ collection
       (snd (_store_in_qdrant working_disk_env [sample_record 7]
               (snd (_store_in_qdrant working_disk_env [sample_record 7] empty_world))))
     !! 7 = None.
Proof.
  split; [vm_compute; reflexivity|].
  split; vm_compute; reflexivity.
Qed.

(** * Further properties of the code *)

(** ** What the writer adds to the collection *)

(** The points the first loop adds are built from the records it was given,
    each under the id of its record; with a scroll that does not fail, none
    of their ids was found in the collection. *)
Lemma collect_points_new (E : env) (records : list record) :
  forall points skipped w points' skipped' w',
    collect_points E records points skipped w = (Returns (points', skipped'), w') ->
    exists new,
      points' = points ++ new
      /\ Forall (fun p => point_id p = item_id (payload p)
                          /\ In (payload p) records
                          /\ (reliable_scroll E ->
                              scroll_finds (collection w) (point_id p) = false)) new.
Proof.
  induction records as [|r rest IH]; intros points skipped w points' skipped' w'; simpl.
  - intros [= <- <- <-]. exists []. rewrite app_nil_r. split; constructor.
  - assert (Hanswer : reliable_scroll E ->
                      fst (_check_duplicate E (item_id r) w)
                      = scroll_finds (collection w) (item_id r))
      by (intros Hscroll; now apply check_duplicate_answer).
    destruct (check_duplicate_world E (item_id r) w) as [_ Hsame].
    destruct (_check_duplicate E (item_id r) w) as [duplicate w1].
    simpl in Hanswer, Hsame.
    assert (Hlift : forall new : list point,
               Forall (fun p => point_id p = item_id (payload p)
                                /\ In (payload p) rest
                                /\ (reliable_scroll E ->
                                    scroll_finds (collection w1) (point_id p) = false)) new ->
               Forall (fun p => point_id p = item_id (payload p)
                                /\ In (payload p) (r :: rest)
                                /\ (reliable_scroll E ->
                                    scroll_finds (collection w) (point_id p) = false)) new).
    { intros new Hnew. eapply Forall_impl; [exact Hnew|]. simpl.
      intros p (Hid & Hin & Hfresh). rewrite <- Hsame. auto. }
    destruct duplicate.
    { intros Hrest. apply IH in Hrest as (new & -> & Hnew). exists new. auto. }
    destruct (get_embedding E (prompt r)) as [embeddings|]; [|discriminate].
    destruct (normalize_embedding embeddings) as [v| |]; [| |discriminate].
    + destruct (point_struct_ok E (item_id r) v).
      * intros Hrest. apply IH in Hrest as (new & -> & Hnew).
        exists (point_of r v :: new). split; [now rewrite <- app_assoc|].
        constructor; [|auto].
        simpl. split; [reflexivity|]. split; [now left|].
        intros Hscroll. symmetry. now apply Hanswer.
      * intros Hrest. apply IH in Hrest as (new & -> & Hnew). exists new. auto.
    + intros Hrest. apply IH in Hrest as (new & -> & Hnew). exists new. auto.
Qed.

(** Whether it returns or raises, the second loop has upserted a prefix of
    the points. *)
Lemma upsert_batches_prefix (E : env) (points : list point) (count : nat) :
  forall start w,
    exists n,
      collection (snd (upsert_batches E points (range_from count start batch_size) w))
      = upsert (firstn n (skipn start points)) (collection w).
Proof.
  induction count as [|k IH]; intros start w; simpl.
  - exists 0%nat. reflexivity.
  - destruct (upsert_raises E (history w) _); simpl.
    + exists 0%nat. reflexivity.
    + destruct (IH (start + batch_size)%nat
                  (set_collection
                     (upsert (slice points start (start + batch_size)) (collection w))
                     (record_event
                        (Upserted (slice points start (start + batch_size)) true) w)))
        as (n & ->).
      exists (batch_size + n)%nat. simpl collection.
      rewrite <- upsert_app, slice_from, <- firstn_add_skipn.
      do 3 f_equal. rewrite skipn_skipn. f_equal. lia.
Qed.

(** However a call of [_store_in_qdrant] ends, the collection it leaves is
    the one it found with some points upserted, each built from one of the
    records under that record's id. *)
Lemma store_in_qdrant_collection (E : env) (records : list record) (w : world) :
  exists stored,
    collection (snd (_store_in_qdrant E records w)) = upsert stored (collection w)
    /\ Forall (fun p => point_id p = item_id (payload p)
                        /\ In (payload p) records
                        /\ (reliable_scroll E ->
                            scroll_finds (collection w) (point_id p) = false)) stored.
Proof.
  unfold _store_in_qdrant.
  destruct (collect_points_world E records [] 0 w) as [_ Hsame].
  destruct (collect_points E records [] 0 w) as [[[points skipped]|] w1] eqn:Hcollect;
    simpl in Hsame.
  - apply collect_points_new in Hcollect as (new & Hnew_eq & Hnew).
    simpl in Hnew_eq. subst new.
    assert (Hprefix : exists n,
               collection (snd (upsert_batches E points
                                  (py_range (length points) batch_size) w1))
               = upsert (firstn n points) (collection w))
      by (rewrite <- Hsame; apply (upsert_batches_prefix E points _ 0%nat w1)).
    destruct Hprefix as (n & Hprefix).
    destruct points as [|p points].
    + exists []. split; [exact Hsame|constructor].
    + exists (firstn n (p :: points)). split; [exact Hprefix|].
      now apply Forall_take.
  - exists []. split; [exact Hsame|constructor].
Qed.

(** ** Records that pass the validator *)

(** X1: a record that [_process_item] returns comes from a mapping whose
    [meta] is a mapping; its id is [int(str(id))] of a truthy raw id, its
    model is the raw [baseModel] and is in the allow-list, its prompt is the
    raw prompt and is truthy, and the optional fields are copied with the
    defaults of the code: the empty text for [url], [negativePrompt] and
    [createdAt], [None] for the six generation parameters. *)
Theorem accepted_record_fields (item : pyval) (r : record) :
  _process_item item = Some r ->
  exists d m,
    item = PyDict d
    /\ dict_get d "meta" PyNone = PyDict m
    /\ truthy (dict_get d "id" PyNone) = true
    /\ int_of_str_of (dict_get d "id" PyNone) = Some (item_id r)
    /\ valid_record r
    /\ r = {| item_id := item_id r;
              url := dict_get d "url" (PyStr "");
              prompt := dict_get m "prompt" PyNone;
              negative_prompt := dict_get m "negativePrompt" (PyStr "");
              model_name := dict_get d "baseModel" PyNone;
              created_at := dict_get d "createdAt" (PyStr "");
              meta := {| seed := dict_get m "seed" PyNone;
                         steps := dict_get m "steps" PyNone;
                         cfg_scale := dict_get m "cfgScale" PyNone;
                         sampler := dict_get m "sampler" PyNone;
                         width := dict_get m "width" PyNone;
                         height := dict_get m "height" PyNone |} |}.
Proof.
  unfold _process_item, inspect_item.
  destruct item as [| | | | | |d]; try discriminate.
  destruct (truthy (dict_get d "id" PyNone)) eqn:Hid; [|discriminate].
  destruct (int_of_str_of (dict_get d "id" PyNone)) as [n|] eqn:Hint; [|discriminate].
  cbn [negb].
  destruct (truthy (dict_get d "baseModel" PyNone)) eqn:Hmodel; [|discriminate].
  destruct (in_allowed_models (dict_get d "baseModel" PyNone)) eqn:Hallowed;
    [|discriminate].
  cbn [negb].
  destruct (dict_get d "meta" PyNone) as [| | | | | |m] eqn:Hmeta; try discriminate.
  destruct (truthy (dict_get m "prompt" PyNone)) eqn:Hprompt; [|discriminate].
  cbn [negb]. intros [= <-]. exists d, m. cbn.
  repeat split; auto.
Qed.

Lemma accepted_record_fields_witness :
  _process_item (sample_item (PyStr " 1_7 ")) = Some (sample_record 17)
  /\ valid_record (sample_record 17).
Proof.
  split; [reflexivity|].
  destruct (accepted_record_fields (sample_item (PyStr " 1_7 ")) (sample_record 17) eq_refl)
    as (d & m & _ & _ & _ & _ & Hvalid & _).
  exact Hvalid.
Defined.

Lemma process_item_valid (item : pyval) (r : record) :
  _process_item item = Some r -> valid_record r.
Proof.
  unfold _process_item, inspect_item, valid_record.
  destruct item as [| | | | | |d]; try discriminate.
  destruct (negb (truthy (dict_get d "id" PyNone))); [discriminate|].
  destruct (int_of_str_of (dict_get d "id" PyNone)); [|discriminate].
  destruct (negb (truthy (dict_get d "baseModel" PyNone))); [discriminate|].
  destruct (in_allowed_models (dict_get d "baseModel" PyNone)) eqn:Hallowed;
    [|discriminate].
  cbn [negb].
  destruct (dict_get d "meta" PyNone); try discriminate.
  destruct (truthy (dict_get _ "prompt" PyNone)) eqn:Hprompt; [|discriminate].
  cbn [negb]. intros [= <-]. cbn. auto.
Qed.

Lemma process_items_valid (items : list pyval) :
  Forall valid_record (process_items items).
Proof.
  induction items as [|item rest IH]; simpl; [constructor|].
  destruct (_process_item item) as [r|] eqn:Hitem; [|exact IH].
  constructor; [now apply (process_item_valid item)|exact IH].
Qed.

Lemma process_items_length (items : list pyval) :
  (length (process_items items) <= length items)%nat.
Proof.
  induction items as [|item rest IH]; simpl; [lia|].
  destruct (_process_item item); simpl; lia.
Qed.

(** ** What a run does to the collection *)

Section RunInvariant.

Variable E : env.
Variable Inv : gmap Z point -> Prop.

(** A call of the writer on valid records keeps the invariant. *)
Hypothesis Inv_store :
  forall records w,
    Forall valid_record records ->
    Inv (collection w) ->
    Inv (collection (snd (_store_in_qdrant E records w))).

Lemma store_page_invariant (prev : Z) (d : list (string * pyval))
    (records : list record) (total : Z) (w : world) :
  Forall valid_record records ->
  Inv (collection w) ->
  match store_page E prev d records total w with
  | inl (_, w') | inr (_, w') => Inv (collection w')
  end.
Proof.
  intros Hvalid Hinv. unfold store_page.
  destruct records as [|r records]; [exact Hinv|].
  pose proof (Inv_store (r :: records) w Hvalid Hinv) as Hstore.
  destruct (_store_in_qdrant E (r :: records) w) as [[[]|] w1]; simpl in Hstore;
    [|exact Hstore].
  destruct (next_cursor d (PyStr "")) as [c|]; [|exact Hstore].
  now rewrite save_cursor_collection.
Qed.

Lemma iteration_invariant (target prev : Z) (s : loop_state) (w : world) :
  Inv (collection w) -> Inv (collection (snd (iteration E target prev s w))).
Proof.
  intros Hinv. unfold iteration.
  destruct (http_get E (history w) _ (cursor s)) as [data|]; [|exact Hinv].
  destruct data as [| | | | | |d]; try exact Hinv.
  destruct (lookup_key d "items") as [items|]; [|exact Hinv].
  destruct (negb (truthy items)); [exact Hinv|].
  destruct (py_iter items) as [its|]; [|exact Hinv].
  pose proof (store_page_invariant prev d (process_items its) (total_processed s)
                (record_event
                   (Fetched (Z.min BATCH_SIZE (target - total_processed s)) (cursor s) true)
                   w)
                (process_items_valid its) Hinv) as Hpage.
  destruct (store_page E prev d (process_items its) (total_processed s) _)
    as [[total w2]|[total w2]]; [exact Hpage|].
  destruct (next_cursor d PyNone) as [c|]; [|exact Hpage].
  destruct (negb (truthy c)); exact Hpage.
Qed.

Lemma run_loop_invariant (turns : nat) (target prev : Z) :
  forall s w,
    Inv (collection w) -> Inv (collection (snd (run_loop E turns target prev s w))).
Proof.
  induction turns as [|k IH]; intros s w Hinv; simpl;
    destruct (total_processed s <? target); try exact Hinv.
  pose proof (iteration_invariant target prev s w Hinv) as Hturn.
  destruct (iteration E target prev s w) as [[s'|s'|] w']; simpl in Hturn;
    try exact Hturn.
  now apply IH.
Qed.

Lemma get_saved_state_collection (w : world) :
  collection (snd (_get_saved_state E w)) = collection w.
Proof.
  unfold _get_saved_state.
  destruct (disk w) as [| | |[| | | | | |d]]; try reflexivity.
  - apply save_cursor_collection.
  - destruct (py_int _); reflexivity.
Qed.

Lemma fetch_and_store_invariant (turns : nat) (target : Z) (w : world) :
  Inv (collection w) -> Inv (collection (snd (fetch_and_store E turns target w))).
Proof.
  intros Hinv. unfold fetch_and_store.
  pose proof (get_saved_state_collection w) as Hsame.
  destruct (_get_saved_state E w) as [[cursor prev] w0]. simpl in Hsame.
  apply run_loop_invariant. now rewrite Hsame.
Qed.

End RunInvariant.

Lemma upsert_well_formed (batch : list point) :
  forall c : gmap Z point,
    well_formed c ->
    Forall (fun p => point_id p = item_id (payload p) /\ valid_record (payload p)) batch ->
    well_formed (upsert batch c).
Proof.
  unfold upsert. induction batch as [|q batch IH]; intros c Hc Hbatch; simpl;
    [assumption|].
  inversion Hbatch as [|? ? [Hq Hvalid] Hrest]; subst.
  apply IH; [|assumption].
  intros k p. destruct (decide (point_id q = k)) as [<-|Hne].
  - rewrite lookup_insert_eq. intros [= <-]. auto.
  - rewrite lookup_insert_ne by assumption. apply Hc.
Qed.

(** X2: whatever the environment does -- failing scrolls, refused
    upserts, a failing disk, any pages -- a run of [fetch_and_store] that
    starts from a well-formed collection leaves a well-formed collection:
    every point sits under its id, which is the id of its payload, and its
    payload has an allow-listed model and a truthy prompt. *)
Theorem run_keeps_collection_well_formed (E : env) (turns : nat) (target : Z) (w : world) :
  well_formed (collection w) ->
  well_formed (collection (snd (fetch_and_store E turns target w))).
Proof.
  apply (fetch_and_store_invariant E well_formed).
  intros records w0 Hvalid Hinv.
  destruct (store_in_qdrant_collection E records w0) as (stored & -> & Hstored).
  apply upsert_well_formed; [exact Hinv|].
  eapply Forall_impl; [exact Hstored|]. simpl.
  intros p (Hid & Hin & _). split; [exact Hid|].
  rewrite Forall_forall in Hvalid. apply Hvalid. now apply list_elem_of_In.
Qed.

Lemma run_keeps_collection_well_formed_witness :
  well_formed (collection saved_world)
  /\ well_formed (collection (snd (fetch_and_store mixed_page_env 2 1000 saved_world))).
Proof.
  assert (H : well_formed (collection saved_world))
    by (intros k p Hlook; simpl in Hlook; rewrite lookup_empty in Hlook; discriminate).
  exact (conj H (run_keeps_collection_well_formed mixed_page_env 2 1000 saved_world H)).
Defined.

(** X3: a run never removes a point: an id that is in the collection when
    [fetch_and_store] starts is still there after any number of turns, in
    any environment. *)
Theorem run_never_removes (E : env) (turns : nat) (target : Z) (w : world) (k : Z) :
  is_Some (collection w !! k) ->
  is_Some (collection (snd (fetch_and_store E turns target w)) !! k).
Proof.
  apply (fetch_and_store_invariant E (fun c => is_Some (c !! k))).
  intros records w0 _ Hk.
  destruct (store_in_qdrant_collection E records w0) as (stored & -> & _).
  now apply upsert_keeps_keys.
Qed.

(** With a scroll that does not fail, the writer leaves the points it found
    where they are, in a collection keyed by payload id. *)
Lemma store_in_qdrant_keeps_points (E : env) (records : list record) (w : world) :
  reliable_scroll E ->
  keyed_by_id (collection w) ->
  keyed_by_id (collection (snd (_store_in_qdrant E records w)))
  /\ forall k p,
       collection w !! k = Some p ->
       collection (snd (_store_in_qdrant E records w)) !! k = Some p.
Proof.
  intros Hscroll Hkeyed.
  destruct (store_in_qdrant_collection E records w) as (stored & -> & Hstored).
  split.
  - apply upsert_keyed; [exact Hkeyed|].
    eapply Forall_impl; [exact Hstored|]. simpl. now intros p (-> & _).
  - intros k p Hlook. rewrite upsert_other; [exact Hlook|].
    eapply Forall_impl; [exact Hstored|]. simpl.
    intros q (_ & _ & Hfresh) Heq.
    assert (Hfound : scroll_finds (collection w) (point_id q) = true)
      by (apply scroll_finds_keyed; [assumption|rewrite Heq; eauto]).
    rewrite (Hfresh Hscroll) in Hfound. discriminate.
Qed.

(** X4: with a scroll that does not fail and a collection keyed by payload
    id, a run overwrites nothing: every point that is in the collection when
    [fetch_and_store] starts is there unchanged -- same vector, same payload
    -- after any number of turns, and the collection is still keyed by
    payload id. *)
Theorem run_never_overwrites (E : env) (turns : nat) (target : Z) (w : world) :
  reliable_scroll E ->
  keyed_by_id (collection w) ->
  keyed_by_id (collection (snd (fetch_and_store E turns target w)))
  /\ forall k p,
       collection w !! k = Some p ->
       collection (snd (fetch_and_store E turns target w)) !! k = Some p.
Proof.
  intros Hscroll Hkeyed.
  apply (fetch_and_store_invariant E
           (fun c => keyed_by_id c
                     /\ forall k p, collection w !! k = Some p -> c !! k = Some p)).
  - intros records w0 _ [Hkeyed0 Hkept].
    destruct (store_in_qdrant_keeps_points E records w0 Hscroll Hkeyed0) as [Hk Hp].
    split; [exact Hk|]. auto.
  - split; [exact Hkeyed|auto].
Qed.

Lemma run_never_removes_witness :
  is_Some (collection stocked_world !! 17)
  /\ is_Some (collection (snd (fetch_and_store mixed_page_env 2 1000 stocked_world)) !! 17).
Proof.
  assert (H : is_Some (collection stocked_world !! 17)) by (vm_compute; eauto).
  exact (conj H (run_never_removes mixed_page_env 2 1000 stocked_world 17 H)).
Defined.

Lemma run_never_overwrites_witness :
  reliable_scroll mixed_page_env
  /\ keyed_by_id (collection stocked_world)
  /\ collection (snd (fetch_and_store mixed_page_env 2 1000 stocked_world)) !! 17
     = Some {| point_id := 17; vector := [0%float]; payload := sample_record 17 |}.
Proof.
  assert (H1 : reliable_scroll mixed_page_env) by (intros h wanted; reflexivity).
  assert (H2 : keyed_by_id (collection stocked_world)).
  { intros k p. simpl. intros Hlook.
    apply lookup_singleton_Some in Hlook as [<- <-]. reflexivity. }
  assert (H3 : collection stocked_world !! 17
               = Some {| point_id := 17; vector := [0%float]; payload := sample_record 17 |})
    by (vm_compute; reflexivity).
  exact (conj H1 (conj H2
           (proj2 (run_never_overwrites mixed_page_env 2 1000 stocked_world H1 H2) 17 _ H3))).
Defined.

(** ** A duplicate lookup that fails *)

(** X5: when the scroll of [_check_duplicate] raises, the record counts as
    new: if its embedding gives a vector and the upsert is acknowledged, the
    call stores the record under its id whatever was stored there before, so
    an existing point of that id is overwritten. *)
Theorem failed_scroll_overwrites (E : env) (r : record) (w : world)
    (embeddings : pyobj) (v : list float) :
  scroll_raises E (history w) (item_id r) = true ->
  get_embedding E (prompt r) = Some embeddings ->
  normalize_embedding embeddings = Vector v ->
  point_struct_ok E (item_id r) v = true ->
  upsert_raises E (Scrolled (item_id r) false :: history w) [point_of r v] = false ->
  fst (_check_duplicate E (item_id r) w) = false
  /\ fst (_store_in_qdrant E [r] w) = Returns tt
  /\ collection (snd (_store_in_qdrant E [r] w))
     = <[item_id r := point_of r v]> (collection w).
Proof.
  intros Hscroll Hemb Hnorm Hok Hupsert.
  unfold _store_in_qdrant. cbn [collect_points]. unfold _check_duplicate.
  rewrite Hscroll, Hemb, Hnorm, Hok. cbn [app length].
  change (py_range 1 batch_size) with [0%nat].
  cbn [upsert_batches].
  change (slice [{| point_id := item_id r; vector := v; payload := r |}] 0 (0 + batch_size))
    with [point_of r v].
  cbn [record_event history]. rewrite Hupsert. repeat split.
Qed.

Lemma failed_scroll_overwrites_witness :
  collection stocked_world !! 17
  = Some {| point_id := 17; vector := [0%float]; payload := sample_record 17 |}
  /\ collection (snd (_store_in_qdrant deaf_scroll_env [sample_record 17] stocked_world))
     = <[17 := point_of (sample_record 17) sample_vector]> (collection stocked_world).
Proof.
  split; [vm_compute; reflexivity|].
  exact (proj2 (proj2 (failed_scroll_overwrites deaf_scroll_env (sample_record 17)
                         stocked_world (OList [OList (map OFloat sample_vector)])
                         sample_vector eq_refl eq_refl eq_refl eq_refl eq_refl))).
Defined.

(** ** The running total *)

Section RunningTotal.

Variable E : env.
Hypothesis Hpolite : honours_limit E.
Variables target prev : Z.

Lemma store_page_total (d : list (string * pyval)) (records : list record)
    (total : Z) (w : world) :
  match store_page E prev d records total w with
  | inl (total', _) | inr (total', _) =>
      total <= total' <= total + Z.of_nat (length records)
  end.
Proof.
  unfold store_page. destruct records as [|r records]; [simpl; lia|].
  destruct (_store_in_qdrant E (r :: records) w) as [[[]|] w1]; [|lia].
  destruct (next_cursor d (PyStr "")); lia.
Qed.

Lemma iteration_total (s : loop_state) (w : world) :
  total_processed s < target ->
  match fst (iteration E target prev s w) with
  | Continue s' | Break s' => total_processed s <= total_processed s' <= target
  | Crash => True
  end.
Proof.
  intros Hmore. unfold iteration.
  set (limit := Z.min BATCH_SIZE (target - total_processed s)).
  destruct (http_get E (history w) limit (cursor s)) as [data|] eqn:Hget; [|exact I].
  destruct data as [| | | | | |d]; simpl; try lia.
  destruct (lookup_key d "items") as [items|] eqn:Hitems; [|simpl; lia].
  destruct (negb (truthy items)); [simpl; lia|].
  destruct (py_iter items) as [its|] eqn:Hiter; [|exact I].
  assert (Hone : 1 <= limit) by (unfold limit, BATCH_SIZE; lia).
  pose proof (Hpolite _ _ _ _ _ _ Hone Hget Hitems Hiter) as Hlen.
  pose proof (process_items_length its) as Hkept.
  pose proof (store_page_total d (process_items its) (total_processed s)
                (record_event (Fetched limit (cursor s) true) w)) as Hpage.
  assert (Hlimit : limit <= target - total_processed s) by (unfold limit; lia).
  destruct (store_page E prev d (process_items its) (total_processed s) _)
    as [[total w2]|[total w2]]; [simpl; lia|].
  destruct (next_cursor d PyNone) as [c|]; [|exact I].
  destruct (negb (truthy c)); simpl; lia.
Qed.

Lemma run_loop_total (turns : nat) :
  forall s w,
    match fst (run_loop E turns target prev s w) with
    | Finished s' | Running s' =>
        total_processed s <= total_processed s' <= Z.max (total_processed s) target
    | Crashed => True
    end.
Proof.
  induction turns as [|k IH]; intros s w; simpl;
    destruct (Z.ltb_spec (total_processed s) target) as [Hmore|Hdone];
    try (simpl; lia).
  pose proof (iteration_total s w Hmore) as Hturn.
  destruct (iteration E target prev s w) as [[s'|s'|] w']; simpl in Hturn.
  - specialize (IH s' w').
    destruct (fst (run_loop E k target prev s' w')) as [s''| |s'']; try exact I; lia.
  - simpl. lia.
  - exact I.
Qed.

End RunningTotal.

(** X6: when the source never answers with more items than the [limit] it
    was sent, the count of processed records of a run never passes the
    target: at every point where the loop stands or ends,
    [0 <= total_processed <= max 0 target_count]. *)
Theorem total_within_target (E : env) (turns : nat) (target : Z) (w : world) :
  honours_limit E ->
  match fst (fetch_and_store E turns target w) with
  | Finished s | Running s => 0 <= total_processed s <= Z.max 0 target
  | Crashed => True
  end.
Proof.
  intros Hpolite. unfold fetch_and_store.
  destruct (_get_saved_state E w) as [[cursor prev] w0].
  exact (run_loop_total E Hpolite target prev turns
           {| cursor := PyStr cursor; total_processed := 0; batch := 1 |} w0).
Qed.

Lemma total_within_target_witness :
  honours_limit polite_env
  /\ match fst (fetch_and_store polite_env 5 3 empty_world) with
     | Finished s | Running s => 0 <= total_processed s <= Z.max 0 3
     | Crashed => True
     end.
Proof.
  assert (H : honours_limit polite_env).
  { intros h limit c d items its Hone. unfold polite_env. cbn [http_get].
    destruct (Z.leb_spec 1 limit) as [_|Hnone]; [|lia].
    intros [= <-]; intros [= <-]; intros [= <-]; simpl; lia. }
  exact (conj H (total_within_target polite_env 5 3 empty_world H)).
Defined.

Example polite_run_stops_at_target :
  fst (fetch_and_store polite_env 5 3 empty_world)
  = Finished {| cursor := PyStr "c1"; total_processed := 3; batch := 4 |}.
Proof. vm_compute. reflexivity. Qed.

(** Without that, the total can pass the target: a page of 51 valid items
    against a target of 1. *)
Example total_can_pass_target :
  fst (fetch_and_store
         (steady_env (fun _ => Some (PyDict full_page))
            (OList [OList (map OFloat sample_vector)]) Written) 2 1 empty_world)
  = Finished {| cursor := PyStr "c1"; total_processed := 51; batch := 2 |}.
Proof. vm_compute. reflexivity. Qed.

(** ** A stream without a valid record *)




(** ** Resuming from the saved cursor *)

Lemma get_saved_state_holds (E : env) (w : world) (c : pyval) (n : Z) :
  disk w = Holds (cursor_data c n) ->
  _get_saved_state E w = ((py_str E c, n), w).
Proof.
  unfold _get_saved_state. intros ->. reflexivity.
Qed.

Lemma iteration_first_fetch (E : env) (target prev : Z) (s : loop_state) (w : world) :
  exists answered later,
    history (snd (iteration E target prev s w))
    = later ++ Fetched (Z.min BATCH_SIZE (target - total_processed s)) (cursor s) answered
               :: history w.
Proof.
  unfold iteration.
  set (limit := Z.min BATCH_SIZE (target - total_processed s)).
  destruct (http_get E (history w) limit (cursor s)) as [data|];
    [exists true|exists false, []; reflexivity].
  set (w1 := record_event (Fetched limit (cursor s) true) w).
  assert (Hafter : forall w2, added (fun _ => True) w1 w2 ->
            exists later, history w2 = later ++ Fetched limit (cursor s) true :: history w).
  { intros w2 (later & Hh & _). exists later. exact Hh. }
  destruct data as [| | | | | |d]; try (exists []; reflexivity).
  destruct (lookup_key d "items") as [items|]; [|exists []; reflexivity].
  destruct (negb (truthy items)); [exists []; reflexivity|].
  destruct (py_iter items) as [its|]; [|exists []; reflexivity].
  pose proof (store_page_added E (fun _ => True) (fun _ _ => I) (fun _ _ => I)
                (fun _ _ _ => I) prev d (process_items its) (total_processed s) w1)
    as Hpage.
  destruct (store_page E prev d (process_items its) (total_processed s) w1)
    as [[total w2]|[total w2]]; [apply Hafter, Hpage|].
  destruct (next_cursor d PyNone) as [c|]; [|apply Hafter, Hpage].
  destruct (negb (truthy c)); apply Hafter, Hpage.
Qed.

Lemma run_loop_first_fetch (E : env) (turns : nat) (target prev : Z)
    (s : loop_state) (w : world) :
  total_processed s < target ->
  exists answered later,
    history (snd (run_loop E (S turns) target prev s w))
    = later ++ Fetched (Z.min BATCH_SIZE (target - total_processed s)) (cursor s) answered
               :: history w.
Proof.
  intros Hmore. simpl.
  destruct (Z.ltb_spec (total_processed s) target) as [_|Hle]; [|lia].
  destruct (iteration_first_fetch E target prev s w) as (answered & later & Hturn).
  exists answered.
  destruct (iteration E target prev s w) as [[s'|s'|] w']; simpl in Hturn |- *;
    try (exists later; exact Hturn).
  destruct (run_loop_added E (fun _ => True) (fun _ _ => I) (fun _ _ => I)
              (fun _ _ _ => I) (fun _ _ _ _ => I) turns target prev s' w')
    as (more & Hmore' & _).
  exists (more ++ later). rewrite Hmore', Hturn. now rewrite <- app_assoc.
Qed.

Lemma first_request_of_resumed_run (E : env) (turns : nat) (target : Z)
    (w : world) (c : pyval) (n : Z) :
  disk w = Holds (cursor_data c n) ->
  0 < target ->
  exists answered later,
    history (snd (fetch_and_store E (S turns) target w))
    = later ++ Fetched (Z.min BATCH_SIZE target) (PyStr (py_str E c)) answered
               :: history w.
Proof.
  intros Hdisk Hpositive.
  unfold fetch_and_store. rewrite (get_saved_state_holds E w c n Hdisk).
  destruct (run_loop_first_fetch E turns target n
              {| cursor := PyStr (py_str E c); total_processed := 0; batch := 1 |} w
              Hpositive) as (answered & later & Hrun).
  exists answered, later. cbn [total_processed cursor] in Hrun.
  now rewrite Z.sub_0_r in Hrun.
Qed.

(** X8: a run resumes from the text of the saved cursor: when the state
    file holds a cursor [c], the first request of the next run carries
    [str(c)] (and the limit [min(200, target_count)]).  For a cursor that
    was saved as [null] this is the text ["None"], not the empty cursor of
    a fresh start. *)
Theorem resume_sends_saved_cursor_text (E : env) (turns : nat) (target : Z)
    (w : world) (c : pyval) (n : Z) :
  disk w = Holds (cursor_data c n) ->
  0 < target ->
  (exists answered later,
      history (snd (fetch_and_store E (S turns) target w))
      = later ++ Fetched (Z.min BATCH_SIZE target) (PyStr (py_str E c)) answered
                 :: history w)
  /\ py_str E PyNone = "None"
  /\ forall text, py_str E (PyStr text) = text.
Proof.
  intros Hdisk Hpositive. split; [|split; reflexivity].
  now apply first_request_of_resumed_run with (n := n).
Qed.

Lemma resume_sends_saved_cursor_text_witness :
  disk (set_disk (Holds (cursor_data PyNone 43)) empty_world)
  = Holds (cursor_data PyNone 43)
  /\ 0 < 1000
  /\ exists answered later,
       history (snd (fetch_and_store last_page_env 1 1000
                       (set_disk (Holds (cursor_data PyNone 43)) empty_world)))
       = later ++ Fetched (Z.min BATCH_SIZE 1000) (PyStr (py_str last_page_env PyNone))
                    answered
                  :: history (set_disk (Holds (cursor_data PyNone 43)) empty_world).
Proof.
  assert (Hpositive : 0 < 1000) by reflexivity.
  exact (conj eq_refl (conj Hpositive
           (proj1 (resume_sends_saved_cursor_text last_page_env 0 1000
                     (set_disk (Holds (cursor_data PyNone 43)) empty_world) PyNone 43
                     eq_refl Hpositive)))).
Defined.

(** X9: the end of a stream.  When a page gives valid records, the writer
    returns, the page's [nextCursor] is [null] and the write of the state
    file goes through, the turn saves [null] as the cursor and leaves the
    loop; the next run then reads the cursor back as the text ["None"] and
    sends it with its first request. *)
Theorem null_next_cursor_resumes_from_None
    (E : env) (target prev : Z) (s : loop_state) (w : world)
    (d m : list (string * pyval)) (items : pyval) (its : list pyval) :
  let limit := Z.min BATCH_SIZE (target - total_processed s) in
  let w1 := record_event (Fetched limit (cursor s) true) w in
  let total := total_processed s + Z.of_nat (length (process_items its)) in
  http_get E (history w) limit (cursor s) = Some (PyDict d) ->
  lookup_key d "items" = Some items ->
  truthy items = true ->
  py_iter items = Some its ->
  process_items its <> [] ->
  fst (_store_in_qdrant E (process_items its) w1) = Returns tt ->
  lookup_key d "metadata" = Some (PyDict m) ->
  lookup_key m "nextCursor" = Some PyNone ->
  write_outcome_at E (history (snd (_store_in_qdrant E (process_items its) w1))) = Written ->
  fst (iteration E target prev s w)
  = Break {| cursor := PyNone; total_processed := total; batch := batch s |}
  /\ disk (snd (iteration E target prev s w)) = Holds (cursor_data PyNone (prev + total))
  /\ forall turns target',
       0 < target' ->
       exists answered later,
         history (snd (fetch_and_store E (S turns) target' (snd (iteration E target prev s w))))
         = later ++ Fetched (Z.min BATCH_SIZE target') (PyStr "None") answered
                    :: history (snd (iteration E target prev s w)).
Proof.
  intros limit w1 total Hget Hitems Htruthy Hiter Hrecords Hstore Hmeta Hnext Hwritten.
  assert (Hturn : iteration E target prev s w
                  = (Break {| cursor := PyNone; total_processed := total; batch := batch s |},
                     _save_cursor E PyNone (prev + total)
                       (snd (_store_in_qdrant E (process_items its) w1)))).
  { unfold iteration. fold limit. rewrite Hget, Hitems, Htruthy, Hiter. cbn [negb].
    fold w1. unfold store_page, next_cursor, dict_get. rewrite Hmeta, Hnext.
    destruct (process_items its) as [|r records] eqn:Hprocessed; [congruence|].
    destruct (_store_in_qdrant E (r :: records) w1) as [[[]|] w2]; [|discriminate].
    reflexivity. }
  assert (Hdisk : disk (snd (iteration E target prev s w))
                  = Holds (cursor_data PyNone (prev + total))).
  { rewrite Hturn. cbn [snd]. unfold _save_cursor. now rewrite Hwritten. }
  split; [now rewrite Hturn|]. split; [exact Hdisk|].
  intros turns target' Hpositive.
  exact (first_request_of_resumed_run E turns target' _ PyNone _ Hdisk Hpositive).
Qed.

Lemma null_next_cursor_resumes_from_None_witness :
  (http_get last_page_env (history empty_world)
     (Z.min BATCH_SIZE (1000 - total_processed first_turn)) (cursor first_turn)
   = Some (PyDict last_page)
   /\ lookup_key last_page "items" = Some (PyList [sample_item (PyInt 17)])
   /\ truthy (PyList [sample_item (PyInt 17)]) = true
   /\ py_iter (PyList [sample_item (PyInt 17)]) = Some [sample_item (PyInt 17)]
   /\ process_items [sample_item (PyInt 17)] <> []
   /\ fst (_store_in_qdrant last_page_env (process_items [sample_item (PyInt 17)])
             fetched_world) = Returns tt
   /\ lookup_key last_page "metadata" = Some (PyDict [("nextCursor", PyNone)])
   /\ lookup_key [("nextCursor", PyNone)] "nextCursor" = Some PyNone
   /\ write_outcome_at last_page_env
        (history (snd (_store_in_qdrant last_page_env
                         (process_items [sample_item (PyInt 17)]) fetched_world)))
      = Written)
  /\ fst (iteration last_page_env 1000 42 first_turn empty_world)
     = Break {| cursor := PyNone; total_processed := 1; batch := 1 |}
  /\ disk (snd (iteration last_page_env 1000 42 first_turn empty_world))
     = Holds (cursor_data PyNone 43).
Proof.
  assert (H5 : process_items [sample_item (PyInt 17)] <> []) by discriminate.
  assert (H6 : fst (_store_in_qdrant last_page_env (process_items [sample_item (PyInt 17)])
                      fetched_world) = Returns tt) by (vm_compute; reflexivity).
  pose proof (null_next_cursor_resumes_from_None last_page_env 1000 42 first_turn
                empty_world last_page [("nextCursor", PyNone)]
                (PyList [sample_item (PyInt 17)]) [sample_item (PyInt 17)]
                eq_refl eq_refl eq_refl eq_refl H5 H6 eq_refl eq_refl eq_refl)
    as (Hstep & Hdisk & _).
  exact (conj (conj eq_refl (conj eq_refl (conj eq_refl (conj eq_refl (conj H5
                 (conj H6 (conj eq_refl (conj eq_refl eq_refl))))))))
           (conj Hstep Hdisk)).
Defined.

(** ** The sub-batches of one call *)

Lemma slice_length {A : Type} (l : list A) (i n : nat) :
  length (slice l i (i + n)) = Nat.min n (length l - i).
Proof.
  rewrite slice_from, length_firstn, length_skipn. reflexivity.
Qed.

Lemma range_from_length (count step : nat) :
  forall start, length (range_from count start step) = count.
Proof.
  induction count as [|k IH]; intros start; cbn [range_from length];
    [reflexivity|now rewrite IH].
Qed.

Lemma batches_sizes (points : list point) (count : nat) :
  forall start,
    (start + count * batch_size < length points + batch_size)%nat ->
    Forall (fun b => (1 <= length b <= batch_size)%nat)
      (batches points (range_from count start batch_size))
    /\ Forall (fun b => length b = batch_size)
         (removelast (batches points (range_from count start batch_size))).
Proof.
  unfold batches.
  induction count as [|k IH]; intros start Hlast; simpl; [split; constructor|].
  destruct (IH (start + batch_size)%nat) as [Hsizes Hfull]; [lia|].
  split.
  - constructor; [rewrite slice_length; unfold batch_size in *; lia|exact Hsizes].
  - destruct k as [|k]; [constructor|].
    change (range_from (S k) (start + batch_size) batch_size)
      with ((start + batch_size)%nat
            :: range_from k (start + batch_size + batch_size) batch_size) in *.
    cbn [map] in *. remember (map _ (range_from k _ _)) as rest.
    constructor; [|exact Hfull].
    rewrite slice_length. unfold batch_size in *. simpl in Hlast. lia.
Qed.

(** X10: the sub-batches [_store_in_qdrant] cuts cover the points in order
    without gap or overlap; there are [ceil(len(points) / 50)] of them; none
    is empty, none holds more than 50 points, and all but the last hold
    exactly 50. *)
Theorem sub_batches_partition (points : list point) :
  let cut := batches points (py_range (length points) batch_size) in
  concat cut = points
  /\ length cut = ((length points + 49) / 50)%nat
  /\ Forall (fun b => (1 <= length b <= 50)%nat) cut
  /\ Forall (fun b => length b = 50%nat) (removelast cut).
Proof.
  intros cut. split; [apply batches_cover|]. split.
  - unfold cut, batches, py_range. rewrite length_map, range_from_length.
    unfold batch_size. replace (length points + 50 - 1)%nat
      with (length points + 49)%nat by lia.
    reflexivity.
  - apply (batches_sizes points _ 0%nat).
    pose proof (Nat.div_mod_eq (length points + batch_size - 1) batch_size) as Hdiv.
    pose proof (Nat.mod_upper_bound (length points + batch_size - 1) batch_size) as Hmod.
    unfold batch_size in *. lia.
Qed.

(** ** One call as one bulk upsert *)

Lemma upsert_snoc (batch : list point) (p : point) (c : gmap Z point) :
  upsert (batch ++ [p]) c = <[point_id p := p]> (upsert batch c).
Proof. now rewrite upsert_app. Qed.

(** After an upsert, an id holds the last point of the batch that carries
    it, or what it held before. *)
Lemma upsert_lookup (batch : list point) (c : gmap Z point) (k : Z) :
  upsert batch c !! k
  = match find (fun p => point_id p =? k) (rev batch) with
    | Some p => Some p
    | None => c !! k
    end.
Proof.
  induction batch as [|p batch IH] using rev_ind; [reflexivity|].
  rewrite upsert_snoc, rev_app_distr. simpl.
  destruct (Z.eqb_spec (point_id p) k) as [<-|Hne].
  - now rewrite lookup_insert_eq.
  - now rewrite lookup_insert_ne.
Qed.

(** X11: cutting the points into sub-batches changes nothing of what is
    stored: a call of [_store_in_qdrant] that returns leaves the collection
    that one upsert of all the points of its first loop would leave.  Under
    each id it holds the point of the last of those records that carries the
    id, or what was there before when no new record carries it. *)
Theorem returning_call_is_bulk_upsert (E : env) (records : list record) (w : world) :
  fst (_store_in_qdrant E records w) = Returns tt ->
  exists points skipped w0,
    collect_points E records [] 0 w = (Returns (points, skipped), w0)
    /\ collection (snd (_store_in_qdrant E records w)) = upsert points (collection w)
    /\ forall k,
         collection (snd (_store_in_qdrant E records w)) !! k
         = match find (fun p => point_id p =? k) (rev points) with
           | Some p => Some p
           | None => collection w !! k
           end.
Proof.
  intros Hreturned.
  destruct (store_in_qdrant_returns E records w Hreturned)
    as (points & skipped & w0 & Hcollect & Hc).
  exists points, skipped, w0. split; [exact Hcollect|]. split; [exact Hc|].
  intros k. rewrite Hc. apply upsert_lookup.
Qed.

Lemma returning_call_is_bulk_upsert_witness :
  fst (_store_in_qdrant nested_env [sample_record 7; second_record] empty_world) = Returns tt
  /\ collection (snd (_store_in_qdrant nested_env [sample_record 7; second_record]
                        empty_world)) !! 7
     = Some (point_of second_record sample_vector).
Proof.
  assert (H : fst (_store_in_qdrant nested_env [sample_record 7; second_record] empty_world)
              = Returns tt) by (vm_compute; reflexivity).
  split; [exact H|].
  destruct (returning_call_is_bulk_upsert nested_env [sample_record 7; second_record]
              empty_world H) as (points & skipped & w0 & Hcollect & _ & Hlookup).
  rewrite (Hlookup 7).
  vm_compute in Hcollect. injection Hcollect as Hpoints _ _. subst points.
  vm_compute. reflexivity.
Defined.


(** ** The constructor *)

Lemma missing_secrets_spec (secrets : list (string * pyval)) (secret : string) :
  In secret (missing_secrets secrets)
  <-> In secret REQUIRED_SECRETS /\ ~ usable secrets secret.
Proof.
  unfold missing_secrets, usable. rewrite filter_In.
  split; intros [Hin H]; (split; [exact Hin|]).
  - intros (v & Hv & Htrue). rewrite Hv, Htrue in H. discriminate.
  - destruct (lookup_key secrets secret) as [v|]; [|reflexivity].
    destruct (truthy v) eqn:Hv; [|reflexivity].
    exfalso. apply H. now exists v.
Qed.

Lemma init_value_error (E : env) (use_env : bool) (getenv : string -> option string)
    (st_secrets : option (list (string * pyval))) (clients_ok : bool) (w : world)
    (message : string) :
  __init__ E use_env getenv st_secrets clients_ok w = (ValueError message, w)
  <-> exists secrets,
        chosen_secrets use_env getenv st_secrets = Some secrets
        /\ missing_secrets secrets <> []
        /\ message = String.append "Missing required secrets: "
                       (String.concat ", " (missing_secrets secrets)).
Proof.
  unfold __init__.
  destruct (chosen_secrets use_env getenv st_secrets) as [secrets|].
  2:{ split; [discriminate|]. intros (secrets & H & _). discriminate. }
  cbv zeta. destruct (missing_secrets secrets) as [|secret rest] eqn:Hmissing.
  - split.
    + destruct clients_ok; discriminate.
    + intros (secrets' & [= <-] & Hne & _). rewrite Hmissing in Hne. congruence.
  - split.
    + intros [= <-]. exists secrets. rewrite Hmissing. now repeat split.
    + intros (secrets' & [= <-] & _ & ->). now rewrite Hmissing.
Qed.

Lemma init_raises_only_before_writing (E : env) (use_env : bool)
    (getenv : string -> option string) (st_secrets : option (list (string * pyval)))
    (clients_ok : bool) (w : world) :
  (forall self, fst (__init__ E use_env getenv st_secrets clients_ok w) <> Built self) ->
  snd (__init__ E use_env getenv st_secrets clients_ok w) = w.
Proof.
  unfold __init__.
  destruct (chosen_secrets use_env getenv st_secrets) as [secrets|]; [|reflexivity].
  cbv zeta. destruct (missing_secrets secrets); [|reflexivity].
  destruct clients_ok; [|reflexivity].
  intros H. now destruct (H _ eq_refl).
Qed.

Lemma nonempty_has_member {A : Type} (l : list A) : l <> [] <-> exists x, In x l.
Proof.
  destruct l as [|x l]; split.
  - congruence.
  - intros [x []].
  - intros _. exists x. now left.
  - discriminate.
Qed.

(** X12: the constructor raises its [ValueError] exactly when the chosen
    source of secrets can be read and one of the four required secrets is
    absent from it or falsy there; the message is [Missing required
    secrets: ] followed by the names [missing_secrets] gathers, joined by a
    comma and a blank, and a name is among them exactly when it is required
    and not usable.  Without [use_env], secrets that Streamlit cannot read
    raise its own error instead.  A constructor that raises has touched
    nothing.  When all four secrets are usable and the clients can be
    built, the fetcher holds the API key and the collection name of the
    source. *)
Theorem init_rejects_unusable_secrets (E : env) (use_env : bool)
    (getenv : string -> option string) (st_secrets : option (list (string * pyval)))
    (clients_ok : bool) (w : world) :
  let outcome := __init__ E use_env getenv st_secrets clients_ok w in
  (outcome = (SecretsError, w) <-> use_env = false /\ st_secrets = None)
  /\ (forall message,
        outcome = (ValueError message, w)
        <-> exists secrets,
              chosen_secrets use_env getenv st_secrets = Some secrets
              /\ (exists secret, In secret REQUIRED_SECRETS /\ ~ usable secrets secret)
              /\ message = String.append "Missing required secrets: "
                             (String.concat ", " (missing_secrets secrets)))
  /\ (forall secrets secret,
        In secret (missing_secrets secrets)
        <-> In secret REQUIRED_SECRETS /\ ~ usable secrets secret)
  /\ ((forall self, fst outcome <> Built self) -> snd outcome = w)
  /\ (forall secrets,
        chosen_secrets use_env getenv st_secrets = Some secrets ->
        (forall secret, In secret REQUIRED_SECRETS -> usable secrets secret) ->
        clients_ok = true ->
        exists self,
          fst outcome = Built self
          /\ lookup_key secrets "CIVITAI_API_KEY" = Some (api_key self)
          /\ lookup_key secrets "COLLECTION_NAME" = Some (collection_name self)).
Proof.
  intros outcome. split; [|split; [|split; [|split]]].
  - unfold outcome, __init__, chosen_secrets.
    destruct use_env.
    + split; [|intros [H _]; discriminate].
      cbv zeta. destruct (missing_secrets _); [destruct clients_ok|]; discriminate.
    + destruct st_secrets as [secrets|]; [|now split].
      split; [|intros [_ H]; discriminate].
      cbv zeta. destruct (missing_secrets _); [destruct clients_ok|]; discriminate.
  - intros message. unfold outcome. rewrite init_value_error.
    split; intros (secrets & Hchosen & H & Hmessage); exists secrets;
      (split; [exact Hchosen|split; [|exact Hmessage]]).
    + apply nonempty_has_member in H as [secret H]. exists secret.
      now apply missing_secrets_spec.
    + destruct H as [secret H]. apply nonempty_has_member. exists secret.
      now apply missing_secrets_spec.
  - apply missing_secrets_spec.
  - apply init_raises_only_before_writing.
  - intros secrets Hchosen Hall ->. unfold outcome, __init__. rewrite Hchosen. cbv zeta.
    destruct (missing_secrets secrets) as [|secret rest] eqn:Hmissing.
    + eexists. split; [reflexivity|]. cbn [api_key collection_name]. unfold dict_get.
      destruct (Hall "CIVITAI_API_KEY") as (k & -> & _); [cbn; tauto|].
      destruct (Hall "COLLECTION_NAME") as (c & -> & _); [cbn; tauto|].
      split; reflexivity.
    + exfalso. assert (Hin : In secret (missing_secrets secrets))
        by (rewrite Hmissing; now left).
      apply missing_secrets_spec in Hin as [Hin Hnot]. apply Hnot, Hall, Hin.
Qed.

Lemma lookup_from_env (getenv : string -> option string) (secret : string) :
  In secret REQUIRED_SECRETS ->
  lookup_key (secrets_from_env getenv) secret
  = Some match getenv secret with Some s => PyStr s | None => PyNone end.
Proof.
  intros Hin. cbn in Hin. destruct Hin as [<-|[<-|[<-|[<-|[]]]]]; reflexivity.
Qed.

Lemma usable_from_env (getenv : string -> option string) (secret : string) :
  In secret REQUIRED_SECRETS ->
  usable (secrets_from_env getenv) secret
  <-> exists s, getenv secret = Some s /\ s <> "".
Proof.
  assert (Htext : forall s, truthy (PyStr s) = true <-> s <> "").
  { intros s. cbn [truthy]. destruct (String.eqb_spec s ""); cbn; split; congruence. }
  intros Hin. unfold usable. rewrite (lookup_from_env getenv secret Hin). split.
  - intros (v & [= <-] & Htrue). destruct (getenv secret) as [s|]; [|discriminate].
    exists s. split; [reflexivity|now apply Htext].
  - intros (s & -> & Hs). eexists. split; [reflexivity|now apply Htext].
Qed.

(** The secrets the validation finds missing in the environment: the
    variables that are unset or empty, in the order of [REQUIRED_SECRETS]. *)
Lemma missing_from_env (getenv : string -> option string) :
  missing_secrets (secrets_from_env getenv)
  = List.filter (fun secret => match getenv secret with
                               | Some s => String.eqb s ""
                               | None => true
                               end) REQUIRED_SECRETS.
Proof.
  unfold missing_secrets. apply filter_ext_in. intros secret Hin.
  rewrite (lookup_from_env getenv secret Hin).
  destruct (getenv secret) as [s|]; [|reflexivity].
  cbn [truthy]. apply negb_involutive.
Qed.

(** X13: with [use_env], a variable that is set but empty counts as
    missing: the constructor raises its [ValueError] exactly when one of the
    four variables is unset or holds the empty text, whatever [st.secrets]
    holds, and its message names the variables that are unset or empty, in
    the order of [REQUIRED_SECRETS], joined by a comma and a blank. *)
Theorem init_wants_nonempty_variables (E : env) (getenv : string -> option string)
    (st_secrets : option (list (string * pyval))) (clients_ok : bool) (w : world) :
  let unset := fun secret => match getenv secret with
                             | Some s => String.eqb s ""
                             | None => true
                             end in
  ((exists message, __init__ E true getenv st_secrets clients_ok w = (ValueError message, w))
   <-> exists secret,
         In secret REQUIRED_SECRETS /\ (getenv secret = None \/ getenv secret = Some ""))
  /\ (forall message,
        __init__ E true getenv st_secrets clients_ok w = (ValueError message, w)
        <-> List.filter unset REQUIRED_SECRETS <> []
            /\ message = String.append "Missing required secrets: "
                           (String.concat ", " (List.filter unset REQUIRED_SECRETS))).
Proof.
  intros unset.
  assert (Hmessage : forall message,
             __init__ E true getenv st_secrets clients_ok w = (ValueError message, w)
             <-> List.filter unset REQUIRED_SECRETS <> []
                 /\ message = String.append "Missing required secrets: "
                                (String.concat ", " (List.filter unset REQUIRED_SECRETS))).
  { intros message. rewrite init_value_error. cbn [chosen_secrets]. split.
    - intros (secrets & [= <-] & Hne & ->). now rewrite missing_from_env in *.
    - intros [Hne ->]. exists (secrets_from_env getenv).
      now rewrite missing_from_env. }
  split; [|exact Hmessage].
  split.
  - intros [message H]. apply Hmessage in H as [Hne _].
    apply nonempty_has_member in Hne as [secret Hin].
    apply filter_In in Hin as [Hin Hunset]. exists secret. split; [exact Hin|].
    unfold unset in Hunset. destruct (getenv secret) as [s|]; [|now left].
    right. apply String.eqb_eq in Hunset. now subst s.
  - intros (secret & Hin & Hunset). eexists. apply Hmessage. split; [|reflexivity].
    apply nonempty_has_member. exists secret. apply filter_In. split; [exact Hin|].
    unfold unset. destruct Hunset as [-> | ->]; reflexivity.
Qed.

(** X14: building the fetcher changes neither the collection nor the state
    a run resumes from: whatever the disk does when the constructor creates
    the state file, [_get_saved_state] returns afterwards what it would have
    returned before, and a state file that exists, even a malformed one, is
    left as it is. *)
Theorem init_keeps_saved_state (E0 E : env) (use_env : bool)
    (getenv : string -> option string) (st_secrets : option (list (string * pyval)))
    (clients_ok : bool) (w : world) :
  let w' := snd (__init__ E0 use_env getenv st_secrets clients_ok w) in
  fst (_get_saved_state E w') = fst (_get_saved_state E w)
  /\ collection w' = collection w
  /\ (disk w <> Missing -> w' = w).
Proof.
  unfold __init__.
  destruct (chosen_secrets use_env getenv st_secrets) as [secrets|]; [|now repeat split].
  cbv zeta. destruct (missing_secrets secrets); [|now repeat split].
  destruct clients_ok; [|now repeat split].
  cbn [snd]. destruct (disk w) eqn:Hdisk; try (now repeat split).
  split; [|split; [apply save_cursor_collection|congruence]].
  unfold _get_saved_state at 2. rewrite Hdisk.
  unfold _save_cursor.
  destruct (write_outcome_at E0 (history w)); unfold _get_saved_state; cbn; 
    rewrite ?Hdisk; reflexivity.
Qed.

(** ** The two readers of the state file *)

(** X15: after a [_save_cursor(cursor, total)] that goes through,
    [_get_last_cursor] returns the cursor as it was saved, whatever JSON
    value it is, while [_get_saved_state] returns its [str]: for a null
    cursor the first gives [None], the second the text [None]. *)
Theorem readers_after_save (E : env) (w : world) (cursor : pyval) (total : Z) :
  write_outcome_at E (history w) = Written ->
  _get_last_cursor (_save_cursor E cursor total w) = cursor
  /\ fst (_get_saved_state E (_save_cursor E cursor total w)) = (py_str E cursor, total).
Proof.
  intros Hwritten.
  assert (Hdisk : disk (_save_cursor E cursor total w) = Holds (cursor_data cursor total))
    by (unfold _save_cursor; rewrite Hwritten; reflexivity).
  unfold _get_last_cursor, _get_saved_state. rewrite Hdisk. split; reflexivity.
Qed.

Lemma readers_after_save_witness :
  write_outcome_at working_disk_env (history empty_world) = Written
  /\ _get_last_cursor (_save_cursor working_disk_env PyNone 3 empty_world) = PyNone
  /\ fst (_get_saved_state working_disk_env (_save_cursor working_disk_env PyNone 3 empty_world))
     = ("None", 3).
Proof.
  split; [reflexivity|].
  apply (readers_after_save working_disk_env empty_world PyNone 3). reflexivity.
Defined.


Lemma init_rejects_unusable_secrets_witness :
  __init__ working_disk_env false full_env (Some [("QDRANT_URL", PyStr "u")]) true empty_world
  = (ValueError "Missing required secrets: CIVITAI_API_KEY, QDRANT_API_KEY, COLLECTION_NAME",
     empty_world)
  /\ exists secrets,
       chosen_secrets false full_env (Some [("QDRANT_URL", PyStr "u")]) = Some secrets
       /\ (exists secret, In secret REQUIRED_SECRETS /\ ~ usable secrets secret)
       /\ "Missing required secrets: CIVITAI_API_KEY, QDRANT_API_KEY, COLLECTION_NAME"
          = String.append "Missing required secrets: "
              (String.concat ", " (missing_secrets secrets)).
Proof.
  assert (H : __init__ working_disk_env false full_env (Some [("QDRANT_URL", PyStr "u")])
                true empty_world
              = (ValueError
                   "Missing required secrets: CIVITAI_API_KEY, QDRANT_API_KEY, COLLECTION_NAME",
                 empty_world)) by reflexivity.
  split; [exact H|].
  exact (proj1 (proj1 (proj2 (init_rejects_unusable_secrets working_disk_env false full_env
                                (Some [("QDRANT_URL", PyStr "u")]) true empty_world)) _) H).
Defined.

Lemma init_wants_nonempty_variables_witness :
  __init__ working_disk_env true empty_url_env None true empty_world
  = (ValueError "Missing required secrets: QDRANT_URL", empty_world)
  /\ exists secret,
       In secret REQUIRED_SECRETS
       /\ (empty_url_env secret = None \/ empty_url_env secret = Some "").
Proof.
  assert (H : __init__ working_disk_env true empty_url_env None true empty_world
              = (ValueError "Missing required secrets: QDRANT_URL", empty_world))
    by reflexivity.
  split; [exact H|].
  apply (proj1 (proj1 (init_wants_nonempty_variables working_disk_env empty_url_env None
                         true empty_world))).
  eexists. exact H.
Defined.

(** ** The query side *)

Lemma replace_char_fixed (old new : ascii) (s : string) :
  old <> new ->
  replace_char old new s = s <-> ~ In old (list_ascii_of_string s).
Proof.
  intros Hne. induction s as [|c s IH]; cbn [replace_char list_ascii_of_string In].
  - tauto.
  - destruct (Ascii.eqb_spec c old) as [->|Hc].
    + split; [intros [= H _]; congruence|tauto].
    + split.
      * intros [= H]. apply IH in H. intros [Heq|Hin]; [congruence|tauto].
      * intros H. f_equal. apply IH. tauto.
Qed.

Lemma search_request_collection (E : env) (Q : query_env) (prompt model_name : string)
    (k : Z) (name : string) (query_vector : pyobj) (limit : Z) (query_filter : option string) :
  search_request E Q prompt model_name k = Some (name, query_vector, limit, query_filter) ->
  exists configured,
    lookup_key (st_secrets Q) "COLLECTION_NAME" = Some (PyStr configured)
    /\ name = replace_char "-" "_" configured.
Proof.
  unfold search_request, get_qdrant_client.
  destruct (lookup_key (st_secrets Q) "QDRANT_API_KEY") as [key|]; [|discriminate].
  destruct (negb (truthy key)); [discriminate|].
  destruct (lookup_key (st_secrets Q) "QDRANT_URL") as [url|]; [|discriminate].
  destruct (negb (truthy url)); [discriminate|].
  destruct (lookup_key (st_secrets Q) "COLLECTION_NAME") as [collection|]; [|discriminate].
  destruct (clients_built Q); [|discriminate].
  destruct (get_embedding E (PyStr prompt)) as [embeddings|]; [|discriminate].
  destruct (is_sequence Q (query_embedding embeddings)); [|discriminate].
  destruct collection as [| | | |configured| |]; try discriminate.
  intros [= <- _ _ _]. now exists configured.
Qed.

(** X16: the lookup searches the configured collection name with every
    hyphen turned into an underscore, while the fetcher writes to the name
    as it is configured: for a fetcher built from the same secrets the two
    names are the same exactly when the configured name holds no hyphen. *)
Theorem lookup_searches_renamed_collection (E0 E : env) (Q : query_env)
    (getenv : string -> option string) (clients_ok : bool) (w : world) (self : fetcher)
    (prompt model_name : string) (k : Z)
    (name : string) (query_vector : pyobj) (limit : Z) (query_filter : option string) :
  fst (__init__ E0 false getenv (Some (st_secrets Q)) clients_ok w) = Built self ->
  search_request E Q prompt model_name k = Some (name, query_vector, limit, query_filter) ->
  exists configured,
    collection_name self = PyStr configured
    /\ name = replace_char "-" "_" configured
    /\ (name = configured <-> ~ In "-"%char (list_ascii_of_string configured)).
Proof.
  intros Hbuilt Hrequest.
  destruct (search_request_collection _ _ _ _ _ _ _ _ _ Hrequest)
    as (configured & Hconfigured & ->).
  exists configured. split; [|split; [reflexivity|now apply replace_char_fixed]].
  unfold __init__ in Hbuilt. cbn [chosen_secrets] in Hbuilt. cbv zeta in Hbuilt.
  destruct (missing_secrets (st_secrets Q)); [|discriminate].
  destruct clients_ok; [|discriminate].
  injection Hbuilt as <-. cbn [collection_name]. unfold dict_get.
  now rewrite Hconfigured.
Qed.

Lemma lookup_searches_renamed_collection_witness :
  fst (__init__ working_disk_env false full_env (Some (st_secrets two_hits_env)) true
         empty_world)
  = Built {| api_key := PyStr "key";
             base_url := "https://civitai.com/api/v1/images";
             collection_name := PyStr "civitai-images";
             temp_file := "modules/utils/tempfile.json" |}
  /\ search_request nested_env two_hits_env "a cat" "Pony" 5
     = Some ("civitai_images", OList [OList (map OFloat sample_vector)], 5, Some "Pony")
  /\ exists configured,
       PyStr "civitai-images" = PyStr configured
       /\ "civitai_images" = replace_char "-" "_" configured
       /\ ("civitai_images" = configured <-> ~ In "-"%char (list_ascii_of_string configured)).
Proof.
  split; [reflexivity|]. split; [reflexivity|].
  exact (lookup_searches_renamed_collection working_disk_env nested_env two_hits_env
           full_env true empty_world _ "a cat" "Pony" 5 _ _ _ _ eq_refl eq_refl).
Defined.

Lemma prompts_of_hits (hits : list hit) :
  forall prompts, prompts_of hits = Some prompts ->
    (length prompts <= length hits)%nat
    /\ forall p, In p prompts ->
         exists hit_payload,
           In (Some hit_payload) hits /\ lookup_key hit_payload "prompt" = Some p.
Proof.
  induction hits as [|[hit_payload|] hits IH]; cbn [prompts_of]; intros prompts H.
  - injection H as <-. split; [reflexivity|intros p []].
  - destruct (prompts_of hits) as [rest|]; [|discriminate].
    destruct (IH rest eq_refl) as [Hlen Hin]. injection H as <-.
    destruct (lookup_key hit_payload "prompt") as [p0|] eqn:Hp0; cbn [length]; (split; [lia|]).
    + intros p [<-|Hp].
      * exists hit_payload. split; [now left|exact Hp0].
      * destruct (Hin p Hp) as (h & Hh & Hl). exists h. split; [now right|exact Hl].
    + intros p Hp. destruct (Hin p Hp) as (h & Hh & Hl). exists h. split; [now right|exact Hl].
  - discriminate.
Qed.

(** X17: [get_similar_prompts] invents nothing: each prompt it returns is
    the value under [prompt] of the payload of a hit that the search
    answered for the request, so an empty result is all that is left when
    the secrets, the embedder or the search fail; hits without a prompt are
    dropped, hence no more prompts than hits. *)
Theorem similar_prompts_come_from_hits (E : env) (Q : query_env)
    (prompt model_name : string) (k : Z) (p : pyval) :
  In p (get_similar_prompts E Q prompt model_name k) ->
  exists collection_name query_vector query_filter results hit_payload,
    search_request E Q prompt model_name k
    = Some (collection_name, query_vector, k, query_filter)
    /\ search Q collection_name query_vector k query_filter = Some results
    /\ In (Some hit_payload) results
    /\ lookup_key hit_payload "prompt" = Some p
    /\ (length (get_similar_prompts E Q prompt model_name k) <= length results)%nat.
Proof.
  unfold get_similar_prompts.
  destruct (search_request E Q prompt model_name k)
    as [[[[collection_name query_vector] limit] query_filter]|] eqn:Hrequest; [|intros []].
  assert (limit = k) as ->.
  { unfold search_request in Hrequest.
    destruct (get_qdrant_client Q) as [c|]; [|discriminate].
    destruct (get_embedding E (PyStr prompt)) as [e|]; [|discriminate].
    destruct (is_sequence Q (query_embedding e)); [|discriminate].
    destruct c; try discriminate. now injection Hrequest. }
  destruct (search Q collection_name query_vector k query_filter) as [results|] eqn:Hsearch;
    [|intros []].
  destruct (prompts_of results) as [prompts|] eqn:Hprompts; [|intros []].
  intros Hin. destruct (prompts_of_hits results prompts Hprompts) as [Hlen Hfrom].
  destruct (Hfrom p Hin) as (hit_payload & Hhit & Hp).
  exists collection_name, query_vector, query_filter, results, hit_payload.
  repeat split; assumption.
Qed.

Lemma similar_prompts_come_from_hits_witness :
  In (PyStr "a cat") (get_similar_prompts nested_env two_hits_env "a cat" "Pony" 5)
  /\ exists collection_name query_vector query_filter results hit_payload,
       search_request nested_env two_hits_env "a cat" "Pony" 5
       = Some (collection_name, query_vector, 5, query_filter)
       /\ search two_hits_env collection_name query_vector 5 query_filter = Some results
       /\ In (Some hit_payload) results
       /\ lookup_key hit_payload "prompt" = Some (PyStr "a cat")
       /\ (length (get_similar_prompts nested_env two_hits_env "a cat" "Pony" 5)
           <= length results)%nat.
Proof.
  assert (H : In (PyStr "a cat") (get_similar_prompts nested_env two_hits_env "a cat" "Pony" 5))
    by (left; reflexivity).
  split; [exact H|].
  exact (similar_prompts_come_from_hits nested_env two_hits_env "a cat" "Pony" 5 _ H).
Defined.


(** X18: the lookup asks less of the secrets than the fetcher does:
    [get_qdrant_client] gives up exactly when [QDRANT_API_KEY] or
    [QDRANT_URL] is absent or falsy, [COLLECTION_NAME] is absent, or a client
    constructor raises.  It never looks at [CIVITAI_API_KEY] and takes a
    falsy collection name. *)
Theorem client_needs_url_and_key (Q : query_env) :
  get_qdrant_client Q = None
  <-> ~ usable (st_secrets Q) "QDRANT_API_KEY"
      \/ ~ usable (st_secrets Q) "QDRANT_URL"
      \/ lookup_key (st_secrets Q) "COLLECTION_NAME" = None
      \/ clients_built Q = false.
Proof.
  unfold get_qdrant_client, usable.
  destruct (lookup_key (st_secrets Q) "QDRANT_API_KEY") as [key|].
  2:{ split; [|reflexivity]. intros _. left. intros (v & H & _). discriminate. }
  destruct (truthy key) eqn:Hkey; cbn [negb].
  2:{ split; [|reflexivity]. intros _. left. intros (v & [= <-] & H). congruence. }
  destruct (lookup_key (st_secrets Q) "QDRANT_URL") as [url|].
  2:{ split; [|reflexivity]. intros _. right. left. intros (v & H & _). discriminate. }
  destruct (truthy url) eqn:Hurl; cbn [negb].
  2:{ split; [|reflexivity]. intros _. right. left. intros (v & [= <-] & H). congruence. }
  destruct (lookup_key (st_secrets Q) "COLLECTION_NAME") as [name|].
  2:{ split; [|reflexivity]. intros _. tauto. }
  destruct (clients_built Q).
  - split; [discriminate|]. intros [H|[H|[H|H]]]; try discriminate.
    + exfalso. apply H. now exists key.
    + exfalso. apply H. now exists url.
  - split; [|reflexivity]. tauto.
Qed.

(** ** The context for the model *)

Lemma string_app_assoc (a b c : string) :
  String.append (String.append a b) c = String.append a (String.append b c).
Proof.
  induction a as [|x a IH]; [reflexivity|].
  change (String x (String.append (String.append a b) c)
          = String x (String.append a (String.append b c))).
  now rewrite IH.
Qed.

Lemma occurs_refl (s : string) : occurs s s.
Proof.
  exists EmptyString, EmptyString.
  change (s = String.append s EmptyString).
  induction s as [|x s IH]; [reflexivity|].
  change (String x s = String x (String.append s EmptyString)).
  now rewrite <- IH.
Qed.

Lemma occurs_left (needle a b : string) :
  occurs needle a -> occurs needle (String.append a b).
Proof.
  intros (before & after & ->). exists before, (String.append after b).
  now rewrite !string_app_assoc.
Qed.

Lemma occurs_right (needle a b : string) :
  occurs needle b -> occurs needle (String.append a b).
Proof.
  intros (before & after & ->). exists (String.append a before), after.
  now rewrite !string_app_assoc.
Qed.

Lemma occurs_concat (sep needle : string) (parts : list string) :
  In needle parts -> occurs needle (String.concat sep parts).
Proof.
  induction parts as [|x parts IH]; [intros []|].
  intros [->|Hin].
  - destruct parts; cbn [String.concat]; [apply occurs_refl|apply occurs_left, occurs_refl].
  - destruct parts as [|y parts]; [destruct Hin|].
    change (String.concat sep (x :: y :: parts))
      with (String.append x (String.append sep (String.concat sep (y :: parts)))).
    apply occurs_right, occurs_right, IH, Hin.
Qed.

Lemma rag_entries_nth (E : env) (similar_prompts : list pyval) :
  forall idx n p,
    nth_error similar_prompts n = Some p ->
    In (rag_entry E (idx + Z.of_nat n) p) (rag_entries E idx similar_prompts).
Proof.
  induction similar_prompts as [|q rest IH]; intros idx [|n] p H; try discriminate.
  - injection H as ->. left. f_equal. lia.
  - right. replace (idx + Z.of_nat (S n)) with (idx + 1 + Z.of_nat n) by lia.
    now apply IH.
Qed.

(** X19: [format_prompt_for_rag] drops no prompt: the context holds, for
    the prompt at each position [n] of the list (from 0), the three lines
    [Example n+1:], [Prompt:] with the text of the prompt and [Score: 0.0]. *)
Theorem context_names_every_prompt (E : env) (similar_prompts : list pyval) (n : nat)
    (p : pyval) :
  nth_error similar_prompts n = Some p ->
  occurs (rag_entry E (Z.of_nat n + 1) p) (format_prompt_for_rag E similar_prompts).
Proof.
  intros H. unfold format_prompt_for_rag. apply occurs_concat.
  replace (Z.of_nat n + 1) with (1 + Z.of_nat n) by lia.
  now apply rag_entries_nth.
Qed.

Lemma context_names_every_prompt_witness :
  nth_error [PyStr "a cat"; PyStr "a dog"] 1 = Some (PyStr "a dog")
  /\ occurs (rag_entry nested_env 2 (PyStr "a dog"))
       (format_prompt_for_rag nested_env [PyStr "a cat"; PyStr "a dog"]).
Proof.
  split; [reflexivity|].
  exact (context_names_every_prompt nested_env [PyStr "a cat"; PyStr "a dog"] 1
           (PyStr "a dog") eq_refl).
Defined.


(** ** The maintenance scripts *)

Lemma lookup_dict_set_eq (d : list (string * pyval)) (key : string) (value : pyval) :
  lookup_key (dict_set d key value) key = Some value.
Proof.
  induction d as [|[k v] d IH]; cbn [dict_set lookup_key].
  - now rewrite String.eqb_refl.
  - destruct (String.eqb k key) eqn:Hk; cbn [lookup_key]; now rewrite Hk.
Qed.

Lemma lookup_dict_set_ne (d : list (string * pyval)) (key other : string) (value : pyval) :
  other <> key -> lookup_key (dict_set d key value) other = lookup_key d other.
Proof.
  intros Hne. induction d as [|[k v] d IH]; cbn [dict_set lookup_key].
  - destruct (String.eqb_spec key other); [congruence|reflexivity].
  - destruct (String.eqb_spec k key) as [->|Hk]; cbn [lookup_key].
    + destruct (String.eqb_spec key other); [congruence|reflexivity].
    + now rewrite IH.
Qed.

Lemma lookup_dict_remove_eq (d : list (string * pyval)) (key : string) :
  lookup_key (dict_remove d key) key = None.
Proof.
  unfold dict_remove. induction d as [|[k v] d IH]; cbn [List.filter lookup_key fst].
  - reflexivity.
  - destruct (String.eqb k key) eqn:Hk; cbn [negb lookup_key]; [exact IH|now rewrite Hk].
Qed.

Lemma lookup_dict_remove_ne (d : list (string * pyval)) (key other : string) :
  other <> key -> lookup_key (dict_remove d key) other = lookup_key d other.
Proof.
  intros Hne. unfold dict_remove.
  induction d as [|[k v] d IH]; cbn [List.filter lookup_key fst]; [reflexivity|].
  destruct (String.eqb_spec k key) as [->|Hk]; cbn [negb lookup_key].
  - destruct (String.eqb_spec key other); [congruence|exact IH].
  - now rewrite IH.
Qed.

Lemma model_field_step_drops_key (E : env) (r : stored) (p : jpoint) :
  model_field_step E r = Returns (Some p) ->
  lookup_key (jpoint_payload p) "model_name" = None.
Proof.
  unfold model_field_step.
  destruct (stored_payload r) as [payload|]; [|discriminate].
  destruct (lookup_key payload "model_name") as [model|]; [|discriminate].
  destruct (negb _); [discriminate|].
  destruct (get_embedding E _) as [embeddings|]; [|discriminate].
  destruct (normalize_embedding embeddings) as [v| |]; try discriminate.
  destruct (point_struct_ok E (stored_id r) v); [|discriminate].
  intros [= <-]. cbn [jpoint_payload].
  now rewrite lookup_dict_set_ne, lookup_dict_remove_eq by discriminate.
Qed.

(** X20: a point that [update_model_field] rewrites keeps its id; its new
    payload has no [model_name], holds the old value of it under
    [baseModel], and every other key as before; its prompt is truthy, and
    the vector it gets is computed anew from that prompt, not taken from the
    stored point. *)
Theorem model_field_step_renames (E : env) (r : stored) (p : jpoint) :
  model_field_step E r = Returns (Some p) ->
  exists payload model embeddings,
    stored_payload r = Some payload
    /\ lookup_key payload "model_name" = Some model
    /\ jpoint_id p = stored_id r
    /\ lookup_key (jpoint_payload p) "model_name" = None
    /\ lookup_key (jpoint_payload p) "baseModel" = Some model
    /\ (forall key, key <> "model_name" -> key <> "baseModel" ->
        lookup_key (jpoint_payload p) key = lookup_key payload key)
    /\ truthy (dict_get payload "prompt" (PyStr "")) = true
    /\ get_embedding E (dict_get payload "prompt" (PyStr "")) = Some embeddings
    /\ normalize_embedding embeddings = Vector (jpoint_vector p).
Proof.
  unfold model_field_step.
  destruct (stored_payload r) as [payload|]; [|discriminate].
  destruct (lookup_key payload "model_name") as [model|] eqn:Hmodel; [|discriminate].
  assert (Hprompt : dict_get (dict_set (dict_remove payload "model_name") "baseModel" model)
                      "prompt" (PyStr "")
                    = dict_get payload "prompt" (PyStr "")).
  { unfold dict_get.
    now rewrite lookup_dict_set_ne, lookup_dict_remove_ne by discriminate. }
  rewrite Hprompt.
  destruct (truthy (dict_get payload "prompt" (PyStr ""))) eqn:Htruthy; [|discriminate].
  cbn [negb].
  destruct (get_embedding E _) as [embeddings|] eqn:Hemb; [|discriminate].
  destruct (normalize_embedding embeddings) as [v| |] eqn:Hnorm; try discriminate.
  destruct (point_struct_ok E (stored_id r) v); [|discriminate].
  intros [= <-]. exists payload, model, embeddings. cbn [jpoint_id jpoint_payload jpoint_vector].
  split; [reflexivity|]. split; [exact Hmodel|]. split; [reflexivity|].
  split; [now rewrite lookup_dict_set_ne, lookup_dict_remove_eq by discriminate|].
  split; [apply lookup_dict_set_eq|].
  split; [|now repeat split].
  intros key Hmodel_name HbaseModel.
  now rewrite lookup_dict_set_ne, lookup_dict_remove_ne.
Qed.

Lemma model_field_step_renames_witness :
  model_field_step nested_env old_layout = Returns (Some renamed_layout)
  /\ exists payload model embeddings,
       stored_payload old_layout = Some payload
       /\ lookup_key payload "model_name" = Some model
       /\ jpoint_id renamed_layout = stored_id old_layout
       /\ lookup_key (jpoint_payload renamed_layout) "model_name" = None
       /\ lookup_key (jpoint_payload renamed_layout) "baseModel" = Some model
       /\ (forall key, key <> "model_name" -> key <> "baseModel" ->
           lookup_key (jpoint_payload renamed_layout) key = lookup_key payload key)
       /\ truthy (dict_get payload "prompt" (PyStr "")) = true
       /\ get_embedding nested_env (dict_get payload "prompt" (PyStr "")) = Some embeddings
       /\ normalize_embedding embeddings = Vector (jpoint_vector renamed_layout).
Proof.
  assert (H : model_field_step nested_env old_layout = Returns (Some renamed_layout))
    by (vm_compute; reflexivity).
  split; [exact H|].
  exact (model_field_step_renames nested_env old_layout renamed_layout H).
Defined.

Lemma second_pass (update : stored -> result (option jpoint)) :
  (forall r p, update r = Returns (Some p) -> update (read_back p) = Returns None) ->
  forall records points,
    points_to_update update records = Returns points ->
    points_to_update update (map read_back points) = Returns [].
Proof.
  intros Hstep. induction records as [|r rest IH]; cbn [points_to_update]; intros points H.
  - now injection H as <-.
  - destruct (update r) as [changed|] eqn:Hr; [|discriminate].
    destruct (points_to_update update rest) as [later|]; [|discriminate].
    injection H as <-. specialize (IH later eq_refl).
    destruct changed as [p|]; [|exact IH].
    cbn [map points_to_update]. now rewrite (Hstep r p Hr), IH.
Qed.

(** X21: [update_model_field] is idempotent on what it wrote: of the points
    it sends for a page, read back as they were sent, a second pass of its
    loop updates none. *)
Theorem model_field_second_pass (E : env) (records : list stored) (points : list jpoint) :
  points_to_update (model_field_step E) records = Returns points ->
  points_to_update (model_field_step E) (map read_back points) = Returns [].
Proof.
  apply second_pass. intros r p Hstep.
  unfold model_field_step. cbn [read_back stored_payload].
  now rewrite (model_field_step_drops_key E r p Hstep).
Qed.

Lemma model_field_second_pass_witness :
  points_to_update (model_field_step nested_env) [old_layout; read_back renamed_layout]
  = Returns [renamed_layout]
  /\ points_to_update (model_field_step nested_env) (map read_back [renamed_layout])
     = Returns [].
Proof.
  assert (H : points_to_update (model_field_step nested_env)
                [old_layout; read_back renamed_layout] = Returns [renamed_layout])
    by (vm_compute; reflexivity).
  split; [exact H|].
  exact (model_field_second_pass nested_env _ _ H).
Defined.

Ltac dict_lookup :=
  repeat first
    [ rewrite lookup_dict_set_eq
    | rewrite lookup_dict_remove_eq
    | rewrite lookup_dict_set_ne by (discriminate || congruence)
    | rewrite lookup_dict_remove_ne by (discriminate || congruence) ].

(** X22: [update_prompt_fields] touches a point only when its [meta] is a
    dict; the point it sends keeps id and vector; its new [meta] holds
    neither [prompt] nor [negativePrompt] and every other key as before; at
    the root each of the two keys takes the value [meta] had for it, also
    over a value that was there, and no other key changes. *)
Theorem prompt_fields_step_moves (E : env) (r : stored) (p : jpoint) :
  prompt_fields_step E r = Returns (Some p) ->
  exists payload m new_meta,
    stored_payload r = Some payload
    /\ lookup_key payload "meta" = Some (PyDict m)
    /\ jpoint_id p = stored_id r
    /\ jpoint_vector p = stored_vector r
    /\ lookup_key (jpoint_payload p) "meta" = Some (PyDict new_meta)
    /\ lookup_key new_meta "prompt" = None
    /\ lookup_key new_meta "negativePrompt" = None
    /\ (forall key, key <> "prompt" -> key <> "negativePrompt" ->
        lookup_key new_meta key = lookup_key m key)
    /\ (forall key, key = "prompt" \/ key = "negativePrompt" ->
        lookup_key (jpoint_payload p) key
        = match lookup_key m key with
          | Some value => Some value
          | None => lookup_key payload key
          end)
    /\ (forall key, key <> "prompt" -> key <> "negativePrompt" -> key <> "meta" ->
        lookup_key (jpoint_payload p) key = lookup_key payload key).
Proof.
  unfold prompt_fields_step.
  destruct (stored_payload r) as [payload|]; [|discriminate].
  unfold dict_get.
  destruct (lookup_key payload "meta") as [meta|] eqn:Hmeta.
  2:{ unfold fields_to_move, only_in_meta. cbn [py_in lookup_key].
      destruct (lookup_key payload "prompt"), (lookup_key payload "negativePrompt");
        discriminate. }
  destruct (fields_to_move payload meta) as [[|]|]; try discriminate.
  destruct meta as [| | | | | |m]; try discriminate.
  unfold move_field.
  destruct (lookup_key m "prompt") as [v1|] eqn:H1.
  - rewrite lookup_dict_remove_ne by discriminate.
    destruct (lookup_key m "negativePrompt") as [v2|] eqn:H2;
      (destruct (point_struct_ok E (stored_id r) (stored_vector r)); [|discriminate]);
      intros [= <-]; cbn [jpoint_id jpoint_payload jpoint_vector];
      exists payload, m; eexists;
      (split; [reflexivity|]); (split; [exact Hmeta|]); (split; [reflexivity|]);
      (split; [reflexivity|]); (split; [apply lookup_dict_set_eq|]);
      (split; [now dict_lookup|]); (split; [now dict_lookup|]);
      (split; [intros key Hk1 Hk2; now dict_lookup|]);
      (split; [intros key [->| ->]; dict_lookup; rewrite ?H1, ?H2; reflexivity
              |intros key Hk1 Hk2 Hk3; now dict_lookup]).
  - destruct (lookup_key m "negativePrompt") as [v2|] eqn:H2;
      (destruct (point_struct_ok E (stored_id r) (stored_vector r)); [|discriminate]);
      intros [= <-]; cbn [jpoint_id jpoint_payload jpoint_vector];
      exists payload, m; eexists;
      (split; [reflexivity|]); (split; [exact Hmeta|]); (split; [reflexivity|]);
      (split; [reflexivity|]); (split; [apply lookup_dict_set_eq|]);
      (split; [now dict_lookup|]); (split; [now dict_lookup|]);
      (split; [intros key Hk1 Hk2; now dict_lookup|]);
      (split; [intros key [->| ->]; dict_lookup; rewrite ?H1, ?H2; reflexivity
              |intros key Hk1 Hk2 Hk3; now dict_lookup]).
Qed.


Lemma prompt_fields_step_moves_witness :
  prompt_fields_step nested_env old_layout = Returns (Some moved_layout)
  /\ lookup_key (jpoint_payload moved_layout) "prompt" = Some (PyStr "a cat").
Proof.
  assert (H : prompt_fields_step nested_env old_layout = Returns (Some moved_layout))
    by (vm_compute; reflexivity).
  split; [exact H|].
  destruct (prompt_fields_step_moves nested_env old_layout moved_layout H)
    as (payload & m & new_meta & Hpayload & Hmeta & _ & _ & _ & _ & _ & _ & Hmoved & _).
  rewrite (Hmoved "prompt" (or_introl eq_refl)).
  injection Hpayload as <-. injection Hmeta as <-. reflexivity.
Defined.

Lemma prompt_fields_step_cleans_meta (E : env) (r : stored) (p : jpoint) :
  prompt_fields_step E r = Returns (Some p) ->
  exists new_meta,
    lookup_key (jpoint_payload p) "meta" = Some (PyDict new_meta)
    /\ lookup_key new_meta "prompt" = None
    /\ lookup_key new_meta "negativePrompt" = None.
Proof.
  unfold prompt_fields_step.
  destruct (stored_payload r) as [payload|]; [|discriminate].
  destruct (fields_to_move payload _) as [[|]|]; try discriminate.
  destruct (dict_get payload "meta" (PyDict [])) as [| | | | | |m]; try discriminate.
  unfold move_field.
  destruct (lookup_key m "prompt") as [v1|] eqn:H1.
  - rewrite lookup_dict_remove_ne by discriminate.
    destruct (lookup_key m "negativePrompt") as [v2|] eqn:H2;
      (destruct (point_struct_ok E (stored_id r) (stored_vector r)); [|discriminate]);
      intros [= <-]; cbn [jpoint_payload]; eexists;
      (split; [apply lookup_dict_set_eq|]); split; now dict_lookup.
  - destruct (lookup_key m "negativePrompt") as [v2|] eqn:H2;
      (destruct (point_struct_ok E (stored_id r) (stored_vector r)); [|discriminate]);
      intros [= <-]; cbn [jpoint_payload]; eexists;
      (split; [apply lookup_dict_set_eq|]); split; now dict_lookup.
Qed.

(** X23: [update_prompt_fields] is idempotent on what it wrote: of the
    points it sends for a page, read back as they were sent, a second pass of
    its loop updates none. *)
Theorem prompt_fields_second_pass (E : env) (records : list stored) (points : list jpoint) :
  points_to_update (prompt_fields_step E) records = Returns points ->
  points_to_update (prompt_fields_step E) (map read_back points) = Returns [].
Proof.
  apply second_pass. intros r p Hstep.
  destruct (prompt_fields_step_cleans_meta E r p Hstep) as (new_meta & Hmeta & H1 & H2).
  unfold prompt_fields_step. cbn [read_back stored_payload].
  unfold dict_get. rewrite Hmeta.
  unfold fields_to_move, only_in_meta. cbn [py_in]. rewrite H1, H2.
  destruct (lookup_key (jpoint_payload p) "prompt"),
    (lookup_key (jpoint_payload p) "negativePrompt"); reflexivity.
Qed.

Lemma prompt_fields_second_pass_witness :
  points_to_update (prompt_fields_step nested_env) [old_layout; read_back moved_layout]
  = Returns [moved_layout]
  /\ points_to_update (prompt_fields_step nested_env) (map read_back [moved_layout])
     = Returns [].
Proof.
  assert (H : points_to_update (prompt_fields_step nested_env)
                [old_layout; read_back moved_layout] = Returns [moved_layout])
    by (vm_compute; reflexivity).
  split; [exact H|].
  exact (prompt_fields_second_pass nested_env _ _ H).
Defined.

(** ** The scripts on the points of the fetcher *)

Lemma prompt_fields_step_on_fetcher_point (E : env) (p : point) :
  prompt_fields_step E (stored_of p) = Returns None.
Proof. reflexivity. Qed.

(** X24: [update_prompt_fields] has nothing to do on what the fetcher
    stores: a point written by [_store_in_qdrant] has its prompt at the
    root and no [negativePrompt] under [meta], so the loop of the script
    over a page of such points, whatever their records, raises nothing and
    gathers no point to update. *)
Theorem fetcher_points_need_no_move (E : env) (points : list point) :
  points_to_update (prompt_fields_step E) (map stored_of points) = Returns [].
Proof.
  induction points as [|p points IH]; [reflexivity|].
  cbn [map points_to_update].
  rewrite prompt_fields_step_on_fetcher_point. now rewrite IH.
Qed.

(** X25: on a point the fetcher stored, with a prompt that its embedder
    turns into the vector [v], [update_model_field] sends the same id with
    the vector [v] and the payload of the fetcher less [model_name], whose
    value comes last under [baseModel]. *)
Theorem model_field_step_on_fetcher_point (E : env) (p : point) (embeddings : pyobj)
    (v : list float) :
  truthy (prompt (payload p)) = true ->
  get_embedding E (prompt (payload p)) = Some embeddings ->
  normalize_embedding embeddings = Vector v ->
  point_struct_ok E (point_id p) v = true ->
  model_field_step E (stored_of p)
  = Returns (Some {| jpoint_id := point_id p;
                     jpoint_payload :=
                       dict_remove (payload_dict (payload p)) "model_name"
                       ++ [("baseModel", model_name (payload p))];
                     jpoint_vector := v |})
  /\ lookup_key (dict_remove (payload_dict (payload p)) "model_name"
                 ++ [("baseModel", model_name (payload p))]) "model_name" = None.
Proof.
  intros Htruthy Hemb Hnorm Hok. split; [|reflexivity].
  unfold model_field_step.
  cbn [stored_of stored_payload stored_id payload_dict lookup_key String.eqb Ascii.eqb
       Bool.eqb dict_remove List.filter fst negb dict_set dict_get app].
  rewrite Htruthy. cbn [negb]. now rewrite Hemb, Hnorm, Hok.
Qed.

Lemma model_field_step_on_fetcher_point_witness :
  model_field_step nested_env (stored_of (point_of second_record []))
  = Returns (Some {| jpoint_id := 7;
                     jpoint_payload :=
                       dict_remove (payload_dict second_record) "model_name"
                       ++ [("baseModel", PyStr "Pony")];
                     jpoint_vector := sample_vector |})
  /\ lookup_key (dict_remove (payload_dict second_record) "model_name"
                 ++ [("baseModel", PyStr "Pony")]) "model_name" = None.
Proof.
  apply (model_field_step_on_fetcher_point nested_env (point_of second_record [])
           (OList [OList (map OFloat sample_vector)]) sample_vector);
    [reflexivity|reflexivity|vm_compute; reflexivity|reflexivity].
Defined.
